(** * Perception chat: session, turn and context-assembly engine

    A shallow embedding of the [App] component of [src/chatbot.js]: the
    React state of the component is a record, every handler and effect
    callback is a function from the state it closes over (the values of
    the render that created it) and the outcomes of the external calls it
    awaits to the ordered trace of state setters and external calls it
    issues.  [Module Legacy] embeds the session listener and the payload
    construction of the first design of the component
    ([src/unnamed/part_000]), which the properties below are compared
    with. *)

From Stdlib Require Import List String Ascii NArith ZArith Bool Lia.
Import ListNotations.
Open Scope list_scope.

(* ================================================================== *)
(** ** JavaScript strings and values *)
(* ================================================================== *)

Module Js.

(** A JavaScript string is a sequence of UTF-16 code units. *)
Definition jsstring : Type := list N.

(** Source literals are ASCII; [lit] gives their code units. *)
Definition lit (s : string) : jsstring :=
  map N_of_ascii (list_ascii_of_string s).
Arguments lit s%_string.

(** The double quote and the line feed, which the literals above cannot
    spell. *)
Definition dq : jsstring := [34%N].
Definition nl : jsstring := [10%N].

(** [a === b] on strings. *)
Fixpoint str_eq (a b : jsstring) : bool :=
  match a, b with
  | [], [] => true
  | x :: a', y :: b' => N.eqb x y && str_eq a' b'
  | _, _ => false
  end.

(** ECMAScript WhiteSpace and LineTerminator code points, the set that
    [String.prototype.trim] strips: TAB, LF, VT, FF, CR, SP, NBSP,
    U+1680, U+2000..U+200A, U+2028, U+2029, U+202F, U+205F, U+3000 and
    U+FEFF. *)
Definition is_white_space (c : N) : bool :=
  ((9 <=? c) && (c <=? 13)
   || (c =? 32) || (c =? 160) || (c =? 5760)
   || ((8192 <=? c) && (c <=? 8202))
   || (c =? 8232) || (c =? 8233) || (c =? 8239) || (c =? 8287)
   || (c =? 12288) || (c =? 65279))%N.

Fixpoint trimStart (s : jsstring) : jsstring :=
  match s with
  | [] => []
  | c :: r => if is_white_space c then trimStart r else s
  end.

Definition trimEnd (s : jsstring) : jsstring := rev (trimStart (rev s)).

(** [s.trim()] *)
Definition trim (s : jsstring) : jsstring := trimEnd (trimStart s).

(** Values that reach the program from outside (a parsed JSON body, a
    parsed configuration blob), together with [undefined], which property
    reads produce.  Numbers are kept as integers: the program only tests
    them for truthiness and copies them.  An object lists its own
    properties, each key once. *)
#[warnings="-register-all"]
Inductive JsVal : Type :=
| VUndefined
| VNull
| VBool (b : bool)
| VNum (z : Z)
| VStr (s : jsstring)
| VArr (items : list JsVal)
| VObj (fields : list (jsstring * JsVal)).

(** ToBoolean. *)
Definition truthy (v : JsVal) : bool :=
  match v with
  | VUndefined | VNull => false
  | VBool b => b
  | VNum z => negb (Z.eqb z 0)
  | VStr s => match s with [] => false | _ => true end
  | VArr _ | VObj _ => true
  end.

(** A property key as the program writes it: a name ([.candidates]) or an
    index ([[0]]). *)
Inductive Key : Type :=
| KName (name : jsstring)
| KIndex (i : nat).

Fixpoint lookup_field (k : jsstring) (fields : list (jsstring * JsVal)) : JsVal :=
  match fields with
  | [] => VUndefined
  | (k', v) :: rest => if str_eq k k' then v else lookup_field k rest
  end.

(** Decimal spelling of an index, the key under which an object stores
    it; only single digits are written in the source. *)
Definition index_name (i : nat) : jsstring :=
  [(48 + N.of_nat i)%N].

(** [v[k]] for a [v] that is neither [null] nor [undefined].  The names
    the program reads (candidates, content, parts, text, projectId) are
    defined by no built-in prototype, so on arrays, strings, numbers and
    booleans a name reads [undefined]. *)
Definition read (v : JsVal) (k : Key) : JsVal :=
  match v, k with
  | VObj fields, KName n => lookup_field n fields
  | VObj fields, KIndex i => lookup_field (index_name i) fields
  | VArr items, KIndex i => nth i items VUndefined
  | VStr s, KIndex i =>
      match nth_error s i with Some c => VStr [c] | None => VUndefined end
  | _, _ => VUndefined
  end.

(** [v.k]: a TypeError ([None]) on [null] and [undefined]. *)
Definition get (v : JsVal) (k : Key) : option JsVal :=
  match v with
  | VUndefined | VNull => None
  | _ => Some (read v k)
  end.

(** [v?.k] *)
Definition opt_get (v : JsVal) (k : Key) : JsVal :=
  match v with
  | VUndefined | VNull => VUndefined
  | _ => read v k
  end.

(** [a || b] *)
Definition or_else (a b : JsVal) : JsVal := if truthy a then a else b.

End Js.

Import Js.

(* ================================================================== *)
(** ** Data model *)
(* ================================================================== *)

(** A [Date] object, as milliseconds since the epoch. *)
Definition Date : Type := N.

(** [{ sender, text, timestamp }].  [sender] is ['user'] or ['ai'];
    [text] is what the user typed or what was read out of the generation
    response, which is foreign data and is kept as a value. *)
Module Message.
Record t : Type := mk
  { sender : jsstring;
    text : JsVal;
    timestamp : jsstring }.
End Message.

(** [{ id, title, messages, createdAt, updatedAt }] *)
Module Session.
Record t : Type := mk
  { id : jsstring;
    title : jsstring;
    messages : list Message.t;
    createdAt : Date;
    updatedAt : Date }.

(** [{ ...s, messages: ms, updatedAt: d }] *)
Definition with_messages (s : t) (ms : list Message.t) (d : Date) : t :=
  {| id := id s; title := title s; messages := ms;
     createdAt := createdAt s; updatedAt := d |}.
End Session.

(** The handles [getFirestore] and [getAuth] return. *)
Inductive Firestore : Type := firestoreDb.
Inductive Auth : Type := firebaseAuth.

(** [collection(db, `artifacts/${appId}/users/${userId}/chatSessions`)] *)
Record CollectionRef : Type :=
  { col_appId : jsstring; col_userId : jsstring }.

(** [doc(db, `artifacts/${appId}/users/${userId}/chatSessions`, sessionId)] *)
Record DocRef : Type :=
  { doc_collection : CollectionRef; doc_session : jsstring }.

(** One entry of the generation payload, [{ role, parts: [{ text }] }]. *)
Inductive Role : Type := user | model.

Record Content : Type :=
  { role : Role; parts_text : JsVal }.

(** The value of a stored document field.  The [messages] arrays of the
    store are written by this program only, so an array holds messages;
    every other constructor is a value for which [Array.isArray] is
    false. *)
Inductive FieldValue : Type :=
| FUndefined
| FNull
| FBool (b : bool)
| FNumber (z : Z)
| FString (s : jsstring)
| FMap (fields : list (jsstring * JsVal))
| FArray (items : list Message.t).

Definition isArray (v : FieldValue) : bool :=
  match v with FArray _ => true | _ => false end.

(** A document snapshot: [exists()] and, when it does, the [messages]
    field of [data()]. *)
Record DocumentSnapshot : Type :=
  { snap_exists : bool; data_messages : FieldValue }.

(** A document of a query snapshot, [doc.id] and [doc.data()]. *)
Record QueryDoc : Type :=
  { qd_id : jsstring;
    qd_title : jsstring;
    qd_messages : list Message.t;
    qd_createdAt : Date;
    qd_updatedAt : Date }.

(** The globals the host page may define ([None]: [typeof x ===
    'undefined']). *)
Record Globals : Type :=
  { __firebase_config : option jsstring;
    __app_id : option jsstring;
    __initial_auth_token : option jsstring }.

(* ================================================================== *)
(** ** Component state *)
(* ================================================================== *)

(** The [useState] cells of [App]. *)
Record AppState : Type :=
  { messages : list Message.t;
    input : jsstring;
    loading : bool;
    db : option Firestore;
    auth : option Auth;
    userId : option jsstring;
    chatSessions : list Session.t;
    currentSessionId : option jsstring;
    isReady : bool;
    isDemoMode : bool;
    perceptionDocContent : jsstring;
    luaExamplesContent : jsstring }.

(** The initial values passed to [useState]. *)
Definition initialState : AppState :=
  {| messages := []; input := []; loading := false; db := None;
     auth := None; userId := None; chatSessions := [];
     currentSessionId := None; isReady := false; isDemoMode := false;
     perceptionDocContent := []; luaExamplesContent := [] |}.

(** Everything a handler does that is visible outside it, in program
    order: state setters, calls to the store, the authentication
    provider and the generation endpoint, and console output. *)
Inductive Effect : Type :=
| PreventDefault                      (* e.preventDefault() *)
| SetMessages (ms : list Message.t)
| SetInput (i : jsstring)
| SetLoading (b : bool)
| SetDb (d : Firestore)
| SetAuth (a : Auth)
| SetUserId (u : jsstring)
| SetChatSessions (l : list Session.t)
| SetCurrentSessionId (i : jsstring)
| SetIsReady (b : bool)
| SetIsDemoMode (b : bool)
  (* addDoc(collection, { title, messages: [], createdAt, updatedAt }) *)
| AddDoc (c : CollectionRef) (title : jsstring) (createdAt updatedAt : Date)
  (* updateDoc(ref, { messages, updatedAt }) *)
| UpdateDoc (r : DocRef) (ms : list Message.t) (updatedAt : Date)
  (* onSnapshot(query(collection, orderBy('updatedAt', 'desc')), ...) *)
| SubscribeSessions (c : CollectionRef)
  (* onSnapshot(ref, ...) *)
| SubscribeDocument (r : DocRef)
  (* onAuthStateChanged(firebaseAuth, ...) *)
| SubscribeAuth
| SignInWithCustomToken (token : jsstring)
| SignInAnonymously
  (* fetch(apiUrl, { method: 'POST', ..., body: JSON.stringify({ contents }) }),
     apiUrl being a constant *)
| Fetch (contents : list Content)
| ConsoleWarn (msg : jsstring)
| ConsoleError (msg : jsstring).

(** What a setter does to the state; the other effects leave it alone. *)
Definition apply_effect (s : AppState) (e : Effect) : AppState :=
  match e with
  | SetMessages ms =>
      {| messages := ms; input := input s; loading := loading s; db := db s;
         auth := auth s; userId := userId s; chatSessions := chatSessions s;
         currentSessionId := currentSessionId s; isReady := isReady s;
         isDemoMode := isDemoMode s;
         perceptionDocContent := perceptionDocContent s;
         luaExamplesContent := luaExamplesContent s |}
  | SetInput i =>
      {| messages := messages s; input := i; loading := loading s; db := db s;
         auth := auth s; userId := userId s; chatSessions := chatSessions s;
         currentSessionId := currentSessionId s; isReady := isReady s;
         isDemoMode := isDemoMode s;
         perceptionDocContent := perceptionDocContent s;
         luaExamplesContent := luaExamplesContent s |}
  | SetLoading b =>
      {| messages := messages s; input := input s; loading := b; db := db s;
         auth := auth s; userId := userId s; chatSessions := chatSessions s;
         currentSessionId := currentSessionId s; isReady := isReady s;
         isDemoMode := isDemoMode s;
         perceptionDocContent := perceptionDocContent s;
         luaExamplesContent := luaExamplesContent s |}
  | SetDb d =>
      {| messages := messages s; input := input s; loading := loading s;
         db := Some d;
         auth := auth s; userId := userId s; chatSessions := chatSessions s;
         currentSessionId := currentSessionId s; isReady := isReady s;
         isDemoMode := isDemoMode s;
         perceptionDocContent := perceptionDocContent s;
         luaExamplesContent := luaExamplesContent s |}
  | SetAuth a =>
      {| messages := messages s; input := input s; loading := loading s;
         db := db s;
         auth := Some a; userId := userId s; chatSessions := chatSessions s;
         currentSessionId := currentSessionId s; isReady := isReady s;
         isDemoMode := isDemoMode s;
         perceptionDocContent := perceptionDocContent s;
         luaExamplesContent := luaExamplesContent s |}
  | SetUserId u =>
      {| messages := messages s; input := input s; loading := loading s;
         db := db s;
         auth := auth s; userId := Some u; chatSessions := chatSessions s;
         currentSessionId := currentSessionId s; isReady := isReady s;
         isDemoMode := isDemoMode s;
         perceptionDocContent := perceptionDocContent s;
         luaExamplesContent := luaExamplesContent s |}
  | SetChatSessions l =>
      {| messages := messages s; input := input s; loading := loading s;
         db := db s;
         auth := auth s; userId := userId s; chatSessions := l;
         currentSessionId := currentSessionId s; isReady := isReady s;
         isDemoMode := isDemoMode s;
         perceptionDocContent := perceptionDocContent s;
         luaExamplesContent := luaExamplesContent s |}
  | SetCurrentSessionId i =>
      {| messages := messages s; input := input s; loading := loading s;
         db := db s;
         auth := auth s; userId := userId s; chatSessions := chatSessions s;
         currentSessionId := Some i; isReady := isReady s;
         isDemoMode := isDemoMode s;
         perceptionDocContent := perceptionDocContent s;
         luaExamplesContent := luaExamplesContent s |}
  | SetIsReady b =>
      {| messages := messages s; input := input s; loading := loading s;
         db := db s;
         auth := auth s; userId := userId s; chatSessions := chatSessions s;
         currentSessionId := currentSessionId s; isReady := b;
         isDemoMode := isDemoMode s;
         perceptionDocContent := perceptionDocContent s;
         luaExamplesContent := luaExamplesContent s |}
  | SetIsDemoMode b =>
      {| messages := messages s; input := input s; loading := loading s;
         db := db s;
         auth := auth s; userId := userId s; chatSessions := chatSessions s;
         currentSessionId := currentSessionId s; isReady := isReady s;
         isDemoMode := b;
         perceptionDocContent := perceptionDocContent s;
         luaExamplesContent := luaExamplesContent s |}
  | _ => s
  end.

(** The state after a trace of effects has been applied to it. *)
Definition run (s : AppState) (trace : list Effect) : AppState :=
  fold_left apply_effect trace s.

(* ================================================================== *)
(** ** Asynchronous functions *)
(* ================================================================== *)

(** A function body, synchronous or [async]: the trace it has issued and
    how it ended, with a value or ([None]) with a thrown error or a
    rejected promise. *)
Definition proc (A : Type) : Type := (list Effect * option A)%type.

Definition ret {A} (a : A) : proc A := ([], Some a).

Definition bind {A B} (m : proc A) (k : A -> proc B) : proc B :=
  match m with
  | (t, Some a) => let (t', r) := k a in (t ++ t', r)
  | (t, None) => (t, None)
  end.

(** Issue one effect. *)
Definition emit (e : Effect) : proc unit := ([e], Some tt).

(** [await p], or a call that may throw: the outcome is fixed by the
    environment. *)
Definition await {A} (outcome : option A) : proc A := ([], outcome).

(** A call to an [async] function whose promise is dropped: its effects
    happen, its rejection reaches nobody. *)
Definition spawn (m : proc unit) : proc unit := (fst m, Some tt).

(** [try { body } catch (error) { handler }] *)
Definition try_catch {A} (body handler : proc A) : proc A :=
  match body with
  | (t, None) => let (t', r) := handler in (t ++ t', r)
  | done => done
  end.

(** [try { body } finally { cleanup }] *)
Definition try_finally {A} (body : proc A) (cleanup : proc unit) : proc A :=
  let (t, r) := body in
  let (t', r') := cleanup in
  (t ++ t', match r' with Some _ => r | None => None end).

Declare Scope proc_scope.
Delimit Scope proc_scope with proc.
Notation "x <- m ;; k" := (bind m (fun x => k))
  (at level 61, m at next level, right associativity) : proc_scope.
Notation "m ;; k" := (bind m (fun _ => k))
  (at level 61, right associativity) : proc_scope.

(** The trace of a call. *)
Definition trace_of {A} (m : proc A) : list Effect := fst m.

(** Whether a call ended without an uncaught error. *)
Definition completes {A} (m : proc A) : bool :=
  match snd m with Some _ => true | None => false end.

(* ================================================================== *)
(** ** The component of src/chatbot.js *)
(* ================================================================== *)

Module Response.
(** What [fetch] resolves to: [ok], and what [json()] and [text()]
    resolve to ([None]: the promise rejects). *)
Record t : Type := mk
  { ok : bool;
    json : option JsVal;
    text : option jsstring }.
End Response.

Module Chatbot.

Local Open Scope proc_scope.

(** A string cell that may hold [null], read as a condition: [Some s]
    when it is truthy, that is a non-empty string. *)
Definition if_truthy (o : option jsstring) : option jsstring :=
  match o with
  | Some (c :: r) => Some (c :: r)
  | _ => None
  end.

Definition is_truthy (o : option jsstring) : bool :=
  match if_truthy o with Some _ => true | None => false end.

(** [db && userId], with the user id it yields. *)
Definition db_and_userId (s : AppState) : option jsstring :=
  match db s with
  | Some _ => if_truthy (userId s)
  | None => None
  end.

(** [typeof __app_id !== 'undefined' ? __app_id : 'default-app-id'] *)
Definition appId (g : Globals) : jsstring :=
  match __app_id g with
  | Some a => a
  | None => lit "default-app-id"
  end.

Definition chatSessionsRef (g : Globals) (uid : jsstring) : CollectionRef :=
  {| col_appId := appId g; col_userId := uid |}.

Definition sessionDocRef (g : Globals) (uid sid : jsstring) : DocRef :=
  {| doc_collection := chatSessionsRef g uid; doc_session := sid |}.

(** *** createNewChatSession (lines 142-172) *)

Record CreateEnv : Type :=
  { randomUUID : jsstring;          (* crypto.randomUUID() *)
    date_created : Date;            (* createdAt: new Date() *)
    date_updated : Date;            (* updatedAt: new Date() *)
    localeDate : jsstring;          (* new Date().toLocaleDateString() *)
    addDoc : option jsstring }.     (* await addDoc(...): newSessionRef.id *)

Definition createNewChatSession (g : Globals) (s : AppState) (e : CreateEnv)
  : proc unit :=
  emit (SetLoading true) ;;
  (if isDemoMode s then
     let newSessionId := randomUUID e in
     let newSession :=
       Session.mk newSessionId (lit "New Chat (Demo)") []
                  (date_created e) (date_updated e) in
     emit (SetChatSessions (newSession :: chatSessions s)) ;;
     emit (SetCurrentSessionId newSessionId) ;;
     emit (SetMessages [])
   else
     match db_and_userId s with
     | Some uid =>
         try_catch
           (emit (AddDoc (chatSessionsRef g uid)
                         (lit "New Chat " ++ localeDate e)
                         (date_created e) (date_updated e)) ;;
            newSessionRef <- await (addDoc e) ;;
            emit (SetCurrentSessionId newSessionRef) ;;
            emit (SetMessages []))
           (emit (ConsoleError (lit "Error creating new chat session:")))
     | None => ret tt
     end) ;;
  emit (SetLoading false).

(** *** selectChatSession (lines 175-184) *)

Definition selectChatSession (s : AppState) (sessionId : jsstring) : proc unit :=
  emit (SetCurrentSessionId sessionId) ;;
  if isDemoMode s then
    match find (fun x => str_eq (Session.id x) sessionId) (chatSessions s) with
    | Some session => emit (SetMessages (Session.messages session))
    | None => ret tt
    end
  else ret tt.

(** *** Initialisation effect (lines 31-81) *)

Record InitEnv : Type :=
  { JSON_parse : jsstring -> option JsVal;   (* None: SyntaxError *)
    initializeApp : option unit;
    getFirestore : option Firestore;
    getAuth : option Auth;
    onAuthStateChanged_registers : option unit }.

(** The body of the effect; [true] when it returns the cleanup of an
    installed authentication listener. *)
Definition initEffect (g : Globals) (e : InitEnv) : proc bool :=
  match if_truthy (__firebase_config g) with
  | None =>
      emit (ConsoleWarn (lit "Firebase configuration is missing. Running in demo mode.")) ;;
      emit (SetIsDemoMode true) ;;
      emit (SetIsReady true) ;;
      ret false
  | Some config =>
      try_catch
        (firebaseConfig <- await (JSON_parse e config) ;;
         projectId <- await (get firebaseConfig (KName (lit "projectId"))) ;;
         if negb (truthy projectId) then
           emit (ConsoleWarn (lit "Firebase configuration is invalid: 'projectId' is missing. Running in demo mode.")) ;;
           emit (SetIsDemoMode true) ;;
           emit (SetIsReady true) ;;
           ret false
         else
           await (initializeApp e) ;;
           firestoreDb <- await (getFirestore e) ;;
           firebaseAuth <- await (getAuth e) ;;
           emit (SetDb firestoreDb) ;;
           emit (SetAuth firebaseAuth) ;;
           emit SubscribeAuth ;;
           await (onAuthStateChanged_registers e) ;;
           ret true)
        (emit (ConsoleError (lit "Failed to initialize Firebase:")) ;;
         emit (SetIsDemoMode true) ;;
         emit (SetIsReady true) ;;
         ret false)
  end.

(** One delivery to the authentication listener: the signed-in user's
    [uid] or [null], and how the sign-in it then attempts ends. *)
Record AuthEvent : Type :=
  { ev_user : option jsstring;
    signIn : option unit }.

(** The listener passed to [onAuthStateChanged] (lines 57-73). *)
Definition onAuthStateChanged (g : Globals) (ev : AuthEvent) : proc unit :=
  match ev_user ev with
  | Some uid => emit (SetUserId uid)
  | None =>
      try_catch
        (match __initial_auth_token g with
         | Some token => emit (SignInWithCustomToken token) ;; await (signIn ev)
         | None => emit SignInAnonymously ;; await (signIn ev)
         end)
        (emit (ConsoleError (lit "Firebase Auth Error:")) ;;
         emit (SetIsDemoMode true))
  end ;;
  emit (SetIsReady true).

(** The whole initialisation: the effect, then, if it installed the
    listener, the deliveries the listener receives. *)
Definition initialize (g : Globals) (e : InitEnv) (events : list AuthEvent)
  : list Effect :=
  let start := initEffect g e in
  trace_of start ++
  match snd start with
  | Some true => flat_map (fun ev => trace_of (onAuthStateChanged g ev)) events
  | _ => []
  end.

(** *** Session effect and its snapshot listener (lines 84-116) *)

Definition session_of_doc (d : QueryDoc) : Session.t :=
  Session.mk (qd_id d) (qd_title d) (qd_messages d)
             (qd_createdAt d) (qd_updatedAt d).

Definition sessionsEffect (g : Globals) (s : AppState) (e : CreateEnv)
  : proc unit :=
  if negb (isReady s) then ret tt
  else if isDemoMode s then
    if Nat.eqb (List.length (chatSessions s)) 0
    then spawn (createNewChatSession g s e)
    else ret tt
  else
    match db_and_userId s with
    | Some uid => emit (SubscribeSessions (chatSessionsRef g uid))
    | None => ret tt
    end.

(** The listener of the session collection, for one snapshot [docs]
    ([snapshot.empty] is [docs.length === 0]). *)
Definition onSessionsSnapshot (g : Globals) (s : AppState)
  (docs : list QueryDoc) (e : CreateEnv) : proc unit :=
  let sessions := map session_of_doc docs in
  emit (SetChatSessions sessions) ;;
  if negb (is_truthy (currentSessionId s)) && Nat.ltb 0 (List.length sessions) then
    match sessions with
    | first :: _ => emit (SetCurrentSessionId (Session.id first))
    | [] => ret tt
    end
  else if Nat.eqb (List.length docs) 0 then
    spawn (createNewChatSession g s e)
  else ret tt.

(** *** Message effect and its snapshot listener (lines 120-139) *)

Definition messagesEffect (g : Globals) (s : AppState) : proc unit :=
  match if_truthy (currentSessionId s) with
  | None => ret tt
  | Some sid =>
      if isDemoMode s then ret tt
      else if isReady s then
        match db_and_userId s with
        | Some uid => emit (SubscribeDocument (sessionDocRef g uid sid))
        | None => ret tt
        end
      else ret tt
  end.

(** [data.messages] when it is an array. *)
Definition array_items (v : FieldValue) : list Message.t :=
  match v with FArray items => items | _ => [] end.

Definition onMessagesSnapshot (docSnap : DocumentSnapshot) : proc unit :=
  if snap_exists docSnap then
    let data_messages := data_messages docSnap in
    emit (SetMessages
            (if isArray data_messages then array_items data_messages else []))
  else emit (SetMessages []).

(** *** handleSendMessage (lines 271-349) *)

(** The outcomes of the external calls of one turn, in call order. *)
Record TurnEnv : Type :=
  { now_user : jsstring;               (* new Date().toISOString(), line 275 *)
    date_user_saved : Date;            (* updatedAt: new Date(), user write *)
    updateDoc_user : option unit;      (* await updateDoc(...), line 291 *)
    fetch : option Response.t;         (* await fetch(apiUrl, ...) *)
    now_ai : jsstring;                 (* new Date().toISOString(), line 329 *)
    date_ai_saved : Date;              (* updatedAt: new Date(), AI write *)
    updateDoc_ai : option unit }.      (* await updateDoc(...), line 342 *)

Definition systemPrompt : jsstring :=
  lit "You are an AI chatbot specialized in Lua 5.4 and the Perception.cx API. You MUST strictly adhere to the provided Perception.cx API documentation and Lua 5.4 syntax, you can also make an external/custom lua library based on what the user wants. Only provide code examples and explanations relevant to these two contexts. Do NOT provide information or code outside of Lua 5.4 or the Perception.cx API. Your response should be a single, professional, and well-formatted message. Avoid conversational filler and get straight to the point. When providing code, use Lua syntax highlighting within markdown code blocks. For code examples, provide a clear, concise heading (e.g., " ++ dq ++ lit "## Generic Lua Watermark Example" ++ dq ++ lit ") before the code block. Ensure the overall response is clean, easy to read, and follows a structure similar to the user's provided example image, with a brief introductory sentence followed by the code block and its heading. Use the provided Lua examples to learn and improve your responses, making them more accurate and relevant to the user's needs.".

(** The text of the first payload entry (line 308). *)
Definition contextText (s : AppState) : jsstring :=
  systemPrompt ++ nl ++ nl ++ lit "Perception.cx API Documentation:" ++ nl
    ++ perceptionDocContent s ++ nl ++ nl
    ++ lit "Lua Code Examples for Learning:" ++ nl ++ luaExamplesContent s.

(** The text of the second payload entry (line 309). *)
Definition acknowledgement : jsstring :=
  lit "Understood. I will strictly adhere to Lua 5.4 and the Perception.cx API documentation and provided examples, providing only one professional response with proper formatting and no external library references but if a user wants to be able to make an external library like ffi/luajit bit HTTP and more you will make those for the user. I will ensure a concise introduction, clear code block headings, and proper Lua syntax highlighting.".

(** [msg => ({ role: msg.sender === 'user' ? 'user' : 'model',
               parts: [{ text: msg.text }] })] *)
Definition content_of_message (msg : Message.t) : Content :=
  {| role := if str_eq (Message.sender msg) (lit "user") then user else model;
     parts_text := Message.text msg |}.

(** The [contents] array (lines 307-311). *)
Definition contents (s : AppState) (updatedMessages : list Message.t)
  : list Content :=
  {| role := user; parts_text := VStr (contextText s) |}
  :: {| role := model; parts_text := VStr acknowledgement |}
  :: map content_of_message updatedMessages.

Definition defaultResponseText : jsstring :=
  lit "Sorry, I couldn't get a response.".

Definition connectionErrorText : jsstring :=
  lit "There was an error connecting to the AI. Please check the console.".

(** [result.candidates?.[0]?.content?.parts?.[0]?.text] *)
Definition candidateText (result : JsVal) : option JsVal :=
  match get result (KName (lit "candidates")) with
  | None => None
  | Some candidates =>
      Some (opt_get (opt_get (opt_get (opt_get (opt_get candidates
              (KIndex 0)) (KName (lit "content"))) (KName (lit "parts")))
              (KIndex 0)) (KName (lit "text")))
  end.

(** The guard of line 273. *)
Definition rejected (s : AppState) : bool :=
  negb (truthy (VStr (trim (input s)))) || loading s
  || negb (is_truthy (currentSessionId s)).

(** [chatSessions.map(s => s.id === currentSessionId
      ? { ...s, messages, updatedAt: new Date() } : s)] *)
Definition store_locally (l : list Session.t) (sid : jsstring)
  (ms : list Message.t) (d : Date) : list Session.t :=
  map (fun x => if str_eq (Session.id x) sid
                then Session.with_messages x ms d else x) l.

(** The generation call and the reading of its response (lines
    314-327): the value of [aiResponseText] when line 329 is reached. *)
Definition generate (e : TurnEnv) (contents : list Content) : proc JsVal :=
  emit (Fetch contents) ;;
  response <- await (fetch e) ;;
  if Response.ok response then
    result <- await (Response.json response) ;;
    text <- await (candidateText result) ;;
    ret (or_else text (VStr defaultResponseText))
  else
    await (Response.text response) ;;
    emit (ConsoleError (lit "AI API Error:")) ;;
    ret (VStr connectionErrorText).

(** The render that [setMessages(finalMessages)] (line 331) runs before
    it returns.  The component is mounted with [ReactDOM.render] (line
    535), and the call comes after an [await], outside any batch of
    updates: the component is rendered again inside the call, and an
    error of that render leaves the call.  The render hands the text of
    every message to [renderMessageContent] (line 495), which starts
    with [text.split(...)] (line 189): that throws unless the text is a
    string, since no other value of a parsed body has a [split] method.
    The messages of the closure state and the user message have been
    rendered before the [await]; [text] is the text of the message the
    call adds. *)
Definition rerender (text : JsVal) : option unit :=
  match text with
  | VStr _ => Some tt
  | _ => None
  end.

Definition handleSendMessage (g : Globals) (s : AppState) (e : TurnEnv)
  : proc unit :=
  emit PreventDefault ;;
  if rejected s then ret tt
  else
    match if_truthy (currentSessionId s) with
    | None => ret tt
    | Some currentSessionId =>
    let userMessage :=
      Message.mk (lit "user") (VStr (trim (input s))) (now_user e) in
    let updatedMessages := messages s ++ [userMessage] in
    emit (SetMessages updatedMessages) ;;
    emit (SetInput []) ;;
    emit (SetLoading true) ;;
    (if isDemoMode s then
       emit (SetChatSessions
               (store_locally (chatSessions s) currentSessionId
                              updatedMessages (date_user_saved e)))
     else
       match db_and_userId s with
       | Some uid =>
           try_catch
             (emit (UpdateDoc (sessionDocRef g uid currentSessionId)
                              updatedMessages (date_user_saved e)) ;;
              await (updateDoc_user e))
             (emit (ConsoleError (lit "Error saving user message:")))
       | None => ret tt
       end) ;;
    let contents := contents s updatedMessages in
    try_finally
      (try_catch
         (aiResponseText <- generate e contents ;;
          let aiMessage := Message.mk (lit "ai") aiResponseText (now_ai e) in
          let finalMessages := updatedMessages ++ [aiMessage] in
          emit (SetMessages finalMessages) ;;
          await (rerender aiResponseText) ;;
          if isDemoMode s then
            emit (SetChatSessions
                    (store_locally (chatSessions s) currentSessionId
                                   finalMessages (date_ai_saved e)))
          else
            match db_and_userId s with
            | Some uid =>
                emit (UpdateDoc (sessionDocRef g uid currentSessionId)
                                finalMessages (date_ai_saved e)) ;;
                await (updateDoc_ai e)
            | None => ret tt
            end)
         (emit (ConsoleError (lit "Error with AI response:"))))
      (emit (SetLoading false))
    end.

(** The session listener stays installed while the dependencies of its
    effect ([isReady], [isDemoMode], [db], [userId]) keep their values,
    and it keeps the closure [s] of the render that installed it: the
    trace of a sequence of snapshot deliveries. *)
Definition deliver (g : Globals) (s : AppState)
  (snapshots : list (list QueryDoc * CreateEnv)) : list Effect :=
  flat_map (fun d => trace_of (onSessionsSnapshot g s (fst d) (snd d)))
           snapshots.

End Chatbot.

(* ================================================================== *)
(** ** The first design, src/unnamed/part_000 *)
(* ================================================================== *)

Module Legacy.

Local Open Scope proc_scope.

(** createNewChatSession (lines 114-133).  [__app_id] is read without a
    [typeof] test, so an undefined global throws inside the [try]. *)
Definition createNewChatSession (g : Globals) (s : AppState)
  (e : Chatbot.CreateEnv) : proc unit :=
  match Chatbot.db_and_userId s with
  | None => ret tt
  | Some uid =>
      emit (SetLoading true) ;;
      try_finally
        (try_catch
           (appId <- await (__app_id g) ;;
            emit (AddDoc {| col_appId := appId; col_userId := uid |}
                         (lit "New Chat " ++ Chatbot.localeDate e)
                         (Chatbot.date_created e) (Chatbot.date_updated e)) ;;
            newSessionRef <- await (Chatbot.addDoc e) ;;
            emit (SetCurrentSessionId newSessionRef) ;;
            emit (SetMessages []))
           (emit (ConsoleError (lit "Error creating new chat session:"))))
        (emit (SetLoading false))
  end.

(** The listener of the session collection (lines 70-84). *)
Definition onSessionsSnapshot (g : Globals) (s : AppState)
  (docs : list QueryDoc) (e : Chatbot.CreateEnv) : proc unit :=
  let sessions := map Chatbot.session_of_doc docs in
  emit (SetChatSessions sessions) ;;
  if negb (Chatbot.is_truthy (currentSessionId s))
     && Nat.ltb 0 (List.length sessions) then
    match sessions with
    | first :: _ => emit (SetCurrentSessionId (Session.id first))
    | [] => ret tt
    end
  else if negb (Chatbot.is_truthy (currentSessionId s))
          && Nat.eqb (List.length sessions) 0 then
    spawn (createNewChatSession g s e)
  else ret tt.

(** Here [currentSessionId] is a dependency of the effect, so the
    listener is installed again, with the values of the new render,
    whenever a delivery has changed it. *)
Fixpoint deliver (g : Globals) (s : AppState)
  (snapshots : list (list QueryDoc * Chatbot.CreateEnv)) : list Effect :=
  match snapshots with
  | [] => []
  | d :: rest =>
      let t := trace_of (onSessionsSnapshot g s (fst d) (snd d)) in
      t ++ deliver g (run s t) rest
  end.

(** The payload of a turn (lines 400-437): the context is put in front
    of the query of the first message only.  [fullContextForModel] is the
    system prompt with the documentation summary built by
    [simulateFetchPerceptionDocContent]; [userText] is
    [userMessage.text]. *)
Definition chatHistoryForModel (fullContextForModel : jsstring)
  (messages : list Message.t) (userText : jsstring)
  (updatedMessages : list Message.t) : list Content :=
  if Nat.eqb (List.length messages) 0 then
    [ {| role := user;
         parts_text := VStr (fullContextForModel ++ nl ++ nl
                             ++ lit "User Query: " ++ userText) |} ]
  else map Chatbot.content_of_message updatedMessages.

End Legacy.

(* ================================================================== *)
(** ** Observations on traces *)
(* ================================================================== *)

(** The payloads handed to the generation endpoint, in call order. *)
Definition fetched (t : list Effect) : list (list Content) :=
  flat_map (fun e => match e with Fetch c => [c] | _ => [] end) t.

(** Calls that write to the remote store. *)
Definition is_store_write (e : Effect) : bool :=
  match e with
  | AddDoc _ _ _ _ | UpdateDoc _ _ _ => true
  | _ => false
  end.

(** Writes to the in-memory session list, the store of Demo mode. *)
Definition is_local_write (e : Effect) : bool :=
  match e with SetChatSessions _ => true | _ => false end.

(** The events of a turn that the ordering rule is about: persistence
    writes of either mode and the generation call. *)
Definition is_turn_event (e : Effect) : bool :=
  match e with
  | UpdateDoc _ _ _ | SetChatSessions _ | Fetch _ => true
  | _ => false
  end.

Definition turn_events (t : list Effect) : list Effect :=
  filter is_turn_event t.

(** Session creations requested from the store. *)
Definition created (t : list Effect) : nat :=
  List.length (filter (fun e => match e with AddDoc _ _ _ _ => true | _ => false end) t).

(** Setters of the loading flag. *)
Definition is_SetLoading (e : Effect) : bool :=
  match e with SetLoading _ => true | _ => false end.

(** Setters of the mode. *)
Definition is_SetIsDemoMode (e : Effect) : bool :=
  match e with SetIsDemoMode _ => true | _ => false end.

(** A well-formed AI message: sent by ['ai'], with a string as text. *)
Definition is_ai_message (m : Message.t) : bool :=
  str_eq (Message.sender m) (lit "ai")
  && match Message.text m with VStr _ => true | _ => false end.

(** The user message of a turn (line 275). *)
Definition userMessage (s : AppState) (e : Chatbot.TurnEnv) : Message.t :=
  Message.mk (lit "user") (VStr (trim (input s))) (Chatbot.now_user e).

(** The AI message of a turn whose response text is [txt] (line 329). *)
Definition aiMessage (e : Chatbot.TurnEnv) (txt : JsVal) : Message.t :=
  Message.mk (lit "ai") txt (Chatbot.now_ai e).

(** The persistence write of a message list in the mode of [s]: what
    one attempt contributes to [turn_events]. *)
Definition write_of (g : Globals) (s : AppState) (sid : jsstring)
  (ms : list Message.t) (d : Date) : list Effect :=
  if isDemoMode s then
    [SetChatSessions (Chatbot.store_locally (chatSessions s) sid ms d)]
  else
    match Chatbot.db_and_userId s with
    | Some uid => [UpdateDoc (Chatbot.sessionDocRef g uid sid) ms d]
    | None => []
    end.

(** The trace of the user-message persistence step (lines 282-298). *)
Definition user_save_trace (g : Globals) (s : AppState) (e : Chatbot.TurnEnv)
  (sid : jsstring) (ms : list Message.t) : list Effect :=
  write_of g s sid ms (Chatbot.date_user_saved e)
  ++ (if isDemoMode s then []
      else match Chatbot.db_and_userId s, Chatbot.updateDoc_user e with
           | Some _, None => [ConsoleError (lit "Error saving user message:")]
           | _, _ => []
           end).

(** The trace of the AI-message step once the response text [txt] is
    known (lines 329-343), with the [catch] of line 344 when the render
    of the new message or the write throws. *)
Definition ai_save_trace (g : Globals) (s : AppState) (e : Chatbot.TurnEnv)
  (sid : jsstring) (txt : JsVal) (ms : list Message.t) : list Effect :=
  SetMessages ms
  :: match Chatbot.rerender txt with
     | Some _ =>
         write_of g s sid ms (Chatbot.date_ai_saved e)
         ++ (if isDemoMode s then []
             else match Chatbot.db_and_userId s, Chatbot.updateDoc_ai e with
                  | Some _, None =>
                      [ConsoleError (lit "Error with AI response:")]
                  | _, _ => []
                  end)
     | None => [ConsoleError (lit "Error with AI response:")]
     end.

(** The text of the AI message of a turn, read off the outcomes of the
    generation call: [None] when [fetch], [json()], [text()] or the read
    of [result.candidates] throws. *)
Definition response_text (e : Chatbot.TurnEnv) : option JsVal :=
  match Chatbot.fetch e with
  | None => None
  | Some response =>
      if Response.ok response then
        match Response.json response with
        | None => None
        | Some result =>
            match Chatbot.candidateText result with
            | None => None
            | Some text => Some (or_else text (VStr Chatbot.defaultResponseText))
            end
        end
      else
        match Response.text response with
        | None => None
        | Some _ => Some (VStr Chatbot.connectionErrorText)
        end
  end.

(** *** Conditions on the initialisation environment *)

(** The configuration global is undefined or falsy. *)
Definition config_absent (g : Globals) : Prop :=
  Chatbot.if_truthy (__firebase_config g) = None.

(** A truthy project identifier can be read from the configuration. *)
Definition has_projectId (g : Globals) (e : Chatbot.InitEnv) : Prop :=
  exists config parsed projectId,
    Chatbot.if_truthy (__firebase_config g) = Some config
    /\ Chatbot.JSON_parse e config = Some parsed
    /\ get parsed (KName (lit "projectId")) = Some projectId
    /\ truthy projectId = true.

(** One of the calls that set the store and the authentication
    provider up throws. *)
Definition sdk_setup_throws (e : Chatbot.InitEnv) : Prop :=
  Chatbot.initializeApp e = None \/ Chatbot.getFirestore e = None
  \/ Chatbot.getAuth e = None
  \/ Chatbot.onAuthStateChanged_registers e = None.

(** A sign-in attempted by the authentication listener throws. *)
Definition sign_in_throws (events : list Chatbot.AuthEvent) : Prop :=
  exists ev, In ev events
             /\ Chatbot.ev_user ev = None /\ Chatbot.signIn ev = None.

Definition sign_in_throwsb (ev : Chatbot.AuthEvent) : bool :=
  match Chatbot.ev_user ev, Chatbot.signIn ev with
  | None, None => true
  | _, _ => false
  end.

(** The fallback condition as the specification words it: the
    configuration is absent, or it lacks the project identifier, or the
    authentication step throws. *)
Definition specified_fallback (g : Globals) (e : Chatbot.InitEnv)
  (events : list Chatbot.AuthEvent) : Prop :=
  config_absent g \/ ~ has_projectId g e \/ sign_in_throws events.

(* ================================================================== *)
(** ** Sample inputs *)
(* ================================================================== *)

Module Sample.

Definition globals : Globals :=
  {| __firebase_config := None; __app_id := None;
     __initial_auth_token := None |}.

Definition question : Message.t :=
  Message.mk (lit "user") (VStr (lit "How do I draw a line?"))
             (lit "2025-01-01T10:00:00.000Z").

Definition answer : Message.t :=
  Message.mk (lit "ai") (VStr (lit "Use render.draw_line."))
             (lit "2025-01-01T10:00:02.000Z").

Definition session_a : Session.t :=
  Session.mk (lit "a") (lit "New Chat (Demo)") [question; answer] 100%N 200%N.

Definition session_b : Session.t :=
  Session.mk (lit "b") (lit "New Chat (Demo)") [] 300%N 300%N.

(** Demo mode, session [a] open with one exchange, a new question in
    the input box. *)
Definition demo : AppState :=
  {| messages := [question; answer]; input := lit "  and a circle? ";
     loading := false; db := None; auth := None; userId := None;
     chatSessions := [session_a; session_b];
     currentSessionId := Some (lit "a");
     isReady := true; isDemoMode := true;
     perceptionDocContent := lit "render.draw_line(x1, y1, x2, y2, ...)";
     luaExamplesContent := lit "-- Content from rust.lua:" |}.

(** The same in Persistent mode, signed in as [u1]. *)
Definition persistent : AppState :=
  {| messages := [question; answer]; input := lit "  and a circle? ";
     loading := false; db := Some firestoreDb; auth := Some firebaseAuth;
     userId := Some (lit "u1");
     chatSessions := [session_a; session_b];
     currentSessionId := Some (lit "a");
     isReady := true; isDemoMode := false;
     perceptionDocContent := lit "render.draw_line(x1, y1, x2, y2, ...)";
     luaExamplesContent := lit "-- Content from rust.lua:" |}.

(** A blank input box. *)
Definition blank : AppState :=
  {| messages := [question; answer]; input := lit "   ";
     loading := false; db := None; auth := None; userId := None;
     chatSessions := [session_a; session_b];
     currentSessionId := Some (lit "a");
     isReady := true; isDemoMode := true;
     perceptionDocContent := []; luaExamplesContent := [] |}.

(** A response body with one candidate. *)
Definition body_with_text : JsVal :=
  VObj [(lit "candidates",
         VArr [VObj [(lit "content",
                      VObj [(lit "parts",
                             VArr [VObj [(lit "text",
                                          VStr (lit "Use render.draw_circle."))]])])]])].

Definition turn (f : option Response.t) (w1 w2 : option unit)
  : Chatbot.TurnEnv :=
  {| Chatbot.now_user := lit "2025-01-01T10:01:00.000Z";
     Chatbot.date_user_saved := 400%N;
     Chatbot.updateDoc_user := w1;
     Chatbot.fetch := f;
     Chatbot.now_ai := lit "2025-01-01T10:01:03.000Z";
     Chatbot.date_ai_saved := 500%N;
     Chatbot.updateDoc_ai := w2 |}.

(** The endpoint answers. *)
Definition turn_ok : Chatbot.TurnEnv :=
  turn (Some (Response.mk true (Some body_with_text) None)) (Some tt) (Some tt).

(** The endpoint answers, the user-message write was refused. *)
Definition turn_user_write_fails : Chatbot.TurnEnv :=
  turn (Some (Response.mk true (Some body_with_text) None)) None (Some tt).

(** [fetch] rejects: the network is down. *)
Definition turn_fetch_throws : Chatbot.TurnEnv :=
  turn None (Some tt) (Some tt).

(** The endpoint answers 200 with the JSON body [null]. *)
Definition turn_null_body : Chatbot.TurnEnv :=
  turn (Some (Response.mk true (Some VNull) None)) (Some tt) (Some tt).

(** The endpoint answers 500. *)
Definition turn_http_500 : Chatbot.TurnEnv :=
  turn (Some (Response.mk false None (Some (lit "Internal error"))))
       (Some tt) (Some tt).

(** Persistent mode at the time the session listener is installed:
    signed in, nothing loaded yet. *)
Definition signed_in : AppState :=
  {| messages := []; input := []; loading := false;
     db := Some firestoreDb; auth := Some firebaseAuth;
     userId := Some (lit "u1"); chatSessions := [];
     currentSessionId := None; isReady := true; isDemoMode := false;
     perceptionDocContent := []; luaExamplesContent := [] |}.

(** Demo mode at first readiness. *)
Definition demo_start : AppState :=
  {| messages := []; input := []; loading := false;
     db := None; auth := None; userId := None; chatSessions := [];
     currentSessionId := None; isReady := true; isDemoMode := true;
     perceptionDocContent := []; luaExamplesContent := [] |}.

Definition hosted : Globals :=
  {| __firebase_config :=
       Some (lit "{" ++ dq ++ lit "projectId" ++ dq ++ lit ":" ++ dq
             ++ lit "perception" ++ dq ++ lit "}");
     __app_id := Some (lit "perception-chat");
     __initial_auth_token := None |}.

Definition creation (new_id : jsstring) (d : Date) : Chatbot.CreateEnv :=
  {| Chatbot.randomUUID := new_id;
     Chatbot.date_created := d; Chatbot.date_updated := d;
     Chatbot.localeDate := lit "1/1/2025";
     Chatbot.addDoc := Some new_id |}.

(** Two empty snapshots of the session collection, each followed by a
    creation that the store accepts. *)
Definition two_empty_snapshots : list (list QueryDoc * Chatbot.CreateEnv) :=
  [ ([], creation (lit "s1") 600%N); ([], creation (lit "s2") 700%N) ].

(** A creation that the store refuses: [addDoc] rejects. *)
Definition refused (d : Date) : Chatbot.CreateEnv :=
  {| Chatbot.randomUUID := lit "unused";
     Chatbot.date_created := d; Chatbot.date_updated := d;
     Chatbot.localeDate := lit "1/1/2025";
     Chatbot.addDoc := None |}.

(** The snapshots of a refused creation: the collection is empty, then
    shows the locally pending document [s1], then is empty again once
    the store has refused the write. *)
Definition refused_creation_snapshots
  : list (list QueryDoc * Chatbot.CreateEnv) :=
  [ ([], refused 600%N);
    ([ {| qd_id := lit "s1"; qd_title := lit "New Chat 1/1/2025";
          qd_messages := []; qd_createdAt := 600%N; qd_updatedAt := 600%N |} ],
     refused 650%N);
    ([], refused 700%N) ].

(** [JSON.parse] on the configuration of [hosted]. *)
Definition parse_hosted (config : jsstring) : option JsVal :=
  match __firebase_config hosted with
  | Some text =>
      if str_eq config text
      then Some (VObj [(lit "projectId", VStr (lit "perception"))])
      else None
  | None => None
  end.

(** Everything is set up. *)
Definition init_ok : Chatbot.InitEnv :=
  {| Chatbot.JSON_parse := parse_hosted;
     Chatbot.initializeApp := Some tt;
     Chatbot.getFirestore := Some firestoreDb;
     Chatbot.getAuth := Some firebaseAuth;
     Chatbot.onAuthStateChanged_registers := Some tt |}.

(** The configuration names a project, [initializeApp] throws (the
    host page has already initialised an app with other options). *)
Definition init_initializeApp_throws : Chatbot.InitEnv :=
  {| Chatbot.JSON_parse := parse_hosted;
     Chatbot.initializeApp := None;
     Chatbot.getFirestore := Some firestoreDb;
     Chatbot.getAuth := Some firebaseAuth;
     Chatbot.onAuthStateChanged_registers := Some tt |}.

(** No user yet, the anonymous sign-in succeeds, the user arrives. *)
Definition sign_in_succeeds : list Chatbot.AuthEvent :=
  [ {| Chatbot.ev_user := None; Chatbot.signIn := Some tt |};
    {| Chatbot.ev_user := Some (lit "u1"); Chatbot.signIn := Some tt |} ].

(** No user, the anonymous sign-in is refused. *)
Definition sign_in_refused : list Chatbot.AuthEvent :=
  [ {| Chatbot.ev_user := None; Chatbot.signIn := None |} ].

(** The endpoint answers 200 with a number where the text is
    expected. *)
Definition body_with_number : JsVal :=
  VObj [(lit "candidates",
         VArr [VObj [(lit "content",
                      VObj [(lit "parts",
                             VArr [VObj [(lit "text", VNum 42%Z)]])])]])].

Definition turn_number_text : Chatbot.TurnEnv :=
  turn (Some (Response.mk true (Some body_with_number) None))
       (Some tt) (Some tt).

(** The provider reports the signed-in user [u1]. *)
Definition user_arrives : list Chatbot.AuthEvent :=
  [ {| Chatbot.ev_user := Some (lit "u1"); Chatbot.signIn := Some tt |} ].

(** Later the provider reports that nobody is signed in any more, and
    the anonymous sign-in that the listener attempts is refused. *)
Definition signed_out : Chatbot.AuthEvent :=
  {| Chatbot.ev_user := None; Chatbot.signIn := None |}.

(** What happens between readiness and the first send: the session
    list arrives, session [a] is opened with its exchange, a question
    is typed. *)
Definition opened : list Effect :=
  [ SetChatSessions [session_a; session_b];
    SetCurrentSessionId (lit "a");
    SetMessages [question; answer];
    SetInput (lit "  and a circle? ") ].

Definition question_w : Message.t :=
  Message.mk (lit "user") (VStr (lit "How do I draw a watermark?"))
             (lit "2025-01-01T09:00:00.000Z").

Definition answer_w : Message.t :=
  Message.mk (lit "ai") (VStr (lit "Use render.draw_text."))
             (lit "2025-01-01T09:00:02.000Z").

(** A session with an exchange of its own. *)
Definition session_w : Session.t :=
  Session.mk (lit "w") (lit "New Chat 1/1/2025") [question_w; answer_w]
             50%N 60%N.

(** Persistent mode, sessions [a] and [w] in the list, [a] open with
    its exchange, a new question in the input box. *)
Definition persistent_two : AppState :=
  {| messages := [question; answer]; input := lit "  and a circle? ";
     loading := false; db := Some firestoreDb; auth := Some firebaseAuth;
     userId := Some (lit "u1");
     chatSessions := [session_a; session_w];
     currentSessionId := Some (lit "a");
     isReady := true; isDemoMode := false;
     perceptionDocContent := lit "render.draw_line(x1, y1, x2, y2, ...)";
     luaExamplesContent := lit "-- Content from rust.lua:" |}.

(** The same in Demo mode. *)
Definition demo_two : AppState :=
  {| messages := [question; answer]; input := lit "  and a circle? ";
     loading := false; db := None; auth := None; userId := None;
     chatSessions := [session_a; session_w];
     currentSessionId := Some (lit "a");
     isReady := true; isDemoMode := true;
     perceptionDocContent := lit "render.draw_line(x1, y1, x2, y2, ...)";
     luaExamplesContent := lit "-- Content from rust.lua:" |}.

End Sample.

(* ================================================================== *)
(** ** Rendering of a message text (src/chatbot.js, lines 188-215) *)
(* ================================================================== *)

Module Render.

(** [[a-zA-Z0-9]] *)
Definition is_alnum (c : N) : bool :=
  ((48 <=? c) && (c <=? 57) || (65 <=? c) && (c <=? 90)
   || (97 <=? c) && (c <=? 122))%N.

(** [s.startsWith(prefix)] *)
Fixpoint startsWith (s prefix : jsstring) {struct prefix} : bool :=
  match prefix, s with
  | [], _ => true
  | p :: prefix', c :: s' => N.eqb c p && startsWith s' prefix'
  | _ :: _, [] => false
  end.

Definition fence : jsstring := lit "```".

(** The longest run of [[a-zA-Z0-9]] at the head of [s], and what
    follows it. *)
Fixpoint span_alnum (s : jsstring) : jsstring * jsstring :=
  match s with
  | c :: r =>
      if is_alnum c
      then let (run, rest) := span_alnum r in (c :: run, rest)
      else ([], s)
  | [] => ([], [])
  end.

(** A match of [```(?:[a-zA-Z0-9]+)?\n] at the head of [s]: the matched
    text and the rest.  The greedy run must be followed by the line
    feed; giving characters of the run back, or skipping the group,
    leaves a letter or digit where the line feed is required, so no
    other match exists. *)
Definition open_fence (s : jsstring) : option (jsstring * jsstring) :=
  if startsWith s fence then
    let (lang, after) := span_alnum (skipn 3 s) in
    match after with
    | c :: rest =>
        if N.eqb c 10 then Some (fence ++ lang ++ nl, rest) else None
    | [] => None
    end
  else None.

(** A match of the lazy [[\s\S]*?\n```] at the head of [s]: the
    shortest text that ends in a line feed and a fence. *)
Fixpoint close_fence (s : jsstring) : option (jsstring * jsstring) :=
  match s with
  | [] => None
  | c :: r =>
      if startsWith s (nl ++ fence) then Some (nl ++ fence, skipn 4 s)
      else match close_fence r with
           | Some (m, rest) => Some (c :: m, rest)
           | None => None
           end
  end.

(** A match of [```(?:[a-zA-Z0-9]+)?\n[\s\S]*?\n```] at the head of
    [s]. *)
Definition match_fence (s : jsstring) : option (jsstring * jsstring) :=
  match open_fence s with
  | Some (opening, r) =>
      match close_fence r with
      | Some (m, rest) => Some (opening ++ m, rest)
      | None => None
      end
  | None => None
  end.

(** [text.split(/(```(?:[a-zA-Z0-9]+)?\n[\s\S]*?\n```)/g)] from the
    current position: [pending] is the text since the last match, [skip]
    the number of characters of the last match still to pass.  At each
    position the pattern is tried; a match closes the pending part and is
    itself a part, since the group captures it. *)
Fixpoint split_from (s : jsstring) (skip : nat) (pending : jsstring)
  : list jsstring :=
  match s with
  | [] => [pending]
  | c :: r =>
      match skip with
      | S k => split_from r k pending
      | O =>
          match match_fence s with
          | Some (m, _) =>
              pending :: m :: split_from r (List.length m - 1) []
          | None => split_from r 0 (pending ++ [c])
          end
      end
  end.

Definition split (text : jsstring) : list jsstring := split_from text 0 [].

(** [part.replace(/```(?:[a-zA-Z0-9]+)?\n|```/g, '')] from the current
    position: at each position the first alternative, then the second,
    is tried, and a match is dropped. *)
Fixpoint strip_from (s : jsstring) (skip : nat) : jsstring :=
  match s with
  | [] => []
  | c :: r =>
      match skip with
      | S k => strip_from r k
      | O =>
          match open_fence s with
          | Some (opening, _) => strip_from r (List.length opening - 1)
          | None =>
              if startsWith s fence then strip_from r 2
              else c :: strip_from r 0
          end
      end
  end.

Definition strip_markers (part : jsstring) : jsstring := strip_from part 0.

(** What one part is rendered as: a code block showing [codeContent],
    an [h2] heading, or a paragraph (the styling and the [key] of the
    elements are left out). *)
Inductive Segment : Type :=
| CodeBlock (codeContent : jsstring)
| Heading (title : jsstring)
| Paragraph (text : jsstring).

Definition render_part (part : jsstring) : Segment :=
  if startsWith part fence then CodeBlock (strip_markers part)
  else if startsWith part (lit "## ") then Heading (trim (skipn 3 part))
  else Paragraph part.

(** What a part that is no code is rendered as. *)
Definition render_text (part : jsstring) : Segment :=
  if startsWith part (lit "## ") then Heading (trim (skipn 3 part))
  else Paragraph part.

Definition renderMessageContent (text : jsstring) : list Segment :=
  map render_part (split text).

(** No character of [s] is a backtick. *)
Definition no_backtick (s : jsstring) : bool :=
  forallb (fun c => negb (N.eqb c 96)) s.

(** Three backticks in a row occur somewhere in [s]. *)
Fixpoint has_fence (s : jsstring) : bool :=
  match s with
  | [] => false
  | _ :: r => startsWith s fence || has_fence r
  end.

(** Parts at odd positions are complete fences. *)
Fixpoint alternates (parts : list jsstring) : Prop :=
  match parts with
  | [_] => True
  | _ :: m :: rest =>
      (exists lang body,
         forallb is_alnum lang = true
         /\ m = fence ++ lang ++ nl ++ body ++ nl ++ fence)
      /\ alternates rest
  | [] => False
  end.

End Render.

(* ================================================================== *)
(** ** Loading of the reference texts (src/chatbot.js, lines 218-268) *)
(* ================================================================== *)

Module Loader.

(** What the loader does that is visible outside it. *)
Inductive Effect : Type :=
| Load (path : jsstring)                     (* fetch(path) *)
| SetPerceptionDocContent (text : jsstring)
| SetLuaExamplesContent (text : jsstring)
| LogError (msg : jsstring).                 (* console.error(msg, error) *)

Definition apply_effect (s : AppState) (e : Effect) : AppState :=
  match e with
  | SetPerceptionDocContent text =>
      {| messages := messages s; input := input s; loading := loading s;
         db := db s; auth := auth s; userId := userId s;
         chatSessions := chatSessions s;
         currentSessionId := currentSessionId s; isReady := isReady s;
         isDemoMode := isDemoMode s;
         perceptionDocContent := text;
         luaExamplesContent := luaExamplesContent s |}
  | SetLuaExamplesContent text =>
      {| messages := messages s; input := input s; loading := loading s;
         db := db s; auth := auth s; userId := userId s;
         chatSessions := chatSessions s;
         currentSessionId := currentSessionId s; isReady := isReady s;
         isDemoMode := isDemoMode s;
         perceptionDocContent := perceptionDocContent s;
         luaExamplesContent := text |}
  | _ => s
  end.

Definition run (s : AppState) (trace : list Effect) : AppState :=
  fold_left apply_effect trace s.

(** The outcome of each [fetch]: of [./Perception.txt] and of
    [./Examples/file]. *)
Record Env : Type :=
  { perception : option Response.t;
    example : jsstring -> option Response.t }.

(** The body of each [try]: [await fetch], the [throw] when the
    response is not [ok], [await response.text()].  [None]: the [catch]
    is entered. *)
Definition read (r : option Response.t) : option jsstring :=
  match r with
  | Some response =>
      if Response.ok response then Response.text response else None
  | None => None
  end.

Definition luaFiles : list jsstring :=
  [ lit "DayZ.lua"; lit "delta_force.lua"; lit "fortnite.lua";
    lit "lagger.lua"; lit "ragemp.lua"; lit "roblox.lua"; lit "rust.lua" ].

(** One turn of the [for] loop: the trace so far and [examplesCombined]. *)
Definition loadExample (env : Env) (acc : list Effect * jsstring)
  (file : jsstring) : list Effect * jsstring :=
  let (t, examplesCombined) := acc in
  match read (example env file) with
  | Some text =>
      (t ++ [Load (lit "./Examples/" ++ file)],
       examplesCombined ++ lit "-- Content from " ++ file ++ lit ":" ++ nl
         ++ text ++ nl ++ nl)
  | None =>
      (t ++ [Load (lit "./Examples/" ++ file);
             LogError (lit "Could not load " ++ file ++ lit ":")],
       examplesCombined ++ lit "Error loading " ++ file ++ lit "." ++ nl ++ nl)
  end.

(** The trace of [fetchPerceptionAndLuaExamples], and the value its
    local [combinedContent] ends with (nothing reads it). *)
Definition fetchPerceptionAndLuaExamples (env : Env)
  : list Effect * jsstring :=
  let (t1, combined1) :=
    match read (perception env) with
    | Some perceptionText =>
        ([Load (lit "./Perception.txt");
          SetPerceptionDocContent perceptionText],
         lit "Perception.cx API Documentation:" ++ nl ++ perceptionText
           ++ nl ++ nl)
    | None =>
        ([Load (lit "./Perception.txt");
          LogError (lit "Could not load Perception.txt:")],
         lit "Error loading Perception.txt. Please ensure it's in the same directory as index.html."
           ++ nl ++ nl)
    end in
  let (t2, examplesCombined) := fold_left (loadExample env) luaFiles ([], []) in
  (t1 ++ t2 ++ [SetLuaExamplesContent examplesCombined],
   combined1 ++ lit "Lua Code Examples for Learning:" ++ nl ++ examplesCombined).

(** The paths fetched, in order. *)
Definition loads (t : list Effect) : list jsstring :=
  flat_map (fun e => match e with Load p => [p] | _ => [] end) t.

(** What one example file contributes to the examples text. *)
Definition example_section (env : Env) (file : jsstring) : jsstring :=
  match read (example env file) with
  | Some text =>
      lit "-- Content from " ++ file ++ lit ":" ++ nl ++ text ++ nl ++ nl
  | None => lit "Error loading " ++ file ++ lit "." ++ nl ++ nl
  end.

(** What one example file contributes to the trace. *)
Definition example_trace (env : Env) (file : jsstring) : list Effect :=
  match read (example env file) with
  | Some _ => [Load (lit "./Examples/" ++ file)]
  | None =>
      [Load (lit "./Examples/" ++ file);
       LogError (lit "Could not load " ++ file ++ lit ":")]
  end.

End Loader.

(* ================================================================== *)
(** ** More sample inputs *)
(* ================================================================== *)

Module Sample2.

(** No file can be fetched. *)
Definition offline : Loader.Env :=
  {| Loader.perception := None; Loader.example := fun _ => None |}.

(** Every file is served; [rust.lua] is missing (404). *)
Definition served : Loader.Env :=
  {| Loader.perception :=
       Some (Response.mk true None (Some (lit "render.draw_line(...)")));
     Loader.example := fun file =>
       if str_eq file (lit "rust.lua")
       then Some (Response.mk false None (Some (lit "Not found")))
       else Some (Response.mk true None (Some (lit "-- example"))) |}.

End Sample2.

(** The part of a trace up to and including the generation call, and
    the part after it: what a turn does before and after it waits for
    the endpoint. *)
Fixpoint until_fetch (t : list Effect) : list Effect * list Effect :=
  match t with
  | [] => ([], [])
  | Fetch c :: rest => ([Fetch c], rest)
  | e :: rest => let (before, after) := until_fetch rest in (e :: before, after)
  end.

(* ================================================================== *)
(** ** Strings and the trace calculus *)
(* ================================================================== *)

Lemma str_eq_refl (a : jsstring) : str_eq a a = true.
Proof.
  induction a as [|c a IH]; [reflexivity|].
  simpl. now rewrite N.eqb_refl, IH.
Qed.

Lemma str_eq_eq (a b : jsstring) : str_eq a b = true <-> a = b.
Proof.
  split; [|intros ->; apply str_eq_refl].
  revert b; induction a as [|c a IH]; intros [|d b]; simpl; try easy.
  intros H. apply andb_prop in H as [Hc Hr].
  apply N.eqb_eq in Hc. apply IH in Hr. congruence.
Qed.

Lemma trimStart_blank (s : jsstring) :
  forallb is_white_space s = true -> trimStart s = [].
Proof.
  induction s as [|c s IH]; [reflexivity|].
  simpl. intros H. apply andb_prop in H as [Hc Hs].
  now rewrite Hc, IH.
Qed.

(** A blank input (white space only) trims to the empty string. *)
Lemma trim_blank (s : jsstring) :
  forallb is_white_space s = true -> trim s = [].
Proof.
  intros H. unfold trim. now rewrite trimStart_blank.
Qed.

Lemma run_app (s : AppState) (t1 t2 : list Effect) :
  run s (t1 ++ t2) = run (run s t1) t2.
Proof. apply fold_left_app. Qed.

Lemma fetched_app (t1 t2 : list Effect) :
  fetched (t1 ++ t2) = fetched t1 ++ fetched t2.
Proof. apply flat_map_app. Qed.

Lemma turn_events_app (t1 t2 : list Effect) :
  turn_events (t1 ++ t2) = turn_events t1 ++ turn_events t2.
Proof. apply filter_app. Qed.

(** Evaluation of the trace calculus that leaves the long literals and
    the pure helpers folded. *)
Ltac step :=
  cbn -[lit trim Chatbot.contents Chatbot.store_locally Chatbot.candidateText
        or_else Chatbot.defaultResponseText Chatbot.connectionErrorText
        Chatbot.sessionDocRef Chatbot.chatSessionsRef Chatbot.generate get
        Chatbot.rerender].

Lemma is_truthy_Some (o : option jsstring) :
  Chatbot.is_truthy o = true -> exists i, Chatbot.if_truthy o = Some i.
Proof.
  unfold Chatbot.is_truthy. destruct (Chatbot.if_truthy o); [eauto|easy].
Qed.

Lemma accepted_session (s : AppState) :
  Chatbot.rejected s = false ->
  exists sid, Chatbot.if_truthy (currentSessionId s) = Some sid.
Proof.
  unfold Chatbot.rejected. intros H.
  apply orb_false_elim in H as [_ H].
  apply negb_false_iff in H. now apply is_truthy_Some.
Qed.

(** *** The generation call *)

(** The call is issued first, whatever follows. *)
Lemma generate_trace (e : Chatbot.TurnEnv) (c : list Content) :
  exists logs, trace_of (Chatbot.generate e c) = Fetch c :: logs
               /\ turn_events logs = [] /\ fetched logs = []
               /\ filter is_SetLoading logs = []
               /\ forall s, run s logs = s.
Proof.
  unfold Chatbot.generate.
  destruct (Chatbot.fetch e) as [[okb j tx]|]; [|exists []; now step].
  destruct okb; step.
  - destruct j as [j|]; [|exists []; now step]. step.
    destruct (Chatbot.candidateText j); exists []; now step.
  - destruct tx; eexists; (split; [reflexivity | now step]).
Qed.

(** *** The shape of an accepted turn *)

Lemma turn_trace (g : Globals) (s : AppState) (e : Chatbot.TurnEnv)
  (sid : jsstring) :
  Chatbot.rejected s = false ->
  Chatbot.if_truthy (currentSessionId s) = Some sid ->
  let u := messages s ++ [userMessage s e] in
  let c := Chatbot.contents s u in
  Chatbot.handleSendMessage g s e =
  (PreventDefault :: SetMessages u :: SetInput [] :: SetLoading true
     :: user_save_trace g s e sid u
     ++ trace_of (Chatbot.generate e c)
     ++ match snd (Chatbot.generate e c) with
        | Some txt => ai_save_trace g s e sid txt (u ++ [aiMessage e txt])
        | None => [ConsoleError (lit "Error with AI response:")]
        end
     ++ [SetLoading false],
   Some tt).
Proof.
  intros Hacc Hsid u c.
  unfold Chatbot.handleSendMessage, user_save_trace, ai_save_trace, write_of.
  fold (userMessage s e). fold u. fold c.
  destruct (Chatbot.generate e c) as [tg [txt|]];
    destruct (isDemoMode s), (Chatbot.db_and_userId s),
             (Chatbot.updateDoc_user e), (Chatbot.updateDoc_ai e);
    repeat match goal with x : unit |- _ => destruct x end;
    step; rewrite Hacc, Hsid; step;
    try (destruct (Chatbot.rerender txt) as [[]|]; step);
    rewrite <- ?app_assoc; reflexivity.
Qed.

Lemma generate_result (e : Chatbot.TurnEnv) (c : list Content) :
  snd (Chatbot.generate e c) = response_text e.
Proof.
  unfold Chatbot.generate, response_text.
  destruct (Chatbot.fetch e) as [[okb j tx]|]; [|reflexivity].
  destruct okb; step.
  - destruct j as [j|]; [|reflexivity]. step.
    destruct (Chatbot.candidateText j); reflexivity.
  - destruct tx; reflexivity.
Qed.

Lemma write_of_events g s sid ms d :
  turn_events (write_of g s sid ms d) = write_of g s sid ms d.
Proof.
  unfold write_of.
  destruct (isDemoMode s); [reflexivity|].
  destruct (Chatbot.db_and_userId s); reflexivity.
Qed.

Lemma write_of_quiet g s sid ms d :
  fetched (write_of g s sid ms d) = []
  /\ filter is_SetLoading (write_of g s sid ms d) = []
  /\ forall s0, loading (run s0 (write_of g s sid ms d)) = loading s0
                /\ messages (run s0 (write_of g s sid ms d)) = messages s0.
Proof.
  unfold write_of.
  destruct (isDemoMode s); [now step|].
  destruct (Chatbot.db_and_userId s); now step.
Qed.

Lemma user_save_events g s e sid ms :
  turn_events (user_save_trace g s e sid ms)
  = write_of g s sid ms (Chatbot.date_user_saved e).
Proof.
  unfold user_save_trace. rewrite turn_events_app, write_of_events.
  destruct (isDemoMode s); [apply app_nil_r|].
  destruct (Chatbot.db_and_userId s), (Chatbot.updateDoc_user e);
    apply app_nil_r.
Qed.

Lemma user_save_quiet g s e sid ms :
  fetched (user_save_trace g s e sid ms) = []
  /\ filter is_SetLoading (user_save_trace g s e sid ms) = []
  /\ forall s0, messages (run s0 (user_save_trace g s e sid ms)) = messages s0.
Proof.
  unfold user_save_trace, write_of.
  destruct (isDemoMode s); [now step|].
  destruct (Chatbot.db_and_userId s), (Chatbot.updateDoc_user e); now step.
Qed.

Lemma ai_save_events g s e sid txt ms :
  turn_events (ai_save_trace g s e sid txt ms)
  = match Chatbot.rerender txt with
    | Some _ => write_of g s sid ms (Chatbot.date_ai_saved e)
    | None => []
    end.
Proof.
  unfold ai_save_trace.
  destruct (Chatbot.rerender txt); [|reflexivity].
  change (SetMessages ms :: ?l) with ([SetMessages ms] ++ l).
  rewrite !turn_events_app, write_of_events. simpl.
  destruct (isDemoMode s); [apply app_nil_r|].
  destruct (Chatbot.db_and_userId s), (Chatbot.updateDoc_ai e);
    apply app_nil_r.
Qed.

Lemma ai_save_quiet g s e sid txt ms :
  fetched (ai_save_trace g s e sid txt ms) = []
  /\ filter is_SetLoading (ai_save_trace g s e sid txt ms) = []
  /\ forall s0, messages (run s0 (ai_save_trace g s e sid txt ms)) = ms.
Proof.
  unfold ai_save_trace, write_of.
  destruct (Chatbot.rerender txt); [|now step].
  destruct (isDemoMode s); [now step|].
  destruct (Chatbot.db_and_userId s), (Chatbot.updateDoc_ai e); now step.
Qed.

(** The log handed to the setters by an accepted turn: the history, the
    user message and, when the reading of the response did not throw,
    the AI message. *)
Lemma turn_display (g : Globals) (s : AppState) (e : Chatbot.TurnEnv) :
  Chatbot.rejected s = false ->
  forall s0,
    messages (run s0 (trace_of (Chatbot.handleSendMessage g s e)))
    = (messages s ++ [userMessage s e])
      ++ match response_text e with
         | Some txt => [aiMessage e txt]
         | None => []
         end.
Proof.
  intros Hacc s0.
  destruct (accepted_session s Hacc) as [sid Hsid].
  rewrite (turn_trace g s e sid Hacc Hsid). cbv zeta.
  unfold trace_of at 1. cbn [fst].
  rewrite generate_result.
  destruct (generate_trace e (Chatbot.contents s (messages s ++ [userMessage s e])))
    as (logs & -> & _ & _ & _ & Hlogs).
  set (u := messages s ++ [userMessage s e]).
  change (PreventDefault :: SetMessages u :: SetInput [] :: SetLoading true :: ?l)
    with ([PreventDefault; SetMessages u; SetInput []; SetLoading true] ++ l).
  change (Fetch ?c :: logs) with ([Fetch c] ++ logs).
  rewrite !run_app, Hlogs.
  destruct (user_save_quiet g s e sid u) as (_ & _ & Hu).
  destruct (response_text e) as [txt|].
  - destruct (ai_save_quiet g s e sid txt (u ++ [aiMessage e txt])) as (_ & _ & Ha).
    cbn [run fold_left apply_effect messages]. 
    change (fold_left apply_effect ?t ?x) with (run x t).
    now rewrite Ha.
  - cbn [run fold_left apply_effect messages].
    change (fold_left apply_effect ?t ?x) with (run x t).
    rewrite Hu. cbn. now rewrite app_nil_r.
Qed.

(* ================================================================== *)
(** ** The payload of a turn *)
(* ================================================================== *)

Lemma turn_fetched (g : Globals) (s : AppState) (e : Chatbot.TurnEnv) :
  Chatbot.rejected s = false ->
  fetched (trace_of (Chatbot.handleSendMessage g s e))
  = [Chatbot.contents s (messages s ++ [userMessage s e])].
Proof.
  intros Hacc.
  destruct (accepted_session s Hacc) as [sid Hsid].
  rewrite (turn_trace g s e sid Hacc Hsid). cbv zeta.
  unfold trace_of at 1. cbn [fst].
  set (u := messages s ++ [userMessage s e]).
  destruct (generate_trace e (Chatbot.contents s u))
    as (logs & -> & _ & Hlogs & _).
  destruct (user_save_quiet g s e sid u) as (Hu & _).
  change (PreventDefault :: SetMessages u :: SetInput [] :: SetLoading true :: ?l)
    with ([PreventDefault; SetMessages u; SetInput []; SetLoading true] ++ l).
  change (Fetch ?c :: logs) with ([Fetch c] ++ logs).
  rewrite !fetched_app, Hu, Hlogs.
  destruct (snd (Chatbot.generate e (Chatbot.contents s u))) as [txt|].
  - destruct (ai_save_quiet g s e sid txt (u ++ [aiMessage e txt])) as (-> & _).
    reflexivity.
  - reflexivity.
Qed.

(** C1. On every accepted send-message turn, whatever the length of the
    history (zero included), exactly one payload is handed to the
    generation endpoint.  Its first entry has role user and carries the
    system instructions followed by the reference-document text and the
    example text; its second entry has role model and carries the fixed
    acknowledgement; then come the messages of the history and the user
    message just appended, in order, each with the role user when its
    sender is 'user' and the role model otherwise, and with its own
    text. *)
Theorem payload_is_context_ack_history
  (g : Globals) (s : AppState) (e : Chatbot.TurnEnv) :
  Chatbot.rejected s = false ->
  fetched (trace_of (Chatbot.handleSendMessage g s e))
  = [ {| role := user;
         parts_text :=
           VStr (Chatbot.systemPrompt
                 ++ (nl ++ nl ++ lit "Perception.cx API Documentation:" ++ nl)
                 ++ perceptionDocContent s
                 ++ (nl ++ nl ++ lit "Lua Code Examples for Learning:" ++ nl)
                 ++ luaExamplesContent s) |}
      :: {| role := model; parts_text := VStr Chatbot.acknowledgement |}
      :: map Chatbot.content_of_message
             (messages s
              ++ [Message.mk (lit "user") (VStr (trim (input s)))
                             (Chatbot.now_user e)]) ]
  /\ forall msg : Message.t,
       parts_text (Chatbot.content_of_message msg) = Message.text msg
       /\ (Message.sender msg = lit "user"
           -> role (Chatbot.content_of_message msg) = user)
       /\ (Message.sender msg <> lit "user"
           -> role (Chatbot.content_of_message msg) = model).
Proof.
  intros Hacc. split.
  - rewrite (turn_fetched g s e Hacc).
    unfold Chatbot.contents, Chatbot.contextText, userMessage.
    now rewrite <- !app_assoc.
  - intros msg. unfold Chatbot.content_of_message. cbn [parts_text role].
    split; [reflexivity|]. split; intros H.
    + now rewrite H, str_eq_refl.
    + destruct (str_eq (Message.sender msg) (lit "user")) eqn:E; [|reflexivity].
      apply str_eq_eq in E. contradiction.
Qed.

Lemma payload_is_context_ack_history_witness :
  Chatbot.rejected Sample.demo = false
  /\ fetched (trace_of (Chatbot.handleSendMessage Sample.globals Sample.demo
                                                  Sample.turn_ok))
     = [ {| role := user;
            parts_text := VStr (Chatbot.contextText Sample.demo) |}
         :: {| role := model; parts_text := VStr Chatbot.acknowledgement |}
         :: [ {| role := user; parts_text := Message.text Sample.question |};
              {| role := model; parts_text := Message.text Sample.answer |};
              {| role := user; parts_text := VStr (lit "and a circle?") |} ] ].
Proof.
  split; [reflexivity|].
  etransitivity;
    [exact (proj1 (payload_is_context_ack_history
                     Sample.globals Sample.demo Sample.turn_ok eq_refl))|].
  vm_compute. reflexivity.
Defined.

(** The first design sends the context with the first message of a
    session only: on a later turn its payload is the mapped history and
    nothing in front of it. *)
Lemma legacy_context_on_first_turn_only
  (context userText : jsstring) (history updated : list Message.t) :
  (history = [] ->
   Legacy.chatHistoryForModel context history userText updated
   = [ {| role := user;
          parts_text := VStr (context ++ nl ++ nl ++ lit "User Query: "
                              ++ userText) |} ])
  /\ (history <> [] ->
      Legacy.chatHistoryForModel context history userText updated
      = map Chatbot.content_of_message updated).
Proof.
  unfold Legacy.chatHistoryForModel. split.
  - intros ->. reflexivity.
  - intros H. destruct history; [contradiction | reflexivity].
Qed.

(* ================================================================== *)
(** ** Validation *)
(* ================================================================== *)

(** C3. When the trimmed input is empty, or a turn is in flight, or
    there is no current session, handleSendMessage does nothing but
    cancel the form submission: no setter is called, so no message is
    appended and no session is changed, no write is sent to the store
    and no generation call is made. *)
Theorem rejected_send_is_noop
  (g : Globals) (s : AppState) (e : Chatbot.TurnEnv) :
  trim (input s) = [] \/ loading s = true \/ currentSessionId s = None ->
  Chatbot.handleSendMessage g s e = ([PreventDefault], Some tt)
  /\ (forall s0, run s0 (trace_of (Chatbot.handleSendMessage g s e)) = s0)
  /\ fetched (trace_of (Chatbot.handleSendMessage g s e)) = []
  /\ filter is_store_write (trace_of (Chatbot.handleSendMessage g s e)) = []
  /\ filter is_local_write (trace_of (Chatbot.handleSendMessage g s e)) = [].
Proof.
  intros H.
  assert (Hrej : Chatbot.rejected s = true).
  { unfold Chatbot.rejected. destruct H as [H | [H | H]].
    - now rewrite H.
    - rewrite H. now rewrite orb_true_r.
    - rewrite H. now rewrite orb_true_r. }
  assert (Heq : Chatbot.handleSendMessage g s e = ([PreventDefault], Some tt)).
  { unfold Chatbot.handleSendMessage. step. now rewrite Hrej. }
  rewrite Heq. repeat split.
Qed.

Lemma rejected_send_is_noop_witness :
  trim (input Sample.blank) = []
  /\ Chatbot.handleSendMessage Sample.globals Sample.blank Sample.turn_ok
     = ([PreventDefault], Some tt).
Proof.
  split; [reflexivity|].
  apply (rejected_send_is_noop Sample.globals Sample.blank Sample.turn_ok).
  left. reflexivity.
Defined.

(* ================================================================== *)
(** ** Order of the effects of a turn *)
(* ================================================================== *)

(** C6. In an accepted turn the persistence writes and the generation
    call are issued in this order and no other: the write of the history
    with the user message, the generation call, and last the write of
    the history with the AI message; both writes go to the session that
    was current when the turn started.  The generation call does not
    depend on how the first write ended: it is issued also when that
    write threw.  The last write is issued when the response was read
    and its text is a string; when the reading throws, or when the text
    is no string and the render of the new message throws, the turn
    ends with the generation call and issues no write after it. *)
Theorem turn_effects_in_order
  (g : Globals) (s : AppState) (e : Chatbot.TurnEnv) :
  Chatbot.rejected s = false ->
  exists sid,
    Chatbot.if_truthy (currentSessionId s) = Some sid
    /\ turn_events (trace_of (Chatbot.handleSendMessage g s e))
       = write_of g s sid (messages s ++ [userMessage s e])
                  (Chatbot.date_user_saved e)
         ++ [Fetch (Chatbot.contents s (messages s ++ [userMessage s e]))]
         ++ match response_text e with
            | Some txt =>
                match Chatbot.rerender txt with
                | Some _ =>
                    write_of g s sid
                      ((messages s ++ [userMessage s e]) ++ [aiMessage e txt])
                      (Chatbot.date_ai_saved e)
                | None => []
                end
            | None => []
            end.
Proof.
  intros Hacc.
  destruct (accepted_session s Hacc) as [sid Hsid].
  exists sid. split; [exact Hsid|].
  rewrite (turn_trace g s e sid Hacc Hsid). cbv zeta.
  unfold trace_of at 1. cbn [fst].
  set (u := messages s ++ [userMessage s e]).
  rewrite generate_result.
  destruct (generate_trace e (Chatbot.contents s u))
    as (logs & -> & Hlogs & _).
  change (PreventDefault :: SetMessages u :: SetInput [] :: SetLoading true :: ?l)
    with ([PreventDefault; SetMessages u; SetInput []; SetLoading true] ++ l).
  change (Fetch ?c :: logs) with ([Fetch c] ++ logs).
  rewrite !turn_events_app, user_save_events, Hlogs.
  destruct (response_text e) as [txt|].
  - rewrite ai_save_events. cbn.
    destruct (Chatbot.rerender txt); now rewrite !app_nil_r.
  - reflexivity.
Qed.

Lemma turn_effects_in_order_witness :
  Chatbot.rejected Sample.persistent = false
  /\ exists sid,
       Chatbot.if_truthy (currentSessionId Sample.persistent) = Some sid
       /\ turn_events
            (trace_of (Chatbot.handleSendMessage
                         Sample.globals Sample.persistent
                         Sample.turn_user_write_fails))
          = write_of Sample.globals Sample.persistent sid
              (messages Sample.persistent
               ++ [userMessage Sample.persistent Sample.turn_user_write_fails])
              (Chatbot.date_user_saved Sample.turn_user_write_fails)
            ++ [Fetch (Chatbot.contents Sample.persistent
                         (messages Sample.persistent
                          ++ [userMessage Sample.persistent
                                          Sample.turn_user_write_fails]))]
            ++ match response_text Sample.turn_user_write_fails with
               | Some txt =>
                   match Chatbot.rerender txt with
                   | Some _ =>
                       write_of Sample.globals Sample.persistent sid
                         ((messages Sample.persistent
                           ++ [userMessage Sample.persistent
                                           Sample.turn_user_write_fails])
                          ++ [aiMessage Sample.turn_user_write_fails txt])
                         (Chatbot.date_ai_saved Sample.turn_user_write_fails)
                   | None => []
                   end
               | None => []
               end.
Proof.
  split; [reflexivity|].
  apply (turn_effects_in_order Sample.globals Sample.persistent
                               Sample.turn_user_write_fails).
  reflexivity.
Defined.

(** A text that is no string: the endpoint answers 200 with a number
    where the text is expected.  [setMessages] is called with the new
    log, the render of the number throws inside the call, the [catch]
    of line 344 logs, and the turn ends without a write after the
    generation call. *)
Lemma number_as_text_skips_the_ai_write :
  let t := trace_of (Chatbot.handleSendMessage Sample.globals Sample.persistent
                                               Sample.turn_number_text) in
  let u := messages Sample.persistent
           ++ [userMessage Sample.persistent Sample.turn_number_text] in
  response_text Sample.turn_number_text = Some (VNum 42%Z)
  /\ turn_events t
     = [ UpdateDoc (Chatbot.sessionDocRef Sample.globals (lit "u1") (lit "a"))
                   u 400%N;
         Fetch (Chatbot.contents Sample.persistent u) ]
  /\ skipn 6 t
     = [ SetMessages (u ++ [aiMessage Sample.turn_number_text (VNum 42%Z)]);
         ConsoleError (lit "Error with AI response:");
         SetLoading false ].
Proof. cbv zeta. repeat split. Qed.

(* ================================================================== *)
(** ** The loading flag *)
(* ================================================================== *)

(** C7. An accepted turn sets the loading flag right after validation
    and clears it as its last effect, whatever the outcomes of the
    persistence writes and of the generation call; it touches the flag
    nowhere in between, it ends without an uncaught error, and whatever
    the state its setters are applied to, the flag is false afterwards. *)
Theorem loading_set_then_cleared
  (g : Globals) (s : AppState) (e : Chatbot.TurnEnv) :
  Chatbot.rejected s = false ->
  (exists between,
     trace_of (Chatbot.handleSendMessage g s e)
     = PreventDefault :: SetMessages (messages s ++ [userMessage s e])
         :: SetInput [] :: SetLoading true :: between ++ [SetLoading false]
     /\ filter is_SetLoading between = [])
  /\ completes (Chatbot.handleSendMessage g s e) = true
  /\ forall s0,
       loading (run s0 (trace_of (Chatbot.handleSendMessage g s e))) = false.
Proof.
  intros Hacc.
  destruct (accepted_session s Hacc) as [sid Hsid].
  rewrite (turn_trace g s e sid Hacc Hsid). cbv zeta.
  set (u := messages s ++ [userMessage s e]).
  destruct (generate_trace e (Chatbot.contents s u))
    as (logs & -> & _ & _ & Hlogs & _).
  destruct (user_save_quiet g s e sid u) as (_ & Hu & _).
  unfold trace_of, completes. cbn [fst snd].
  split; [|split; [reflexivity|]].
  - eexists. split.
    + do 4 f_equal. rewrite !app_assoc. reflexivity.
    + rewrite !filter_app, Hu. cbn [filter is_SetLoading]. rewrite Hlogs.
      destruct (snd (Chatbot.generate e (Chatbot.contents s u))) as [txt|].
      * now destruct (ai_save_quiet g s e sid txt (u ++ [aiMessage e txt]))
          as (_ & -> & _).
      * reflexivity.
  - intros s0.
    change (PreventDefault :: SetMessages u :: SetInput [] :: SetLoading true :: ?l)
      with ([PreventDefault; SetMessages u; SetInput []; SetLoading true] ++ l).
    rewrite !app_assoc, run_app. reflexivity.
Qed.

Lemma loading_set_then_cleared_witness :
  Chatbot.rejected Sample.persistent = false
  /\ completes (Chatbot.handleSendMessage Sample.globals Sample.persistent
                                          Sample.turn_fetch_throws) = true
  /\ forall s0,
       loading (run s0 (trace_of (Chatbot.handleSendMessage
                                    Sample.globals Sample.persistent
                                    Sample.turn_fetch_throws))) = false.
Proof.
  split; [reflexivity|].
  apply (loading_set_then_cleared Sample.globals Sample.persistent
                                  Sample.turn_fetch_throws).
  reflexivity.
Defined.

(* ================================================================== *)
(** ** Failures of the generation call *)
(* ================================================================== *)

(** When the endpoint answers with a status outside 2xx and the body can
    be read, the turn appends the connection-error message. *)
Lemma http_error_appends_message
  (g : Globals) (s : AppState) (e : Chatbot.TurnEnv)
  (response : Response.t) (body : jsstring) :
  Chatbot.rejected s = false ->
  Chatbot.fetch e = Some response ->
  Response.ok response = false ->
  Response.text response = Some body ->
  forall s0,
    messages (run s0 (trace_of (Chatbot.handleSendMessage g s e)))
    = messages s
      ++ [userMessage s e; aiMessage e (VStr Chatbot.connectionErrorText)].
Proof.
  intros Hacc Hf Hok Htx s0.
  rewrite (turn_display g s e Hacc s0).
  unfold response_text. rewrite Hf, Hok, Htx.
  now rewrite <- app_assoc.
Qed.

(** When the endpoint answers 2xx with a parsed body other than [null]
    in which the path to the first text part is broken or ends in a falsy
    value, the turn appends the apology message. *)
Lemma missing_text_appends_apology
  (g : Globals) (s : AppState) (e : Chatbot.TurnEnv)
  (response : Response.t) (result text : JsVal) :
  Chatbot.rejected s = false ->
  Chatbot.fetch e = Some response ->
  Response.ok response = true ->
  Response.json response = Some result ->
  Chatbot.candidateText result = Some text ->
  truthy text = false ->
  forall s0,
    messages (run s0 (trace_of (Chatbot.handleSendMessage g s e)))
    = messages s
      ++ [userMessage s e; aiMessage e (VStr Chatbot.defaultResponseText)].
Proof.
  intros Hacc Hf Hok Hj Hc Ht s0.
  rewrite (turn_display g s e Hacc s0).
  unfold response_text, or_else. rewrite Hf, Hok, Hj, Hc, Ht.
  now rewrite <- app_assoc.
Qed.

(** When [fetch] rejects, when [json()] or [text()] rejects, or when the
    parsed body is [null], the [catch] of line 344 only logs: the turn
    ends with the user message as the last message of the log. *)
Lemma thrown_generation_appends_nothing
  (g : Globals) (s : AppState) (e : Chatbot.TurnEnv) :
  Chatbot.rejected s = false ->
  response_text e = None ->
  forall s0,
    messages (run s0 (trace_of (Chatbot.handleSendMessage g s e)))
    = messages s ++ [userMessage s e].
Proof.
  intros Hacc Hr s0.
  rewrite (turn_display g s e Hacc s0), Hr. apply app_nil_r.
Qed.

(** C2, at the failing inputs.  A turn passes validation and the
    generation call fails by throwing: [fetch] rejects, or the endpoint
    answers 200 with the body [null].  The displayed log then ends with
    the user message: no AI message was appended, although the turn ran
    to its end and cleared the loading flag.  A 500 answer, for
    comparison, appends the connection-error message. *)
Theorem thrown_generation_leaves_turn_without_ai_message :
  let after e :=
    messages (run Sample.demo
                  (trace_of (Chatbot.handleSendMessage Sample.globals
                                                       Sample.demo e))) in
  Chatbot.rejected Sample.demo = false
  /\ after Sample.turn_fetch_throws
     = messages Sample.demo ++ [userMessage Sample.demo Sample.turn_fetch_throws]
  /\ after Sample.turn_null_body
     = messages Sample.demo ++ [userMessage Sample.demo Sample.turn_null_body]
  /\ filter is_ai_message (skipn 2 (after Sample.turn_fetch_throws)) = []
  /\ filter is_ai_message (skipn 2 (after Sample.turn_null_body)) = []
  /\ filter is_ai_message (skipn 2 (after Sample.turn_http_500))
     = [aiMessage Sample.turn_http_500 (VStr Chatbot.connectionErrorText)].
Proof.
  cbv zeta. split; [reflexivity|].
  rewrite !thrown_generation_appends_nothing by reflexivity.
  rewrite (http_error_appends_message Sample.globals Sample.demo
             Sample.turn_http_500 _ (lit "Internal error"))
    by reflexivity.
  repeat split.
Qed.

(* ================================================================== *)
(** ** Automatic creation of the first session *)
(* ================================================================== *)

(** The listener of the session collection never changes a dependency
    of the effect that installed it, so it stays installed, with its
    closure, across deliveries. *)
Lemma listener_keeps_dependencies
  (g : Globals) (s : AppState) (docs : list QueryDoc)
  (e : Chatbot.CreateEnv) (s0 : AppState) :
  let s1 := run s0 (trace_of (Chatbot.onSessionsSnapshot g s docs e)) in
  isReady s1 = isReady s0 /\ isDemoMode s1 = isDemoMode s0
  /\ db s1 = db s0 /\ userId s1 = userId s0.
Proof.
  unfold Chatbot.onSessionsSnapshot, Chatbot.createNewChatSession.
  destruct (Chatbot.is_truthy (currentSessionId s)), docs as [|d docs];
    step; try (repeat split; reflexivity);
    (destruct (isDemoMode s); [now step|]);
    (destruct (Chatbot.db_and_userId s); [|now step]);
    destruct (Chatbot.addDoc e); now step.
Qed.

(** In Persistent mode every empty snapshot makes the listener ask the
    store for a new session. *)
Lemma empty_snapshot_creates
  (g : Globals) (s : AppState) (e : Chatbot.CreateEnv) (uid : jsstring) :
  isDemoMode s = false ->
  Chatbot.db_and_userId s = Some uid ->
  created (trace_of (Chatbot.onSessionsSnapshot g s [] e)) = 1.
Proof.
  intros Hm Hu.
  unfold Chatbot.onSessionsSnapshot, Chatbot.createNewChatSession.
  rewrite Hm, Hu.
  destruct (Chatbot.is_truthy (currentSessionId s)), (Chatbot.addDoc e);
    reflexivity.
Qed.

Lemma created_app (t1 t2 : list Effect) :
  created (t1 ++ t2) = created t1 + created t2.
Proof. unfold created. now rewrite filter_app, length_app. Qed.

(** Hence as many creations as empty snapshots were delivered. *)
Lemma empty_snapshots_create_each
  (g : Globals) (s : AppState) (uid : jsstring)
  (envs : list Chatbot.CreateEnv) :
  isDemoMode s = false ->
  Chatbot.db_and_userId s = Some uid ->
  created (Chatbot.deliver g s (map (fun e => ([], e)) envs))
  = List.length envs.
Proof.
  intros Hm Hu. unfold Chatbot.deliver.
  induction envs as [|e envs IH]; [reflexivity|].
  cbn [map flat_map fst snd List.length].
  rewrite created_app, IH, (empty_snapshot_creates g s e uid Hm Hu).
  reflexivity.
Qed.

(** In Demo mode the effect creates one session when the list is empty
    at readiness, and none when it runs again on the resulting state. *)
Lemma demo_bootstrap_once
  (g : Globals) (s : AppState) (e e' : Chatbot.CreateEnv) :
  isReady s = true -> isDemoMode s = true -> chatSessions s = [] ->
  let s1 := run s (trace_of (Chatbot.sessionsEffect g s e)) in
  List.length (chatSessions s1) = 1
  /\ currentSessionId s1 = Some (Chatbot.randomUUID e)
  /\ messages s1 = []
  /\ trace_of (Chatbot.sessionsEffect g s1 e') = [].
Proof.
  intros Hr Hm Hc.
  unfold Chatbot.sessionsEffect, Chatbot.createNewChatSession.
  rewrite Hr, Hm, Hc. step. rewrite Hr, Hm. auto.
Qed.

(** C4, at the failing inputs.  The session listener of Persistent mode
    receives an empty snapshot more than once: the store refuses the
    creation, so the collection is empty, shows the pending document and
    is empty again; or two empty snapshots arrive in a row, each
    creation being accepted.  The listener of chatbot.js asks the store
    for a session at each empty snapshot, twice in all; the listener of
    the first design, whose second branch also tests that no session is
    current, asks once. *)
Theorem repeated_empty_snapshots_create_twice :
  created (Chatbot.deliver Sample.hosted Sample.signed_in
                           Sample.refused_creation_snapshots) = 2
  /\ created (Legacy.deliver Sample.hosted Sample.signed_in
                             Sample.refused_creation_snapshots) = 1
  /\ created (Chatbot.deliver Sample.hosted Sample.signed_in
                              Sample.two_empty_snapshots) = 2
  /\ created (Legacy.deliver Sample.hosted Sample.signed_in
                             Sample.two_empty_snapshots) = 1.
Proof. repeat split; reflexivity. Qed.

(* ================================================================== *)
(** ** Choice of the mode *)
(* ================================================================== *)

Lemma sign_in_throwsb_spec (events : list Chatbot.AuthEvent) :
  existsb sign_in_throwsb events = true <-> sign_in_throws events.
Proof.
  unfold sign_in_throws. rewrite existsb_exists.
  split; intros (ev & Hin & H); exists ev; (split; [exact Hin|]).
  - unfold sign_in_throwsb in H.
    destruct (Chatbot.ev_user ev), (Chatbot.signIn ev); easy.
  - destruct H as [Hu Hs]. unfold sign_in_throwsb. now rewrite Hu, Hs.
Qed.

(** The state after the authentication listener has handled a sequence
    of deliveries: Demo mode if it was set before or a sign-in threw,
    ready if it was before or anything was delivered. *)
Lemma auth_events_state (g : Globals) (events : list Chatbot.AuthEvent) :
  forall s0,
    let s1 := run s0 (flat_map (fun ev => trace_of (Chatbot.onAuthStateChanged g ev))
                               events) in
    isDemoMode s1 = isDemoMode s0 || existsb sign_in_throwsb events
    /\ isReady s1 = isReady s0 || match events with [] => false | _ => true end.
Proof.
  induction events as [|ev events IH]; intros s0.
  - cbn. now rewrite !orb_false_r.
  - cbn [flat_map existsb]. cbv zeta. rewrite run_app.
    destruct (IH (run s0 (trace_of (Chatbot.onAuthStateChanged g ev))))
      as [Hd Hr].
    rewrite Hd, Hr. clear IH Hd Hr.
    unfold Chatbot.onAuthStateChanged, sign_in_throwsb.
    destruct (Chatbot.ev_user ev), (__initial_auth_token g),
             (Chatbot.signIn ev); step;
      rewrite ?orb_true_r, ?orb_false_r; split; try reflexivity;
      destruct events; now rewrite ?orb_true_r, ?orb_false_r.
Qed.

(** The two ways the initialisation effect can end: everything was set
    up, the handles are stored and the listener is installed, the mode
    and the readiness are untouched; or it fell back, to Demo mode and
    ready, with no listener. *)
Lemma initEffect_cases (g : Globals) (e : Chatbot.InitEnv) :
  (has_projectId g e /\ ~ sdk_setup_throws e
   /\ exists d a,
        Chatbot.initEffect g e = ([SetDb d; SetAuth a; SubscribeAuth], Some true))
  \/ ((config_absent g \/ ~ has_projectId g e \/ sdk_setup_throws e)
      /\ snd (Chatbot.initEffect g e) = Some false
      /\ forall s0,
           isDemoMode (run s0 (trace_of (Chatbot.initEffect g e))) = true
           /\ isReady (run s0 (trace_of (Chatbot.initEffect g e))) = true).
Proof.
  unfold Chatbot.initEffect, config_absent, has_projectId, sdk_setup_throws.
  destruct (Chatbot.if_truthy (__firebase_config g)) as [config|] eqn:Hc.
  2:{ right. split; [now left|]. now step. }
  destruct (Chatbot.JSON_parse e config) as [parsed|] eqn:Hp.
  2:{ right. split; [|now step].
      right; left. intros (c & v & p & H1 & H2 & _).
      injection H1 as <-. congruence. }
  destruct (get parsed (KName (lit "projectId"))) as [projectId|] eqn:Hg.
  2:{ right. split; [|step; rewrite Hg; now step].
      right; left. intros (c & v & p & H1 & H2 & H3 & _).
      injection H1 as <-. congruence. }
  destruct (truthy projectId) eqn:Ht.
  2:{ right. split; [|step; rewrite Hg; step; rewrite Ht; now step].
      right; left. intros (c & v & p & H1 & H2 & H3 & H4).
      injection H1 as <-. congruence. }
  destruct (Chatbot.initializeApp e) as [[]|] eqn:H1.
  2:{ right. split; [tauto|]. step. rewrite Hg. step. rewrite Ht. now step. }
  destruct (Chatbot.getFirestore e) as [d|] eqn:H2.
  2:{ right. split; [tauto|]. step. rewrite Hg. step. rewrite Ht. now step. }
  destruct (Chatbot.getAuth e) as [a|] eqn:H3.
  2:{ right. split; [tauto|]. step. rewrite Hg. step. rewrite Ht. now step. }
  destruct (Chatbot.onAuthStateChanged_registers e) as [[]|] eqn:H4.
  2:{ right. split; [tauto|]. step. rewrite Hg. step. rewrite Ht. now step. }
  left. split; [|split].
  - exists config, parsed, projectId. auto.
  - intros [H | [H | [H | H]]]; discriminate.
  - exists d, a. step. rewrite Hg. step. rewrite Ht. reflexivity.
Qed.

(** The mode and the readiness at the end of the initialisation. *)
Lemma initialize_mode
  (g : Globals) (e : Chatbot.InitEnv) (events : list Chatbot.AuthEvent) :
  let final := run initialState (Chatbot.initialize g e events) in
  (isDemoMode final = true
   <-> config_absent g \/ ~ has_projectId g e \/ sdk_setup_throws e
       \/ sign_in_throws events)
  /\ (isDemoMode final = true -> isReady final = true).
Proof.
  cbv zeta. unfold Chatbot.initialize.
  destruct (initEffect_cases g e)
    as [(Hid & Hsdk & d & a & ->) | (Hfall & Hres & Hst)].
  - cbn [trace_of fst snd]. rewrite run_app.
    destruct (auth_events_state g events
                (run initialState [SetDb d; SetAuth a; SubscribeAuth]))
      as [-> ->].
    cbn [run fold_left apply_effect isDemoMode isReady initialState orb].
    split.
    + rewrite sign_in_throwsb_spec. split; [tauto|].
      intros [H | [H | [H | H]]]; try tauto.
      exfalso. unfold config_absent in H.
      destruct Hid as (c & _ & _ & Hc & _). congruence.
    + intros H. destruct events; [discriminate|reflexivity].
  - rewrite Hres, app_nil_r.
    destruct (Hst initialState) as [-> ->]. split; [|reflexivity].
    split; [tauto | reflexivity].
Qed.

(** *** The handlers follow the mode and never change it *)

Ltac turn_cases s e :=
  unfold Chatbot.handleSendMessage, Chatbot.generate;
  destruct (Chatbot.rejected s); [reflexivity|];
  destruct (Chatbot.if_truthy (currentSessionId s)); [|reflexivity];
  destruct (Chatbot.fetch e) as [[[] [?j|] [?tx|]]|];
  destruct (Chatbot.db_and_userId s), (Chatbot.updateDoc_user e),
           (Chatbot.updateDoc_ai e);
  step;
  try match goal with
      | |- context [Chatbot.candidateText ?j] =>
          destruct (Chatbot.candidateText j)
      end;
  step;
  try match goal with
      | |- context [Chatbot.rerender ?t] =>
          destruct (Chatbot.rerender t) as [[]|]
      end;
  reflexivity.

Ltac create_cases s e :=
  unfold Chatbot.createNewChatSession;
  destruct (Chatbot.db_and_userId s), (Chatbot.addDoc e); reflexivity.

(** In Demo mode neither handler calls the store. *)
Lemma demo_mode_never_calls_store
  (g : Globals) (s : AppState) (te : Chatbot.TurnEnv) (ce : Chatbot.CreateEnv) :
  isDemoMode s = true ->
  filter is_store_write (trace_of (Chatbot.handleSendMessage g s te)) = []
  /\ filter is_store_write (trace_of (Chatbot.createNewChatSession g s ce)) = [].
Proof.
  intros Hm. split.
  - unfold Chatbot.handleSendMessage. rewrite Hm. turn_cases s te.
  - unfold Chatbot.createNewChatSession. rewrite Hm. reflexivity.
Qed.

(** Outside Demo mode neither handler touches the in-memory list. *)
Lemma persistent_mode_never_writes_locally
  (g : Globals) (s : AppState) (te : Chatbot.TurnEnv) (ce : Chatbot.CreateEnv) :
  isDemoMode s = false ->
  filter is_local_write (trace_of (Chatbot.handleSendMessage g s te)) = []
  /\ filter is_local_write (trace_of (Chatbot.createNewChatSession g s ce)) = [].
Proof.
  intros Hm. split.
  - unfold Chatbot.handleSendMessage. rewrite Hm. turn_cases s te.
  - unfold Chatbot.createNewChatSession. rewrite Hm. create_cases s ce.
Qed.

(** No handler or listener outside the initialisation sets the mode. *)
Lemma handlers_keep_mode
  (g : Globals) (s : AppState) (te : Chatbot.TurnEnv) (ce : Chatbot.CreateEnv)
  (sid : jsstring) (docs : list QueryDoc) (snap : DocumentSnapshot) :
  filter is_SetIsDemoMode (trace_of (Chatbot.handleSendMessage g s te)) = []
  /\ filter is_SetIsDemoMode (trace_of (Chatbot.createNewChatSession g s ce)) = []
  /\ filter is_SetIsDemoMode (trace_of (Chatbot.selectChatSession s sid)) = []
  /\ filter is_SetIsDemoMode (trace_of (Chatbot.onSessionsSnapshot g s docs ce)) = []
  /\ filter is_SetIsDemoMode (trace_of (Chatbot.onMessagesSnapshot snap)) = [].
Proof.
  assert (Hc : filter is_SetIsDemoMode
                 (trace_of (Chatbot.createNewChatSession g s ce)) = []).
  { destruct (isDemoMode s) eqn:Hm; unfold Chatbot.createNewChatSession;
      rewrite Hm; [reflexivity | create_cases s ce]. }
  repeat split.
  - destruct (isDemoMode s) eqn:Hm; unfold Chatbot.handleSendMessage;
      rewrite Hm; turn_cases s te.
  - exact Hc.
  - unfold Chatbot.selectChatSession.
    destruct (isDemoMode s); [|reflexivity].
    destruct (find _ _); reflexivity.
  - unfold Chatbot.onSessionsSnapshot.
    destruct (Chatbot.is_truthy (currentSessionId s)), docs as [|d docs];
      try reflexivity; cbn -[Chatbot.createNewChatSession];
      unfold trace_of in Hc; now rewrite Hc.
  - unfold Chatbot.onMessagesSnapshot. destruct (snap_exists snap); reflexivity.
Qed.

Lemma sign_in_throws_app (events later : list Chatbot.AuthEvent) :
  sign_in_throws (events ++ later)
  <-> sign_in_throws events \/ sign_in_throws later.
Proof.
  unfold sign_in_throws. split.
  - intros (ev & Hin & H). apply in_app_iff in Hin as [Hin | Hin];
      [left | right]; exists ev; tauto.
  - intros [(ev & Hin & H) | (ev & Hin & H)]; exists ev;
      (split; [apply in_app_iff; tauto | exact H]).
Qed.

(** C5, as stated, fails, in two ways.  First, the configuration is
    present and names a project, no sign-in is even attempted, and the
    initialisation still commits to Demo mode, because a call that sets
    the store up ([initializeApp] here) throws and the [catch] of line
    76 falls back.  Second, the mode chosen is not the one all later
    mutations use: everything is set up and the user [u1] is reported,
    so that readiness is signalled in Persistent mode, none of the
    listed conditions holding; session [a] is opened and a turn sent
    from there writes to the store twice and never to the in-memory
    list.  Then the listener is told that nobody is signed in, and the
    sign-in it attempts is refused: line 69 sets Demo mode, and the
    same turn sent from there writes to the in-memory list twice and
    never to the store. *)
Lemma mode_claim_fails_at_setup_and_after_readiness :
  (isDemoMode (run initialState
                   (Chatbot.initialize Sample.hosted
                                       Sample.init_initializeApp_throws []))
   = true
   /\ ~ specified_fallback Sample.hosted Sample.init_initializeApp_throws [])
  /\ let s0 := run initialState
                   (Chatbot.initialize Sample.hosted Sample.init_ok
                                       Sample.user_arrives) in
     let s1 := run s0 Sample.opened in
     let s2 := run s1 (trace_of (Chatbot.onAuthStateChanged
                                   Sample.hosted Sample.signed_out)) in
     let turn s :=
       trace_of (Chatbot.handleSendMessage Sample.hosted s Sample.turn_ok) in
     ~ specified_fallback Sample.hosted Sample.init_ok Sample.user_arrives
     /\ isReady s0 = true /\ isDemoMode s0 = false
     /\ isDemoMode s1 = false
     /\ List.length (filter is_store_write (turn s1)) = 2
     /\ filter is_local_write (turn s1) = []
     /\ isDemoMode s2 = true
     /\ filter is_store_write (turn s2) = []
     /\ List.length (filter is_local_write (turn s2)) = 2.
Proof.
  assert (Hid : forall e, Chatbot.JSON_parse e = Sample.parse_hosted ->
                          has_projectId Sample.hosted e).
  { intros e He. unfold has_projectId. rewrite He.
    eexists _, _, _. repeat split; reflexivity. }
  split.
  - split; [reflexivity|].
    intros [H | [H | (ev & [] & _)]].
    + discriminate H.
    + apply H. now apply Hid.
  - cbv zeta. split; [|repeat split].
    intros [H | [H | (ev & [<- | []] & Hu & _)]].
    + discriminate H.
    + apply H. now apply Hid.
    + discriminate Hu.
Qed.

(** C5, amended.  The initialisation commits to Demo mode exactly when
    the configuration is absent or empty, or no project identifier can
    be read from it, or a call that sets the store and the
    authentication provider up throws, or a sign-in attempted by the
    authentication listener throws; otherwise the mode is Persistent.
    Whenever Demo mode is chosen, readiness is signalled.  The mode is
    not settled once readiness is signalled, since the listener stays
    installed: after further deliveries the mode is Demo exactly when
    it was Demo before or one of the sign-ins attempted meanwhile
    threw, so Demo mode is never left and Persistent mode is left at
    the first later sign-in that throws.  A mutation uses the mode of
    the state its handler closes over: in Demo mode neither
    handleSendMessage nor createNewChatSession calls the store, outside
    it neither writes the in-memory session list, and no handler or
    snapshot listener sets the mode. *)
Theorem mode_at_and_after_initialisation
  (g : Globals) (e : Chatbot.InitEnv) (events later : list Chatbot.AuthEvent) :
  let first := run initialState (Chatbot.initialize g e events) in
  let last := run initialState (Chatbot.initialize g e (events ++ later)) in
  (isDemoMode first = true
   <-> config_absent g \/ ~ has_projectId g e \/ sdk_setup_throws e
       \/ sign_in_throws events)
  /\ (isDemoMode first = true -> isReady first = true)
  /\ (isDemoMode last = true
      <-> isDemoMode first = true \/ sign_in_throws later)
  /\ (forall s te ce,
        isDemoMode s = true ->
        filter is_store_write (trace_of (Chatbot.handleSendMessage g s te)) = []
        /\ filter is_store_write
             (trace_of (Chatbot.createNewChatSession g s ce)) = [])
  /\ (forall s te ce,
        isDemoMode s = false ->
        filter is_local_write (trace_of (Chatbot.handleSendMessage g s te)) = []
        /\ filter is_local_write
             (trace_of (Chatbot.createNewChatSession g s ce)) = [])
  /\ (forall s te ce sid docs snap,
        filter is_SetIsDemoMode
          (trace_of (Chatbot.handleSendMessage g s te)
           ++ trace_of (Chatbot.createNewChatSession g s ce)
           ++ trace_of (Chatbot.selectChatSession s sid)
           ++ trace_of (Chatbot.onSessionsSnapshot g s docs ce)
           ++ trace_of (Chatbot.onMessagesSnapshot snap)) = []).
Proof.
  cbv zeta.
  destruct (initialize_mode g e events) as [Hiff Hready].
  destruct (initialize_mode g e (events ++ later)) as [Hlast _].
  split; [exact Hiff|]. split; [exact Hready|].
  split; [rewrite Hlast, Hiff, sign_in_throws_app; tauto|].
  split; [intros s te ce; apply demo_mode_never_calls_store|].
  split; [intros s te ce; apply persistent_mode_never_writes_locally|].
  intros s te ce sid docs snap.
  destruct (handlers_keep_mode g s te ce sid docs snap)
    as (H1 & H2 & H3 & H4 & H5).
  now rewrite !filter_app, H1, H2, H3, H4, H5.
Qed.

Lemma mode_at_and_after_initialisation_witness :
  sign_in_throws [Sample.signed_out]
  /\ isDemoMode (run initialState
                     (Chatbot.initialize Sample.hosted Sample.init_ok
                                         Sample.user_arrives)) = false
  /\ isDemoMode (run initialState
                     (Chatbot.initialize Sample.hosted Sample.init_ok
                        (Sample.user_arrives ++ [Sample.signed_out]))) = true.
Proof.
  assert (H : sign_in_throws [Sample.signed_out]).
  { eexists. split; [left; reflexivity|]. split; reflexivity. }
  pose proof (mode_at_and_after_initialisation
                Sample.hosted Sample.init_ok Sample.user_arrives
                [Sample.signed_out])
    as (_ & _ & Hlater & _).
  split; [exact H|]. split; [reflexivity|].
  apply Hlater. right. exact H.
Defined.

(* ================================================================== *)
(** ** Selecting a session *)
(* ================================================================== *)

Lemma find_unknown (l : list Session.t) (sid : jsstring) :
  (forall x, In x l -> Session.id x <> sid) ->
  find (fun x => str_eq (Session.id x) sid) l = None.
Proof.
  intros H. destruct (find _ l) as [x|] eqn:E; [|reflexivity].
  apply find_some in E as [Hin Heq].
  apply str_eq_eq in Heq. now apply H in Hin.
Qed.

(** C8, at the failing input.  In Persistent mode session [a] is
    displayed with its exchange and session [w], which has an exchange
    of its own, is selected.  The call only sets the current session,
    and the message effect that follows only subscribes to the document
    of [w]: until that subscription delivers, [w] is the current session
    and the log still shows the messages of [a], which are neither the
    messages of [w] nor the empty list.  A turn sent from that state
    writes them, with the new messages, into the document of [w].  The
    sibling paths set the log together with the session: the same call
    in Demo mode replaces the log by the messages of [w], and
    createNewChatSession empties it right after making the new session
    current. *)
Theorem select_in_persistent_mode_keeps_the_old_log :
  let g := Sample.globals in
  let w := lit "w" in
  let s1 := run Sample.persistent_two
                (trace_of (Chatbot.selectChatSession Sample.persistent_two w)) in
  let s2 := run s1 (trace_of (Chatbot.messagesEffect g s1)) in
  let sent := trace_of (Chatbot.handleSendMessage g s2 Sample.turn_ok) in
  let shown := [Sample.question; Sample.answer] in
  currentSessionId Sample.persistent_two = Some (lit "a")
  /\ trace_of (Chatbot.selectChatSession Sample.persistent_two w)
     = [SetCurrentSessionId w]
  /\ trace_of (Chatbot.messagesEffect g s1)
     = [SubscribeDocument (Chatbot.sessionDocRef g (lit "u1") w)]
  /\ currentSessionId s2 = Some w
  /\ messages s2 = shown
  /\ Session.messages Sample.session_a = shown
  /\ Session.messages Sample.session_w = [Sample.question_w; Sample.answer_w]
  /\ filter is_store_write sent
     = [ UpdateDoc (Chatbot.sessionDocRef g (lit "u1") w)
                   (shown ++ [userMessage s2 Sample.turn_ok]) 400%N;
         UpdateDoc (Chatbot.sessionDocRef g (lit "u1") w)
                   (shown ++ [userMessage s2 Sample.turn_ok;
                              aiMessage Sample.turn_ok
                                (VStr (lit "Use render.draw_circle."))])
                   500%N ]
  /\ messages (run Sample.demo_two
                   (trace_of (Chatbot.selectChatSession Sample.demo_two w)))
     = [Sample.question_w; Sample.answer_w]
  /\ skipn 2 (trace_of (Chatbot.createNewChatSession
                          g Sample.persistent_two
                          (Sample.creation (lit "c1") 450%N)))
     = [SetCurrentSessionId (lit "c1"); SetMessages []; SetLoading false]
  /\ skipn 2 (trace_of (Chatbot.createNewChatSession
                          g Sample.demo_two
                          (Sample.creation (lit "c1") 450%N)))
     = [SetCurrentSessionId (lit "c1"); SetMessages []; SetLoading false].
Proof. cbv zeta. repeat split. Qed.

(** C10. In Demo mode, selecting an identifier that no session of the
    in-memory list carries makes it the current session and leaves the
    displayed log, and the list, as they were. *)
Theorem select_unknown_session_in_demo_mode
  (s : AppState) (sid : jsstring) :
  isDemoMode s = true ->
  (forall x, In x (chatSessions s) -> Session.id x <> sid) ->
  let s1 := run s (trace_of (Chatbot.selectChatSession s sid)) in
  currentSessionId s1 = Some sid
  /\ messages s1 = messages s
  /\ chatSessions s1 = chatSessions s.
Proof.
  intros Hm Hunknown. cbv zeta.
  unfold Chatbot.selectChatSession.
  rewrite Hm, (find_unknown _ _ Hunknown).
  repeat split.
Qed.

Lemma select_unknown_session_in_demo_mode_witness :
  isDemoMode Sample.demo = true
  /\ (forall x, In x (chatSessions Sample.demo) -> Session.id x <> lit "c")
  /\ currentSessionId
       (run Sample.demo
            (trace_of (Chatbot.selectChatSession Sample.demo (lit "c"))))
     = Some (lit "c")
  /\ messages
       (run Sample.demo
            (trace_of (Chatbot.selectChatSession Sample.demo (lit "c"))))
     = [Sample.question; Sample.answer].
Proof.
  assert (H : forall x, In x (chatSessions Sample.demo) -> Session.id x <> lit "c").
  { intros x [<- | [<- | []]]; discriminate. }
  split; [reflexivity|]. split; [exact H|].
  destruct (select_unknown_session_in_demo_mode Sample.demo (lit "c") eq_refl H)
    as (H1 & H2 & _).
  split; [exact H1 | exact H2].
Defined.

(* ================================================================== *)
(** ** The message listener *)
(* ================================================================== *)

(** C9. Whatever snapshot the document listener receives, the displayed
    log becomes the [messages] field of the document when the document
    exists and the field is an array, and the empty list when the
    document is absent or the field is missing or anything but an array.
    The listener is the only path from the store to the log, and it is
    installed in Persistent mode only. *)
Theorem snapshot_replaces_log_by_array_or_empty
  (docSnap : DocumentSnapshot) (s0 : AppState) :
  let s1 := run s0 (trace_of (Chatbot.onMessagesSnapshot docSnap)) in
  (forall items,
     snap_exists docSnap = true -> data_messages docSnap = FArray items ->
     messages s1 = items)
  /\ (snap_exists docSnap = false \/ isArray (data_messages docSnap) = false ->
      messages s1 = [])
  /\ (forall g s, isDemoMode s = true ->
                  trace_of (Chatbot.messagesEffect g s) = []).
Proof.
  cbv zeta. unfold Chatbot.onMessagesSnapshot. split; [|split].
  - intros items -> ->. reflexivity.
  - intros [-> | H]; [reflexivity|].
    destruct (snap_exists docSnap); [|reflexivity].
    cbv zeta. now rewrite H.
  - intros g s Hm. unfold Chatbot.messagesEffect.
    destruct (Chatbot.if_truthy (currentSessionId s)); [|reflexivity].
    now rewrite Hm.
Qed.

Lemma snapshot_replaces_log_by_array_or_empty_witness :
  isArray (FString (lit "none yet")) = false
  /\ messages (run Sample.persistent
                   (trace_of (Chatbot.onMessagesSnapshot
                                {| snap_exists := true;
                                   data_messages := FString (lit "none yet") |})))
     = [].
Proof.
  split; [reflexivity|].
  apply (proj1 (proj2 (snapshot_replaces_log_by_array_or_empty
                         {| snap_exists := true;
                            data_messages := FString (lit "none yet") |}
                         Sample.persistent))).
  right. reflexivity.
Defined.

(* ================================================================== *)
(** ** Rendering of a message text *)
(* ================================================================== *)

Lemma startsWith_prefix (s p : jsstring) :
  Render.startsWith s p = true <-> exists r, s = p ++ r.
Proof.
  revert s; induction p as [|c p IH]; intros [|d s]; simpl.
  - split; [intros _; now exists [] | reflexivity].
  - split; [intros _; now exists (d :: s) | reflexivity].
  - split; [discriminate | intros [r H]; discriminate].
  - rewrite andb_true_iff, IH, N.eqb_eq. split.
    + intros [-> [r ->]]. now exists r.
    + intros [r H]. injection H as -> ->. split; [reflexivity | now exists r].
Qed.

Lemma startsWith_app (p r : jsstring) : Render.startsWith (p ++ r) p = true.
Proof. apply startsWith_prefix. now exists r. Qed.

Lemma span_alnum_spec (s : jsstring) :
  forall run rest,
    Render.span_alnum s = (run, rest) ->
    s = run ++ rest /\ forallb Render.is_alnum run = true.
Proof.
  induction s as [|c s IH]; intros run rest; simpl.
  - intros H. injection H as <- <-. now split.
  - destruct (Render.is_alnum c) eqn:Hc.
    + destruct (Render.span_alnum s) as [run' rest'].
      intros H. injection H as <- <-.
      destruct (IH run' rest' eq_refl) as [-> Hrun].
      split; [reflexivity|]. simpl. now rewrite Hc.
    + intros H. injection H as <- <-. now split.
Qed.

(** The run stops at a character that is no letter or digit. *)
Lemma span_alnum_app (lang rest : jsstring) (c : N) :
  forallb Render.is_alnum lang = true ->
  Render.is_alnum c = false ->
  Render.span_alnum (lang ++ c :: rest) = (lang, c :: rest).
Proof.
  intros Hl Hc. induction lang as [|d lang IH]; simpl.
  - now rewrite Hc.
  - simpl in Hl. apply andb_prop in Hl as [Hd Hl].
    now rewrite Hd, (IH Hl).
Qed.

Lemma open_fence_spec (s opening rest : jsstring) :
  Render.open_fence s = Some (opening, rest) ->
  s = opening ++ rest
  /\ exists lang, forallb Render.is_alnum lang = true
                  /\ opening = Render.fence ++ lang ++ nl.
Proof.
  unfold Render.open_fence.
  destruct (Render.startsWith s Render.fence) eqn:Hs; [|discriminate].
  apply startsWith_prefix in Hs as [r ->].
  change (skipn 3 (Render.fence ++ r)) with r.
  destruct (Render.span_alnum r) as [lang after] eqn:Hspan.
  apply span_alnum_spec in Hspan as [-> Hlang].
  destruct after as [|c after]; [discriminate|].
  destruct (N.eqb c 10) eqn:Hc; [|discriminate].
  apply N.eqb_eq in Hc. subst c.
  intros H. injection H as <- <-. split.
  - unfold Render.fence. cbn. now rewrite <- app_assoc.
  - now exists lang.
Qed.

Lemma close_fence_spec (s : jsstring) :
  forall m rest,
    Render.close_fence s = Some (m, rest) ->
    s = m ++ rest /\ exists body, m = body ++ nl ++ Render.fence.
Proof.
  induction s as [|c s IH]; intros m rest; [discriminate|].
  cbn [Render.close_fence].
  destruct (Render.startsWith (c :: s) (nl ++ Render.fence)) eqn:Hs.
  - apply startsWith_prefix in Hs as [r Hr]. rewrite Hr.
    change (skipn 4 ((nl ++ Render.fence) ++ r)) with r.
    intros H. injection H as <- <-. split.
    + reflexivity.
    + now exists [].
  - destruct (Render.close_fence s) as [[m' rest']|]; [|discriminate].
    intros H. injection H as <- <-.
    destruct (IH m' rest' eq_refl) as [-> [body ->]]. split.
    + reflexivity.
    + now exists (c :: body).
Qed.

Lemma match_fence_spec (s m rest : jsstring) :
  Render.match_fence s = Some (m, rest) ->
  s = m ++ rest
  /\ exists lang body,
       forallb Render.is_alnum lang = true
       /\ m = Render.fence ++ lang ++ nl ++ body ++ nl ++ Render.fence.
Proof.
  unfold Render.match_fence.
  destruct (Render.open_fence s) as [[opening r]|] eqn:Ho; [|discriminate].
  destruct (Render.close_fence r) as [[m' rest']|] eqn:Hc; [|discriminate].
  intros H. injection H as <- <-.
  apply open_fence_spec in Ho as [-> (lang & Hlang & ->)].
  apply close_fence_spec in Hc as [-> (body & ->)].
  split.
  - now rewrite <- !app_assoc.
  - exists lang, body. split; [exact Hlang|]. now rewrite <- !app_assoc.
Qed.

Lemma split_from_parts (s : jsstring) :
  forall skip pending,
    List.concat (Render.split_from s skip pending) = pending ++ skipn skip s
    /\ Render.alternates (Render.split_from s skip pending).
Proof.
  induction s as [|c s IH]; intros skip pending.
  - cbn. rewrite skipn_nil, app_nil_r. now split.
  - cbn [Render.split_from]. destruct skip as [|k].
    + destruct (Render.match_fence (c :: s)) as [[m rest]|] eqn:Hm.
      * destruct (match_fence_spec _ _ _ Hm) as [Heq (lang & body & Hl & Hform)].
        destruct m as [|d m']; [now destruct lang|].
        injection Heq as <- ->.
        destruct (IH (List.length (c :: m') - 1) []) as [Hc Ha].
        cbn [List.concat Render.alternates]. rewrite Hc. split.
        -- cbn [List.length]. rewrite Nat.sub_succ, Nat.sub_0_r.
           rewrite skipn_app, skipn_all, Nat.sub_diag. cbn.
           rewrite <- ?app_assoc. reflexivity.
        -- split; [now exists lang, body | exact Ha].
      * destruct (IH 0 (pending ++ [c])) as [Hc Ha]. split; [|exact Ha].
        rewrite Hc. cbn. rewrite <- ?app_assoc. reflexivity.
    + destruct (IH k pending) as [Hc Ha]. now split.
Qed.

(** X15. No part is lost by the split: the parts, joined, are the text;
    their number is odd, and every second one is a complete fence, from
    its opening line to the closing backticks. *)
Theorem split_keeps_text (text : jsstring) :
  List.concat (Render.split text) = text /\ Render.alternates (Render.split text).
Proof.
  destruct (split_from_parts text 0 []) as [Hc Ha]. split; [|exact Ha].
  unfold Render.split. now rewrite Hc.
Qed.



(** A text whose first character is no backtick does not start with a
    fence. *)
Lemma no_fence_at_head (c : N) (s : jsstring) :
  N.eqb c 96 = false ->
  Render.startsWith (c :: s) Render.fence = false
  /\ Render.open_fence (c :: s) = None
  /\ Render.match_fence (c :: s) = None.
Proof.
  intros Hc.
  assert (H : Render.startsWith (c :: s) Render.fence = false).
  { cbn. now rewrite Hc. }
  unfold Render.match_fence, Render.open_fence. now rewrite H.
Qed.

(** Nor does a line feed followed by anything but a backtick start the
    closing of a fence. *)
Lemma close_fence_plain (body rest : jsstring) :
  Render.no_backtick body = true ->
  Render.close_fence (body ++ nl ++ Render.fence ++ rest)
  = Some (body ++ nl ++ Render.fence, rest).
Proof.
  induction body as [|c body IH]; intros Hb.
  - reflexivity.
  - simpl in Hb. apply andb_prop in Hb as [Hc Hb].
    cbn [app Render.close_fence].
    replace (Render.startsWith (c :: body ++ nl ++ Render.fence ++ rest)
                               (nl ++ Render.fence)) with false.
    + now rewrite (IH Hb).
    + symmetry. cbn. destruct (N.eqb c 10); [|reflexivity].
      destruct body as [|d body]; [reflexivity|].
      simpl in Hb. apply andb_prop in Hb as [Hd _].
      apply negb_true_iff in Hd. cbn. now rewrite Hd.
Qed.


Lemma open_fence_lang (lang rest : jsstring) :
  forallb Render.is_alnum lang = true ->
  Render.open_fence (Render.fence ++ lang ++ nl ++ rest)
  = Some (Render.fence ++ lang ++ nl, rest).
Proof.
  intros Hl. unfold Render.open_fence.
  rewrite startsWith_app.
  change (skipn 3 (Render.fence ++ ?x)) with x.
  change (lang ++ nl ++ rest) with (lang ++ 10%N :: rest).
  now rewrite (span_alnum_app lang rest 10%N Hl eq_refl).
Qed.

Lemma match_fence_block (lang body rest : jsstring) :
  forallb Render.is_alnum lang = true ->
  Render.no_backtick body = true ->
  Render.match_fence
    (Render.fence ++ lang ++ nl ++ body ++ nl ++ Render.fence ++ rest)
  = Some (Render.fence ++ lang ++ nl ++ body ++ nl ++ Render.fence, rest).
Proof.
  intros Hl Hb. unfold Render.match_fence.
  rewrite (open_fence_lang lang _ Hl), (close_fence_plain body rest Hb).
  now rewrite <- !app_assoc.
Qed.

(** Plain text is passed character by character. *)
Lemma split_from_plain (pre rest pending : jsstring) :
  Render.no_backtick pre = true ->
  Render.split_from (pre ++ rest) 0 pending
  = Render.split_from rest 0 (pending ++ pre).
Proof.
  revert pending. induction pre as [|c pre IH]; intros pending Hp.
  - now rewrite app_nil_r.
  - simpl in Hp. apply andb_prop in Hp as [Hc Hp].
    apply negb_true_iff in Hc.
    cbn [app Render.split_from].
    destruct (no_fence_at_head c (pre ++ rest) Hc) as (_ & _ & ->).
    rewrite (IH _ Hp). now rewrite <- app_assoc.
Qed.

(** The characters of a match are passed without a new attempt. *)
Lemma split_from_skip (m rest pending : jsstring) :
  Render.split_from (m ++ rest) (List.length m) pending
  = Render.split_from rest 0 pending.
Proof. induction m as [|c m IH]; [reflexivity | exact IH]. Qed.

Lemma strip_from_plain (a b : jsstring) :
  Render.no_backtick a = true ->
  Render.strip_from (a ++ b) 0 = a ++ Render.strip_from b 0.
Proof.
  induction a as [|c a IH]; intros Ha; [reflexivity|].
  simpl in Ha. apply andb_prop in Ha as [Hc Ha].
  apply negb_true_iff in Hc.
  cbn [app Render.strip_from].
  destruct (no_fence_at_head c (a ++ b) Hc) as (-> & -> & _).
  now rewrite (IH Ha).
Qed.

Lemma strip_from_skip (m rest : jsstring) :
  Render.strip_from (m ++ rest) (List.length m) = Render.strip_from rest 0.
Proof. induction m as [|c m IH]; [reflexivity | exact IH]. Qed.

Lemma split_plain (text : jsstring) :
  Render.no_backtick text = true -> Render.split text = [text].
Proof.
  intros H. unfold Render.split.
  rewrite <- (app_nil_r text) at 1.
  now rewrite (split_from_plain text [] [] H).
Qed.

Lemma render_part_plain (part : jsstring) :
  Render.no_backtick part = true ->
  Render.render_part part = Render.render_text part.
Proof.
  intros H. unfold Render.render_part, Render.render_text.
  destruct part as [|c part]; [reflexivity|].
  simpl in H. apply andb_prop in H as [Hc _]. apply negb_true_iff in Hc.
  now destruct (no_fence_at_head c part Hc) as (-> & _).
Qed.

(** X16. A text without a backtick is rendered as one element: a heading
    showing the trimmed rest when the text starts with ['## '], a
    paragraph showing the text otherwise.  A ['## '] further inside the
    text stays in the paragraph. *)
Theorem plain_text_is_one_element (text : jsstring) :
  Render.no_backtick text = true ->
  Render.renderMessageContent text
  = [ if Render.startsWith text (lit "## ")
      then Render.Heading (trim (skipn 3 text))
      else Render.Paragraph text ].
Proof.
  intros H. unfold Render.renderMessageContent.
  rewrite (split_plain text H). cbn [map].
  now rewrite (render_part_plain text H).
Qed.

Lemma plain_text_is_one_element_witness :
  Render.no_backtick (lit "Intro" ++ nl ++ lit "## Title") = true
  /\ Render.renderMessageContent (lit "Intro" ++ nl ++ lit "## Title")
     = [Render.Paragraph (lit "Intro" ++ nl ++ lit "## Title")].
Proof.
  split; [reflexivity|].
  apply (plain_text_is_one_element (lit "Intro" ++ nl ++ lit "## Title")).
  reflexivity.
Defined.

Lemma strip_from_open (opening rest : jsstring) :
  Render.open_fence (opening ++ rest) = Some (opening, rest) ->
  Render.strip_from (opening ++ rest) 0 = Render.strip_from rest 0.
Proof.
  intros H.
  destruct opening as [|c o].
  - apply open_fence_spec in H as [_ (lang & _ & H)]. discriminate.
  - cbn [app Render.strip_from]. cbn [app] in H. rewrite H.
    cbn [List.length]. rewrite Nat.sub_succ, Nat.sub_0_r.
    apply strip_from_skip.
Qed.

Lemma split_from_match (m rest pending : jsstring) :
  Render.match_fence (m ++ rest) = Some (m, rest) ->
  Render.split_from (m ++ rest) 0 pending
  = pending :: m :: Render.split_from rest 0 [].
Proof.
  intros H.
  destruct m as [|c m'].
  - apply match_fence_spec in H as [_ (lang & body & _ & H)]. discriminate.
  - cbn [app Render.split_from]. cbn [app] in H. rewrite H.
    cbn [List.length]. rewrite Nat.sub_succ, Nat.sub_0_r.
    now rewrite split_from_skip.
Qed.

(** What is shown of a complete fence whose body has no backtick: the
    body and the line feed that precedes the closing backticks. *)
Lemma strip_block (lang body : jsstring) :
  forallb Render.is_alnum lang = true ->
  Render.no_backtick body = true ->
  Render.strip_markers
    (Render.fence ++ lang ++ nl ++ body ++ nl ++ Render.fence)
  = body ++ nl.
Proof.
  intros Hl Hb. unfold Render.strip_markers.
  replace (Render.fence ++ lang ++ nl ++ body ++ nl ++ Render.fence)
    with ((Render.fence ++ lang ++ nl) ++ body ++ nl ++ Render.fence)
    by now rewrite <- !app_assoc.
  rewrite strip_from_open.
  - rewrite (strip_from_plain body _ Hb). reflexivity.
  - rewrite <- !app_assoc. apply (open_fence_lang lang _ Hl).
Qed.

(** X17. A text made of plain text, one complete fence and plain text again
    is rendered as three elements: what precedes the fence, a code
    block, what follows.  The code block shows the body of the fence
    without the opening line and the closing backticks, and with the
    line feed that ends its last line. *)
Theorem fenced_block_is_a_code_block (pre lang body post : jsstring) :
  Render.no_backtick pre = true ->
  forallb Render.is_alnum lang = true ->
  Render.no_backtick body = true ->
  Render.no_backtick post = true ->
  Render.renderMessageContent
    (pre ++ (Render.fence ++ lang ++ nl ++ body ++ nl ++ Render.fence) ++ post)
  = [ Render.render_text pre;
      Render.CodeBlock (body ++ nl);
      Render.render_text post ].
Proof.
  intros Hpre Hl Hb Hpost.
  unfold Render.renderMessageContent, Render.split.
  rewrite (split_from_plain pre _ [] Hpre). cbn [app].
  rewrite split_from_match.
  - rewrite <- (app_nil_r post) at 1.
    rewrite (split_from_plain post [] [] Hpost). cbn [app map Render.split_from].
    rewrite (render_part_plain pre Hpre), (render_part_plain post Hpost).
    do 2 f_equal.
    unfold Render.render_part. rewrite startsWith_app.
    now rewrite (strip_block lang body Hl Hb).
  - rewrite <- !app_assoc.
    now rewrite (match_fence_block lang body post Hl Hb).
Qed.

Lemma fenced_block_is_a_code_block_witness :
  Render.no_backtick (lit "## Watermark" ++ nl) = true
  /\ forallb Render.is_alnum (lit "lua") = true
  /\ Render.no_backtick (lit "print(1)") = true
  /\ Render.no_backtick (nl ++ lit "Done.") = true
  /\ Render.renderMessageContent
       ((lit "## Watermark" ++ nl)
        ++ (Render.fence ++ lit "lua" ++ nl ++ lit "print(1)" ++ nl
            ++ Render.fence)
        ++ nl ++ lit "Done.")
     = [ Render.Heading (lit "Watermark");
         Render.CodeBlock (lit "print(1)" ++ nl);
         Render.Paragraph (nl ++ lit "Done.") ].
Proof.
  repeat (split; [reflexivity|]).
  rewrite (fenced_block_is_a_code_block
             (lit "## Watermark" ++ nl) (lit "lua") (lit "print(1)")
             (nl ++ lit "Done.") eq_refl eq_refl eq_refl eq_refl).
  reflexivity.
Defined.



(* ================================================================== *)
(** ** Loading of the reference texts *)
(* ================================================================== *)

Lemma loads_app (t1 t2 : list Loader.Effect) :
  Loader.loads (t1 ++ t2) = Loader.loads t1 ++ Loader.loads t2.
Proof. apply flat_map_app. Qed.

Lemma loader_run_app (s : AppState) (t1 t2 : list Loader.Effect) :
  Loader.run s (t1 ++ t2) = Loader.run (Loader.run s t1) t2.
Proof. apply fold_left_app. Qed.

Lemma loadExample_step (env : Loader.Env) (t : list Loader.Effect)
  (acc file : jsstring) :
  Loader.loadExample env (t, acc) file
  = (t ++ Loader.example_trace env file,
     acc ++ Loader.example_section env file).
Proof.
  unfold Loader.loadExample, Loader.example_trace, Loader.example_section.
  destruct (Loader.read (Loader.example env file)); reflexivity.
Qed.

Lemma example_trace_quiet (env : Loader.Env) (file : jsstring) :
  Loader.loads (Loader.example_trace env file) = [lit "./Examples/" ++ file]
  /\ forall s, Loader.run s (Loader.example_trace env file) = s.
Proof.
  unfold Loader.example_trace.
  destruct (Loader.read (Loader.example env file)); now split.
Qed.

(** The loop over the example files: it fetches every file, in order,
    appends one section per file and sets no state. *)
Lemma loadExamples_fold (env : Loader.Env) (files : list jsstring) :
  forall t acc,
    let r := fold_left (Loader.loadExample env) files (t, acc) in
    snd r = acc ++ List.concat (map (Loader.example_section env) files)
    /\ Loader.loads (fst r)
       = Loader.loads t ++ map (fun f => lit "./Examples/" ++ f) files
    /\ forall s, Loader.run s (fst r) = Loader.run s t.
Proof.
  induction files as [|f files IH]; intros t acc; cbv zeta.
  - cbn. rewrite !app_nil_r. auto.
  - cbn [fold_left map List.concat]. rewrite loadExample_step.
    destruct (IH (t ++ Loader.example_trace env f)
                 (acc ++ Loader.example_section env f)) as (H1 & H2 & H3).
    destruct (example_trace_quiet env f) as [Hl Hq].
    split; [|split].
    + etransitivity; [exact H1|]. now rewrite <- app_assoc.
    + etransitivity; [exact H2|].
      rewrite loads_app, Hl. now rewrite <- app_assoc.
    + intros s. etransitivity; [exact (H3 s)|].
      now rewrite loader_run_app, Hq.
Qed.

(** The state after the loader has run. *)
Lemma loader_state (env : Loader.Env) (s : AppState) :
  let s1 := Loader.run s (fst (Loader.fetchPerceptionAndLuaExamples env)) in
  perceptionDocContent s1
  = match Loader.read (Loader.perception env) with
    | Some text => text
    | None => perceptionDocContent s
    end
  /\ luaExamplesContent s1
     = List.concat (map (Loader.example_section env) Loader.luaFiles)
  /\ Loader.loads (fst (Loader.fetchPerceptionAndLuaExamples env))
     = lit "./Perception.txt"
       :: map (fun f => lit "./Examples/" ++ f) Loader.luaFiles
  /\ messages s1 = messages s /\ input s1 = input s /\ loading s1 = loading s
  /\ chatSessions s1 = chatSessions s
  /\ currentSessionId s1 = currentSessionId s
  /\ isDemoMode s1 = isDemoMode s /\ isReady s1 = isReady s
  /\ db s1 = db s /\ userId s1 = userId s.
Proof.
  cbv zeta. unfold Loader.fetchPerceptionAndLuaExamples.
  set (r := fold_left (Loader.loadExample env) Loader.luaFiles ([], [])).
  assert (H : snd r
              = List.concat (map (Loader.example_section env) Loader.luaFiles)
              /\ Loader.loads (fst r)
                 = map (fun f => lit "./Examples/" ++ f) Loader.luaFiles
              /\ forall s, Loader.run s (fst r) = s)
    by apply (loadExamples_fold env Loader.luaFiles [] []).
  clearbody r. destruct r as [t2 examplesCombined].
  cbn [fst snd] in H. destruct H as (-> & H2 & H3).
  destruct (Loader.read (Loader.perception env)) as [text|];
    cbn [fst]; rewrite !loads_app, H2, !loader_run_app, H3;
    repeat split; reflexivity.
Qed.

(** X1. The loader fetches Perception.txt and then the seven example
    files, in the order of the list, whatever fails on the way.  It
    sets the examples text once, to one section per file in that order:
    the file's text under a comment naming the file, or an error line
    naming the file.  It sets the documentation text only when
    Perception.txt was read; when that fails the cell keeps its value,
    the placeholder text going to a local that nothing reads.  It
    touches no other cell of the state. *)
Theorem loader_reads_every_file_in_order (env : Loader.Env) (s : AppState) :
  let t := fst (Loader.fetchPerceptionAndLuaExamples env) in
  let s1 := Loader.run s t in
  Loader.loads t
  = [ lit "./Perception.txt"; lit "./Examples/DayZ.lua";
      lit "./Examples/delta_force.lua"; lit "./Examples/fortnite.lua";
      lit "./Examples/lagger.lua"; lit "./Examples/ragemp.lua";
      lit "./Examples/roblox.lua"; lit "./Examples/rust.lua" ]
  /\ luaExamplesContent s1
     = List.concat
         (map (fun file =>
                 match Loader.read (Loader.example env file) with
                 | Some text =>
                     lit "-- Content from " ++ file ++ lit ":" ++ nl
                       ++ text ++ nl ++ nl
                 | None => lit "Error loading " ++ file ++ lit "." ++ nl ++ nl
                 end)
              Loader.luaFiles)
  /\ perceptionDocContent s1
     = match Loader.read (Loader.perception env) with
       | Some text => text
       | None => perceptionDocContent s
       end
  /\ messages s1 = messages s /\ input s1 = input s
  /\ loading s1 = loading s /\ chatSessions s1 = chatSessions s
  /\ currentSessionId s1 = currentSessionId s
  /\ isDemoMode s1 = isDemoMode s /\ isReady s1 = isReady s.
Proof.
  cbv zeta.
  destruct (loader_state env s)
    as (Hd & He & Hl & Hm & Hi & Hlo & Hc & Hcur & Hdm & Hr & _).
  repeat split; assumption.
Qed.

(** X2. The texts the loader leaves in the state are the ones the next
    turn sends: the first entry of the payload carries the system
    instructions, the documentation heading with the text of
    Perception.txt (or, when it could not be read, with what the cell
    held before, the empty string at start-up), and the examples heading
    with the sections of the seven files. *)
Theorem loaded_texts_reach_the_payload
  (g : Globals) (env : Loader.Env) (s : AppState) (e : Chatbot.TurnEnv) :
  Chatbot.rejected s = false ->
  let s1 := Loader.run s (fst (Loader.fetchPerceptionAndLuaExamples env)) in
  fetched (trace_of (Chatbot.handleSendMessage g s1 e))
  = [ {| role := user;
         parts_text :=
           VStr (Chatbot.systemPrompt
                 ++ (nl ++ nl ++ lit "Perception.cx API Documentation:" ++ nl)
                 ++ match Loader.read (Loader.perception env) with
                    | Some text => text
                    | None => perceptionDocContent s
                    end
                 ++ (nl ++ nl ++ lit "Lua Code Examples for Learning:" ++ nl)
                 ++ List.concat
                      (map (Loader.example_section env) Loader.luaFiles)) |}
      :: {| role := model; parts_text := VStr Chatbot.acknowledgement |}
      :: map Chatbot.content_of_message (messages s ++ [userMessage s e]) ].
Proof.
  intros Hacc. cbv zeta.
  destruct (loader_state env s)
    as (Hd & He & _ & Hm & Hi & Hlo & _ & Hcur & _).
  set (s1 := Loader.run s (fst (Loader.fetchPerceptionAndLuaExamples env))) in *.
  assert (Hacc1 : Chatbot.rejected s1 = false).
  { unfold Chatbot.rejected in *. now rewrite Hi, Hlo, Hcur. }
  rewrite (turn_fetched g s1 e Hacc1).
  unfold Chatbot.contents, Chatbot.contextText, userMessage.
  rewrite Hd, He, Hm, Hi. now rewrite <- !app_assoc.
Qed.

Lemma loaded_texts_reach_the_payload_witness :
  Chatbot.rejected Sample.demo = false
  /\ exists history,
       fetched (trace_of (Chatbot.handleSendMessage
                            Sample.globals
                            (Loader.run Sample.demo
                               (fst (Loader.fetchPerceptionAndLuaExamples
                                       Sample2.offline)))
                            Sample.turn_ok))
       = [ {| role := user;
              parts_text :=
                VStr (Chatbot.systemPrompt
                      ++ (nl ++ nl ++ lit "Perception.cx API Documentation:" ++ nl)
                      ++ perceptionDocContent Sample.demo
                      ++ (nl ++ nl ++ lit "Lua Code Examples for Learning:" ++ nl)
                      ++ List.concat
                           (map (fun file => lit "Error loading " ++ file
                                             ++ lit "." ++ nl ++ nl)
                                Loader.luaFiles)) |}
           :: history ].
Proof.
  split; [reflexivity|]. eexists.
  exact (loaded_texts_reach_the_payload Sample.globals Sample2.offline
           Sample.demo Sample.turn_ok eq_refl).
Defined.

(* ================================================================== *)
(** ** What a send accepts and stores *)
(* ================================================================== *)

Lemma trimStart_split (s : jsstring) :
  exists l, s = l ++ trimStart s /\ forallb is_white_space l = true.
Proof.
  induction s as [|c s (l & Hl & Hw)].
  - now exists [].
  - cbn [trimStart]. destruct (is_white_space c) eqn:Hc.
    + exists (c :: l). cbn. rewrite Hc, Hw. split; [now f_equal | reflexivity].
    + now exists [].
Qed.

Lemma trimStart_head (s : jsstring) (c : N) (r : jsstring) :
  trimStart s = c :: r -> is_white_space c = false.
Proof.
  induction s as [|d s IH]; [discriminate|].
  cbn [trimStart]. destruct (is_white_space d) eqn:Hd; [exact IH|].
  intros H. injection H as <- _. exact Hd.
Qed.

Lemma trimStart_fixed (c : N) (r : jsstring) :
  is_white_space c = false -> trimStart (c :: r) = c :: r.
Proof. intros H. cbn. now rewrite H. Qed.

Lemma forallb_rev {A} (f : A -> bool) (l : list A) :
  forallb f (rev l) = forallb f l.
Proof.
  induction l as [|a l IH]; [reflexivity|].
  cbn. rewrite forallb_app, IH. cbn. rewrite andb_true_r. apply andb_comm.
Qed.

Lemma trimEnd_split (s : jsstring) :
  exists r, s = trimEnd s ++ r /\ forallb is_white_space r = true.
Proof.
  unfold trimEnd.
  destruct (trimStart_split (rev s)) as (l & Hl & Hw).
  exists (rev l). split.
  - rewrite <- rev_app_distr, <- Hl. now rewrite rev_involutive.
  - now rewrite forallb_rev.
Qed.

(** The shape of [s.trim()]: the string without a white-space prefix
    and a white-space suffix; its first and its last character, if any,
    are no white space. *)
Lemma trim_shape (s : jsstring) :
  exists l r,
    s = l ++ trim s ++ r
    /\ forallb is_white_space l = true
    /\ forallb is_white_space r = true
    /\ (forall c t, trim s = c :: t -> is_white_space c = false)
    /\ (forall c t, rev (trim s) = c :: t -> is_white_space c = false).
Proof.
  destruct (trimStart_split s) as (l & Hl & Hwl).
  destruct (trimEnd_split (trimStart s)) as (r & Hr & Hwr).
  exists l, r. unfold trim.
  split; [now rewrite <- Hr|]. split; [exact Hwl|]. split; [exact Hwr|].
  split; intros c t H.
  - rewrite H in Hr. apply (trimStart_head s c (t ++ r)). exact Hr.
  - unfold trimEnd in H. rewrite rev_involutive in H.
    exact (trimStart_head _ c t H).
Qed.

Lemma trim_empty_iff (s : jsstring) :
  trim s = [] <-> forallb is_white_space s = true.
Proof.
  split; [|apply trim_blank].
  intros H. destruct (trim_shape s) as (l & r & Hs & Hl & Hr & _).
  rewrite H in Hs. rewrite Hs. cbn. now rewrite forallb_app, Hl, Hr.
Qed.

(** X3. handleSendMessage goes on past its guard exactly when the
    input holds a character that is no white space, no turn is in
    flight, and the current session identifier is a non-empty string. *)
Theorem send_is_accepted_iff (s : AppState) :
  Chatbot.rejected s = false
  <-> existsb (fun c => negb (is_white_space c)) (input s) = true
      /\ loading s = false
      /\ exists c r, currentSessionId s = Some (c :: r).
Proof.
  unfold Chatbot.rejected.
  rewrite !orb_false_iff, !negb_false_iff.
  assert (Hin : truthy (VStr (trim (input s))) = true
                <-> existsb (fun c => negb (is_white_space c)) (input s) = true).
  { cbn [truthy]. split.
    - intros H. destruct (existsb _ (input s)) eqn:E; [reflexivity|].
      assert (Hall : forallb is_white_space (input s) = true).
      { apply forallb_forall. intros c Hc.
        destruct (is_white_space c) eqn:W; [reflexivity|].
        assert (existsb (fun c => negb (is_white_space c)) (input s) = true).
        { apply existsb_exists. exists c. now rewrite W. }
        congruence. }
      apply trim_empty_iff in Hall. now rewrite Hall in H.
    - intros H. apply existsb_exists in H as (c & Hc & W).
      destruct (trim (input s)) eqn:E; [|reflexivity].
      apply trim_empty_iff in E.
      rewrite forallb_forall in E. apply E in Hc.
      rewrite Hc in W. discriminate. }
  assert (Hcur : Chatbot.is_truthy (currentSessionId s) = true
                 <-> exists c r, currentSessionId s = Some (c :: r)).
  { unfold Chatbot.is_truthy, Chatbot.if_truthy.
    destruct (currentSessionId s) as [[|c r]|].
    - split; [discriminate | intros (c & r & H); discriminate].
    - split; [intros _; now exists c, r | reflexivity].
    - split; [discriminate | intros (c & r & H); discriminate]. }
  rewrite Hin, Hcur. tauto.
Qed.

(** X4. The user message of an accepted turn carries the input without
    the white space around it: the input is a white-space prefix, the
    stored text and a white-space suffix; the stored text is not empty
    and neither starts nor ends with white space. *)
Theorem user_message_is_trimmed_input
  (g : Globals) (s : AppState) (e : Chatbot.TurnEnv) :
  Chatbot.rejected s = false ->
  exists before text after,
    input s = before ++ text ++ after
    /\ forallb is_white_space before = true
    /\ forallb is_white_space after = true
    /\ text <> []
    /\ (forall c r, text = c :: r -> is_white_space c = false)
    /\ (forall c r, rev text = c :: r -> is_white_space c = false)
    /\ nth_error (messages (run s (trace_of (Chatbot.handleSendMessage g s e))))
                 (List.length (messages s))
       = Some (Message.mk (lit "user") (VStr text) (Chatbot.now_user e)).
Proof.
  intros Hacc.
  destruct (trim_shape (input s)) as (l & r & Hs & Hl & Hr & Hfirst & Hlast).
  exists l, (trim (input s)), r.
  assert (Hne : trim (input s) <> []).
  { intros E. unfold Chatbot.rejected in Hacc. rewrite E in Hacc.
    discriminate. }
  repeat split; try assumption.
  rewrite (turn_display g s e Hacc s). unfold userMessage.
  rewrite <- app_assoc, nth_error_app2 by apply Nat.le_refl.
  now rewrite Nat.sub_diag.
Qed.

Lemma user_message_is_trimmed_input_witness :
  Chatbot.rejected Sample.demo = false
  /\ exists before text after,
       input Sample.demo = before ++ text ++ after
       /\ forallb is_white_space before = true
       /\ forallb is_white_space after = true
       /\ text <> []
       /\ (forall c r, text = c :: r -> is_white_space c = false)
       /\ (forall c r, rev text = c :: r -> is_white_space c = false)
       /\ nth_error
            (messages (run Sample.demo
                           (trace_of (Chatbot.handleSendMessage
                                        Sample.globals Sample.demo
                                        Sample.turn_ok))))
            (List.length (messages Sample.demo))
          = Some (Message.mk (lit "user") (VStr text)
                             (Chatbot.now_user Sample.turn_ok)).
Proof.
  split; [reflexivity|].
  apply (user_message_is_trimmed_input Sample.globals Sample.demo
           Sample.turn_ok).
  reflexivity.
Defined.

(* ================================================================== *)
(** ** Demo mode: the in-memory sessions *)
(* ================================================================== *)

Lemma store_locally_ids (l : list Session.t) (sid : jsstring)
  (ms : list Message.t) (d : Date) :
  map Session.id (Chatbot.store_locally l sid ms d) = map Session.id l.
Proof.
  unfold Chatbot.store_locally. rewrite map_map. apply map_ext.
  intros x. now destruct (str_eq (Session.id x) sid).
Qed.

Lemma store_locally_current (l : list Session.t) (sid : jsstring)
  (ms : list Message.t) (d : Date) (x : Session.t) :
  In x (Chatbot.store_locally l sid ms d) ->
  Session.id x = sid -> Session.messages x = ms.
Proof.
  unfold Chatbot.store_locally. rewrite in_map_iff.
  intros (y & Hy & _) Hid.
  destruct (str_eq (Session.id y) sid) eqn:E.
  - now subst x.
  - subst x. apply str_eq_eq in Hid. congruence.
Qed.

Lemma store_locally_others (l : list Session.t) (sid : jsstring)
  (ms : list Message.t) (d : Date) (x : Session.t) :
  In x l -> Session.id x <> sid -> In x (Chatbot.store_locally l sid ms d).
Proof.
  intros Hin Hid. unfold Chatbot.store_locally. apply in_map_iff.
  exists x. split; [|exact Hin].
  destruct (str_eq (Session.id x) sid) eqn:E; [|reflexivity].
  apply str_eq_eq in E. contradiction.
Qed.

Lemma if_truthy_Some (o : option jsstring) (sid : jsstring) :
  Chatbot.if_truthy o = Some sid -> o = Some sid.
Proof.
  unfold Chatbot.if_truthy. destruct o as [[|c r]|]; try discriminate.
  now intros H.
Qed.

(** The trace of an accepted turn in Demo mode. *)
Lemma turn_trace_demo (g : Globals) (s : AppState) (e : Chatbot.TurnEnv)
  (sid : jsstring) :
  isDemoMode s = true ->
  Chatbot.rejected s = false ->
  currentSessionId s = Some sid ->
  let u := messages s ++ [userMessage s e] in
  exists logs,
    (forall s0, run s0 logs = s0)
    /\ until_fetch logs = (logs, [])
    /\ trace_of (Chatbot.handleSendMessage g s e)
       = [ PreventDefault; SetMessages u; SetInput []; SetLoading true;
           SetChatSessions
             (Chatbot.store_locally (chatSessions s) sid u
                                    (Chatbot.date_user_saved e));
           Fetch (Chatbot.contents s u) ]
         ++ logs
         ++ match response_text e with
            | Some txt =>
                SetMessages (u ++ [aiMessage e txt])
                :: match Chatbot.rerender txt with
                   | Some _ =>
                       [ SetChatSessions
                           (Chatbot.store_locally (chatSessions s) sid
                              (u ++ [aiMessage e txt])
                              (Chatbot.date_ai_saved e)) ]
                   | None => [ConsoleError (lit "Error with AI response:")]
                   end
            | None => [ConsoleError (lit "Error with AI response:")]
            end
         ++ [SetLoading false].
Proof.
  intros Hm Hacc Hcur u.
  destruct (accepted_session s Hacc) as [sid' Hsid].
  assert (sid' = sid).
  { apply if_truthy_Some in Hsid. congruence. }
  subst sid'.
  rewrite (turn_trace g s e sid Hacc Hsid). cbv zeta. fold u.
  unfold trace_of at 1. cbn [fst].
  rewrite generate_result.
  assert (Hg : exists logs,
             trace_of (Chatbot.generate e (Chatbot.contents s u))
             = Fetch (Chatbot.contents s u) :: logs
             /\ (forall s0, run s0 logs = s0)
             /\ until_fetch logs = (logs, [])).
  { unfold Chatbot.generate.
    destruct (Chatbot.fetch e) as [[okb j tx]|]; [|exists []; now step].
    destruct okb; step.
    - destruct j as [j|]; [|exists []; now step]. step.
      destruct (Chatbot.candidateText j); exists []; now step.
    - destruct tx; eexists; (split; [reflexivity | now step]). }
  destruct Hg as (logs & -> & Hquiet & Huntil).
  exists logs. split; [exact Hquiet|]. split; [exact Huntil|].
  unfold user_save_trace, ai_save_trace, write_of. rewrite Hm.
  destruct (response_text e) as [txt|];
    [destruct (Chatbot.rerender txt)|];
    cbn; rewrite <- ?app_assoc; reflexivity.
Qed.

(** The render of a message does not throw exactly when its text is a
    string. *)
Lemma rerender_string (txt : JsVal) :
  Chatbot.rerender txt = Some tt <-> exists t, txt = VStr t.
Proof.
  split.
  - destruct txt; try discriminate. eauto.
  - now intros [t ->].
Qed.

(** The state an accepted Demo-mode turn ends in, from the state it
    started in, when the text read from the response is a string. *)
Lemma turn_state_demo (g : Globals) (s : AppState) (e : Chatbot.TurnEnv)
  (sid : jsstring) :
  isDemoMode s = true ->
  Chatbot.rejected s = false ->
  currentSessionId s = Some sid ->
  (forall txt, response_text e = Some txt -> exists t, txt = VStr t) ->
  let s1 := run s (trace_of (Chatbot.handleSendMessage g s e)) in
  (exists d, chatSessions s1
             = Chatbot.store_locally (chatSessions s) sid (messages s1) d)
  /\ currentSessionId s1 = Some sid
  /\ isDemoMode s1 = true
  /\ loading s1 = false /\ input s1 = [].
Proof.
  intros Hm Hacc Hcur Htxt. cbv zeta.
  destruct (turn_trace_demo g s e sid Hm Hacc Hcur) as (logs & Hq & _ & ->).
  rewrite !run_app, Hq.
  destruct (response_text e) as [txt|];
    [destruct (Htxt txt eq_refl) as [t ->]|];
    cbn; rewrite Hm, Hcur;
    (split; [eexists; reflexivity | repeat split]).
Qed.

(** X5. Take an accepted turn in Demo mode in which the reading of the
    response threw or gave a string as text, so that the render of the
    log does not throw.  After the turn the in-memory list holds the
    same sessions, in the same order; every session carrying the
    current identifier stores exactly the displayed log, and every
    other session is untouched.  Selecting the current session again
    therefore shows the same log. *)
Theorem demo_turn_keeps_session_in_step
  (g : Globals) (s : AppState) (e : Chatbot.TurnEnv) (sid : jsstring) :
  isDemoMode s = true ->
  Chatbot.rejected s = false ->
  currentSessionId s = Some sid ->
  (forall txt, response_text e = Some txt -> exists t, txt = VStr t) ->
  let s1 := run s (trace_of (Chatbot.handleSendMessage g s e)) in
  map Session.id (chatSessions s1) = map Session.id (chatSessions s)
  /\ (forall x, In x (chatSessions s1) -> Session.id x = sid ->
                Session.messages x = messages s1)
  /\ (forall x, In x (chatSessions s) -> Session.id x <> sid ->
                In x (chatSessions s1))
  /\ messages (run s1 (trace_of (Chatbot.selectChatSession s1 sid)))
     = messages s1.
Proof.
  intros Hm Hacc Hcur Htxt. cbv zeta.
  destruct (turn_state_demo g s e sid Hm Hacc Hcur Htxt)
    as ((d & Hs) & _ & Hm1 & _).
  set (s1 := run s (trace_of (Chatbot.handleSendMessage g s e))) in *.
  split; [|split; [|split]].
  - rewrite Hs. apply store_locally_ids.
  - intros x Hin Hid. rewrite Hs in Hin.
    exact (store_locally_current _ _ _ _ x Hin Hid).
  - intros x Hin Hid. rewrite Hs. now apply store_locally_others.
  - unfold Chatbot.selectChatSession. rewrite Hm1.
    destruct (find _ (chatSessions s1)) as [x|] eqn:E; [|reflexivity].
    apply find_some in E as [Hin Hid]. apply str_eq_eq in Hid.
    rewrite Hs in Hin. cbn.
    exact (store_locally_current _ _ _ _ x Hin Hid).
Qed.

Lemma demo_turn_keeps_session_in_step_witness :
  isDemoMode Sample.demo = true
  /\ Chatbot.rejected Sample.demo = false
  /\ currentSessionId Sample.demo = Some (lit "a")
  /\ (forall txt, response_text Sample.turn_ok = Some txt ->
                  exists t, txt = VStr t)
  /\ messages
       (run (run Sample.demo
                 (trace_of (Chatbot.handleSendMessage
                              Sample.globals Sample.demo Sample.turn_ok)))
            (trace_of (Chatbot.selectChatSession
                         (run Sample.demo
                              (trace_of (Chatbot.handleSendMessage
                                           Sample.globals Sample.demo
                                           Sample.turn_ok)))
                         (lit "a"))))
     = messages (run Sample.demo
                     (trace_of (Chatbot.handleSendMessage
                                  Sample.globals Sample.demo Sample.turn_ok))).
Proof.
  assert (Htxt : forall txt, response_text Sample.turn_ok = Some txt ->
                             exists t, txt = VStr t).
  { intros txt H. injection H as <-. eexists. reflexivity. }
  split; [reflexivity|]. split; [reflexivity|]. split; [reflexivity|].
  split; [exact Htxt|].
  apply (demo_turn_keeps_session_in_step Sample.globals Sample.demo
           Sample.turn_ok (lit "a") eq_refl eq_refl eq_refl Htxt).
Defined.

(** X6. A session created while a Demo-mode turn waits for the endpoint
    is lost when the answer arrives with a string as text.  The
    creation runs on the state the turn has reached: it puts the new
    session in front of the list, makes it current and clears the
    loading flag, so the input is unlocked in mid-turn.  The rest of
    the turn then writes back the list of the render that started it:
    the new session is gone from the list although it is still the
    current one, and the log shows the exchange of the old session. *)
Theorem session_created_in_mid_turn_is_lost
  (g : Globals) (s : AppState) (e : Chatbot.TurnEnv) (ce : Chatbot.CreateEnv)
  (sid : jsstring) (t : jsstring) :
  isDemoMode s = true ->
  Chatbot.rejected s = false ->
  currentSessionId s = Some sid ->
  response_text e = Some (VStr t) ->
  ~ In (Chatbot.randomUUID ce) (map Session.id (chatSessions s)) ->
  let turn := until_fetch (trace_of (Chatbot.handleSendMessage g s e)) in
  let s1 := run s (fst turn) in
  let s2 := run s1 (trace_of (Chatbot.createNewChatSession g s1 ce)) in
  let s3 := run s2 (snd turn) in
  fst turn ++ snd turn = trace_of (Chatbot.handleSendMessage g s e)
  /\ loading s1 = true
  /\ In (Chatbot.randomUUID ce) (map Session.id (chatSessions s2))
  /\ currentSessionId s2 = Some (Chatbot.randomUUID ce)
  /\ loading s2 = false
  /\ currentSessionId s3 = Some (Chatbot.randomUUID ce)
  /\ ~ In (Chatbot.randomUUID ce) (map Session.id (chatSessions s3))
  /\ messages s3
     = (messages s ++ [userMessage s e]) ++ [aiMessage e (VStr t)].
Proof.
  intros Hm Hacc Hcur Hresp Hnew. cbv zeta.
  destruct (turn_trace_demo g s e sid Hm Hacc Hcur)
    as (logs & Hq & Hu & ->).
  rewrite Hresp. cbn [Chatbot.rerender].
  assert (Hsplit :
    until_fetch
      ([ PreventDefault; SetMessages (messages s ++ [userMessage s e]);
         SetInput []; SetLoading true;
         SetChatSessions
           (Chatbot.store_locally (chatSessions s) sid
              (messages s ++ [userMessage s e]) (Chatbot.date_user_saved e));
         Fetch (Chatbot.contents s (messages s ++ [userMessage s e])) ]
       ++ logs
       ++ [ SetMessages ((messages s ++ [userMessage s e]) ++ [aiMessage e (VStr t)]);
            SetChatSessions
              (Chatbot.store_locally (chatSessions s) sid
                 ((messages s ++ [userMessage s e]) ++ [aiMessage e (VStr t)])
                 (Chatbot.date_ai_saved e)) ]
       ++ [SetLoading false])
    = ([ PreventDefault; SetMessages (messages s ++ [userMessage s e]);
         SetInput []; SetLoading true;
         SetChatSessions
           (Chatbot.store_locally (chatSessions s) sid
              (messages s ++ [userMessage s e]) (Chatbot.date_user_saved e));
         Fetch (Chatbot.contents s (messages s ++ [userMessage s e])) ],
       logs
       ++ [ SetMessages ((messages s ++ [userMessage s e]) ++ [aiMessage e (VStr t)]);
            SetChatSessions
              (Chatbot.store_locally (chatSessions s) sid
                 ((messages s ++ [userMessage s e]) ++ [aiMessage e (VStr t)])
                 (Chatbot.date_ai_saved e)) ]
       ++ [SetLoading false])) by reflexivity.
  rewrite Hsplit. cbn [fst snd].
  unfold Chatbot.createNewChatSession.
  cbn -[Chatbot.store_locally Chatbot.contents lit]. rewrite Hm.
  cbn -[Chatbot.store_locally Chatbot.contents lit].
  rewrite !run_app, Hq.
  cbn -[Chatbot.store_locally Chatbot.contents lit].
  rewrite !store_locally_ids.
  repeat split; auto.
Qed.

Lemma session_created_in_mid_turn_is_lost_witness :
  isDemoMode Sample.demo = true
  /\ Chatbot.rejected Sample.demo = false
  /\ currentSessionId Sample.demo = Some (lit "a")
  /\ ~ In (lit "n") (map Session.id (chatSessions Sample.demo))
  /\ let turn := until_fetch (trace_of (Chatbot.handleSendMessage
                                          Sample.globals Sample.demo
                                          Sample.turn_ok)) in
     let s1 := run Sample.demo (fst turn) in
     let s2 := run s1 (trace_of (Chatbot.createNewChatSession
                                   Sample.globals s1
                                   (Sample.creation (lit "n") 450%N))) in
     let s3 := run s2 (snd turn) in
     currentSessionId s3 = Some (lit "n")
     /\ map Session.id (chatSessions s3) = [lit "a"; lit "b"].
Proof.
  assert (Hnew : ~ In (lit "n") (map Session.id (chatSessions Sample.demo))).
  { intros [H | [H | []]]; discriminate. }
  split; [reflexivity|]. split; [reflexivity|]. split; [reflexivity|].
  split; [exact Hnew|].
  pose proof (session_created_in_mid_turn_is_lost
                Sample.globals Sample.demo Sample.turn_ok
                (Sample.creation (lit "n") 450%N) (lit "a")
                (lit "Use render.draw_circle.")
                eq_refl eq_refl eq_refl eq_refl Hnew)
    as (_ & _ & _ & _ & _ & H & _).
  split; [exact H | reflexivity].
Defined.

(* ================================================================== *)
(** ** Creating a session *)
(* ================================================================== *)

(** X7. createNewChatSession never throws and always ends with the
    loading flag cleared.  In Demo mode it puts a new empty session,
    titled 'New Chat (Demo)', in front of the list, makes it current and
    empties the log.  In Persistent mode, signed in, it asks the store
    for a session titled with the date; when the store answers, the new
    document becomes current and the log is emptied; when the store
    refuses, the error is logged and the current session and the log
    stay as they were.  In Persistent mode the session list is never
    written: the new session enters it with the next snapshot. *)
Theorem create_session_outcomes
  (g : Globals) (s : AppState) (ce : Chatbot.CreateEnv) :
  let run_it := Chatbot.createNewChatSession g s ce in
  let s1 := run s (trace_of run_it) in
  completes run_it = true
  /\ loading s1 = false
  /\ (isDemoMode s = true ->
      chatSessions s1
      = Session.mk (Chatbot.randomUUID ce) (lit "New Chat (Demo)") []
                   (Chatbot.date_created ce) (Chatbot.date_updated ce)
        :: chatSessions s
      /\ currentSessionId s1 = Some (Chatbot.randomUUID ce)
      /\ messages s1 = []
      /\ filter is_store_write (trace_of run_it) = [])
  /\ (isDemoMode s = false ->
      chatSessions s1 = chatSessions s
      /\ forall uid,
           Chatbot.db_and_userId s = Some uid ->
           filter is_store_write (trace_of run_it)
           = [AddDoc (Chatbot.chatSessionsRef g uid)
                     (lit "New Chat " ++ Chatbot.localeDate ce)
                     (Chatbot.date_created ce) (Chatbot.date_updated ce)]
           /\ (forall new_id,
                 Chatbot.addDoc ce = Some new_id ->
                 currentSessionId s1 = Some new_id /\ messages s1 = [])
           /\ (Chatbot.addDoc ce = None ->
               currentSessionId s1 = currentSessionId s
               /\ messages s1 = messages s)).
Proof.
  cbv zeta. unfold Chatbot.createNewChatSession.
  destruct (isDemoMode s) eqn:Hm.
  - step. repeat split; try discriminate; reflexivity.
  - destruct (Chatbot.db_and_userId s) as [uid|] eqn:Hu.
    + destruct (Chatbot.addDoc ce) as [new_id|] eqn:Ha; step;
        (split; [reflexivity|]); (split; [reflexivity|]);
        (split; [discriminate|]); intros _; (split; [reflexivity|]);
        intros uid' Huid; injection Huid as <-;
        (split; [reflexivity|]); split.
      * intros id' H. injection H as <-. now split.
      * discriminate.
      * discriminate.
      * intros _. now split.
    + step. split; [reflexivity|]. split; [reflexivity|].
      split; [discriminate|]. intros _. split; [reflexivity|].
      intros uid H. discriminate.
Qed.

Lemma create_session_outcomes_witness :
  isDemoMode Sample.signed_in = false
  /\ Chatbot.db_and_userId Sample.signed_in = Some (lit "u1")
  /\ Chatbot.addDoc (Sample.refused 600%N) = None
  /\ currentSessionId
       (run Sample.signed_in
            (trace_of (Chatbot.createNewChatSession
                         Sample.hosted Sample.signed_in (Sample.refused 600%N))))
     = currentSessionId Sample.signed_in.
Proof.
  split; [reflexivity|]. split; [reflexivity|]. split; [reflexivity|].
  destruct (create_session_outcomes Sample.hosted Sample.signed_in
              (Sample.refused 600%N))
    as (_ & _ & _ & H).
  destruct (H eq_refl) as (_ & H').
  destruct (H' (lit "u1") eq_refl) as (_ & _ & H'').
  exact (proj1 (H'' eq_refl)).
Defined.

(* ================================================================== *)
(** ** The session listener and a selection made after it was installed *)
(* ================================================================== *)

(** X8. The session listener keeps the closure of the render that
    installed it.  Installed when no session was current, it makes the
    first session of every non-empty snapshot the current one, whatever
    is current by then: a session the user has selected in the meantime
    is replaced by the most recently updated one. *)
Theorem listener_reselects_the_first_session
  (g : Globals) (s s0 : AppState) (d : QueryDoc) (docs : list QueryDoc)
  (ce : Chatbot.CreateEnv) (selected : jsstring) :
  Chatbot.is_truthy (currentSessionId s) = false ->
  let s1 := run s0 (trace_of (Chatbot.selectChatSession s0 selected)) in
  let s2 := run s1 (trace_of (Chatbot.onSessionsSnapshot g s (d :: docs) ce)) in
  currentSessionId s1 = Some selected
  /\ currentSessionId s2 = Some (qd_id d)
  /\ chatSessions s2 = map Chatbot.session_of_doc (d :: docs)
  /\ messages s2 = messages s1.
Proof.
  intros Hcur. cbv zeta.
  unfold Chatbot.onSessionsSnapshot. rewrite Hcur.
  unfold Chatbot.selectChatSession.
  destruct (isDemoMode s0); [destruct (find _ _)|]; now step.
Qed.

Lemma listener_reselects_the_first_session_witness :
  Chatbot.is_truthy (currentSessionId Sample.signed_in) = false
  /\ currentSessionId
       (run (run Sample.persistent
                 (trace_of (Chatbot.selectChatSession Sample.persistent (lit "b"))))
            (trace_of (Chatbot.onSessionsSnapshot
                         Sample.hosted Sample.signed_in
                         [ {| qd_id := lit "a"; qd_title := lit "New Chat 1/1/2025";
                              qd_messages := []; qd_createdAt := 100%N;
                              qd_updatedAt := 500%N |};
                           {| qd_id := lit "b"; qd_title := lit "New Chat 1/1/2025";
                              qd_messages := []; qd_createdAt := 300%N;
                              qd_updatedAt := 300%N |} ]
                         (Sample.creation (lit "unused") 0%N))))
     = Some (lit "a").
Proof.
  split; [reflexivity|].
  apply (listener_reselects_the_first_session
           Sample.hosted Sample.signed_in Sample.persistent).
  reflexivity.
Defined.

(* ================================================================== *)
(** ** Reading the response of the endpoint *)
(* ================================================================== *)

(** The read of [result.candidates?.[0]?.content?.parts?.[0]?.text]
    throws for [null] and [undefined] only. *)
Lemma candidateText_throws_iff (result : JsVal) :
  Chatbot.candidateText result = None
  <-> result = VNull \/ result = VUndefined.
Proof.
  unfold Chatbot.candidateText, get.
  destruct result; split; intros H; try discriminate; auto;
    destruct H as [H | H]; discriminate.
Qed.

(** X9. The reading of the response ends without a text, in the [catch]
    of line 344, exactly when [fetch] rejects, or the answer is 2xx and
    its body cannot be parsed or is [null], or the answer is not 2xx and
    its body cannot be read.  In every other case it ends with a text
    that is truthy: never the empty string, [null] or [undefined]. *)
Theorem response_reading_outcomes
  (e : Chatbot.TurnEnv) (c : list Content) :
  (snd (Chatbot.generate e c) = None
   <-> Chatbot.fetch e = None
       \/ exists response,
            Chatbot.fetch e = Some response
            /\ (Response.ok response = true
                /\ (Response.json response = None
                    \/ Response.json response = Some VNull
                    \/ Response.json response = Some VUndefined)
                \/ Response.ok response = false
                   /\ Response.text response = None))
  /\ forall txt, snd (Chatbot.generate e c) = Some txt -> truthy txt = true.
Proof.
  rewrite generate_result. unfold response_text.
  destruct (Chatbot.fetch e) as [[okb j tx]|]; cbn [Response.ok Response.json Response.text].
  2:{ split; [split; auto | discriminate]. }
  destruct okb.
  - destruct j as [result|].
    + destruct (Chatbot.candidateText result) as [text|] eqn:Hc.
      * split.
        -- split; [discriminate|].
           intros [H | (r & H & [(_ & [H' | [H' | H']]) | (H' & _)])];
             try discriminate; injection H as <-; cbn in H';
             try discriminate; injection H' as ->; discriminate.
        -- intros txt H. injection H as <-. unfold or_else.
           destruct (truthy text) eqn:E; [exact E | reflexivity].
      * apply candidateText_throws_iff in Hc. split; [|discriminate].
        split; [|reflexivity]. intros _. right. eexists. split; [reflexivity|].
        left. split; [reflexivity|]. destruct Hc as [-> | ->]; auto.
    + split; [|discriminate]. split; [|reflexivity].
      intros _. right. eexists. split; [reflexivity|]. left. auto.
  - destruct tx as [body|].
    + split.
      * split; [discriminate|].
        intros [H | (r & H & [(H' & _) | (_ & H')])]; try discriminate;
          injection H as <-; discriminate.
      * intros txt H. injection H as <-. reflexivity.
    + split; [|discriminate]. split; [|reflexivity].
      intros _. right. eexists. split; [reflexivity|]. right. auto.
Qed.

(** X10. An answer in the shape the endpoint documents, an object whose
    first candidate has a content whose first part has a non-empty
    string as text, makes that string the text of the AI message, other
    fields and further candidates and parts being ignored; the log of
    the turn ends with the user message and that AI message. *)
Theorem wellformed_answer_is_shown
  (g : Globals) (s : AppState) (e : Chatbot.TurnEnv) (response : Response.t)
  (body candidate content part : list (jsstring * JsVal))
  (candidates parts : list JsVal) (c : N) (text : jsstring) :
  Chatbot.rejected s = false ->
  Chatbot.fetch e = Some response ->
  Response.ok response = true ->
  Response.json response = Some (VObj body) ->
  lookup_field (lit "candidates") body = VArr (VObj candidate :: candidates) ->
  lookup_field (lit "content") candidate = VObj content ->
  lookup_field (lit "parts") content = VArr (VObj part :: parts) ->
  lookup_field (lit "text") part = VStr (c :: text) ->
  messages (run s (trace_of (Chatbot.handleSendMessage g s e)))
  = messages s
    ++ [ Message.mk (lit "user") (VStr (trim (input s))) (Chatbot.now_user e);
         Message.mk (lit "ai") (VStr (c :: text)) (Chatbot.now_ai e) ].
Proof.
  intros Hacc Hf Hok Hj H1 H2 H3 H4.
  rewrite (turn_display g s e Hacc s).
  unfold response_text. rewrite Hf, Hok, Hj.
  unfold Chatbot.candidateText. cbn [get read opt_get].
  rewrite H1. cbn [opt_get read nth]. rewrite H2. cbn [opt_get read].
  rewrite H3. cbn [opt_get read nth]. rewrite H4.
  unfold userMessage, aiMessage. cbn. now rewrite <- app_assoc.
Qed.

Lemma wellformed_answer_is_shown_witness :
  Chatbot.rejected Sample.demo = false
  /\ messages (run Sample.demo
                   (trace_of (Chatbot.handleSendMessage
                                Sample.globals Sample.demo Sample.turn_ok)))
     = messages Sample.demo
       ++ [ Message.mk (lit "user") (VStr (lit "and a circle?"))
                       (Chatbot.now_user Sample.turn_ok);
            Message.mk (lit "ai") (VStr (lit "Use render.draw_circle."))
                       (Chatbot.now_ai Sample.turn_ok) ].
Proof.
  split; [reflexivity|].
  exact (wellformed_answer_is_shown
           Sample.globals Sample.demo Sample.turn_ok _ _ _ _ _ [] [] _ _
           eq_refl eq_refl eq_refl eq_refl eq_refl eq_refl eq_refl eq_refl).
Defined.

(** X11. The substitute messages.  When the endpoint answers with a
    status outside 2xx and the body can be read, the turn appends the
    connection-error message.  When it answers 2xx with an object that
    has no candidates, or an empty list of them, the turn appends the
    apology.  In both cases the log ends with the user message and
    that one AI message. *)
Theorem failed_answer_is_replaced_by_a_message
  (g : Globals) (s : AppState) (e : Chatbot.TurnEnv) (response : Response.t) :
  Chatbot.rejected s = false ->
  Chatbot.fetch e = Some response ->
  (Response.ok response = false ->
   forall body, Response.text response = Some body ->
   messages (run s (trace_of (Chatbot.handleSendMessage g s e)))
   = messages s
     ++ [ userMessage s e;
          Message.mk (lit "ai")
            (VStr (lit "There was an error connecting to the AI. Please check the console."))
            (Chatbot.now_ai e) ])
  /\ (Response.ok response = true ->
      forall fields,
        Response.json response = Some (VObj fields) ->
        lookup_field (lit "candidates") fields = VUndefined
        \/ lookup_field (lit "candidates") fields = VArr [] ->
        messages (run s (trace_of (Chatbot.handleSendMessage g s e)))
        = messages s
          ++ [ userMessage s e;
               Message.mk (lit "ai")
                 (VStr (lit "Sorry, I couldn't get a response."))
                 (Chatbot.now_ai e) ]).
Proof.
  intros Hacc Hf. split.
  - intros Hok body Ht.
    rewrite (turn_display g s e Hacc s).
    unfold response_text. rewrite Hf, Hok, Ht.
    now rewrite <- app_assoc.
  - intros Hok fields Hj Hc.
    rewrite (turn_display g s e Hacc s).
    unfold response_text. rewrite Hf, Hok, Hj.
    unfold Chatbot.candidateText. cbn [get read].
    destruct Hc as [-> | ->]; cbn; now rewrite <- app_assoc.
Qed.

Lemma failed_answer_is_replaced_by_a_message_witness :
  Chatbot.rejected Sample.demo = false
  /\ Chatbot.fetch Sample.turn_http_500
     = Some (Response.mk false None (Some (lit "Internal error")))
  /\ messages (run Sample.demo
                   (trace_of (Chatbot.handleSendMessage
                                Sample.globals Sample.demo Sample.turn_http_500)))
     = messages Sample.demo
       ++ [ userMessage Sample.demo Sample.turn_http_500;
            Message.mk (lit "ai")
              (VStr (lit "There was an error connecting to the AI. Please check the console."))
              (Chatbot.now_ai Sample.turn_http_500) ].
Proof.
  split; [reflexivity|]. split; [reflexivity|].
  exact (proj1 (failed_answer_is_replaced_by_a_message
                  Sample.globals Sample.demo Sample.turn_http_500 _
                  eq_refl eq_refl)
               eq_refl (lit "Internal error") eq_refl).
Defined.

(* ================================================================== *)
(** ** The first design: session listener and creation *)
(* ================================================================== *)

Lemma legacy_listener_with_session
  (g : Globals) (s : AppState) (docs : list QueryDoc) (ce : Chatbot.CreateEnv) :
  Chatbot.is_truthy (currentSessionId s) = true ->
  trace_of (Legacy.onSessionsSnapshot g s docs ce)
  = [SetChatSessions (map Chatbot.session_of_doc docs)].
Proof.
  intros H. unfold Legacy.onSessionsSnapshot. rewrite H. reflexivity.
Qed.

(** X12. In the first design, once a session is current the session
    listener only refreshes the list: whatever snapshots arrive, empty
    ones included, it requests no creation and leaves the current
    session and the displayed log as they are. *)
Theorem legacy_listener_is_idle_with_a_session
  (g : Globals) (snapshots : list (list QueryDoc * Chatbot.CreateEnv)) :
  forall s,
    Chatbot.is_truthy (currentSessionId s) = true ->
    let s1 := run s (Legacy.deliver g s snapshots) in
    created (Legacy.deliver g s snapshots) = 0
    /\ currentSessionId s1 = currentSessionId s
    /\ messages s1 = messages s
    /\ chatSessions s1
       = match rev snapshots with
         | [] => chatSessions s
         | (docs, _) :: _ => map Chatbot.session_of_doc docs
         end.
Proof.
  induction snapshots as [|[docs ce] snapshots IH] using rev_ind; intros s Hcur.
  - cbn. auto.
  - cbv zeta.
    assert (Hdel : forall l s',
               Chatbot.is_truthy (currentSessionId s') = true ->
               Legacy.deliver g s' (l ++ [(docs, ce)])
               = Legacy.deliver g s' l
                 ++ [SetChatSessions (map Chatbot.session_of_doc docs)]
               /\ currentSessionId (run s' (Legacy.deliver g s' l))
                  = currentSessionId s').
    { induction l as [|[docs' ce'] l IHl]; intros s' Hs'.
      - cbn [app Legacy.deliver fst snd].
        rewrite (legacy_listener_with_session g s' docs ce Hs'). now cbn.
      - cbn [app Legacy.deliver fst snd].
        rewrite (legacy_listener_with_session g s' docs' ce' Hs').
        assert (Hs'' : Chatbot.is_truthy
                         (currentSessionId
                            (run s' [SetChatSessions
                                       (map Chatbot.session_of_doc docs')]))
                       = true) by exact Hs'.
        destruct (IHl _ Hs'') as [-> Hc]. split.
        + now rewrite <- app_assoc.
        + rewrite run_app. exact Hc. }
    destruct (Hdel snapshots s Hcur) as [-> _].
    destruct (IH s Hcur) as (Hc & Hs & Hm & _).
    rewrite created_app, Hc, run_app, rev_app_distr. cbn.
    rewrite Hs, Hm. auto.
Qed.

Lemma legacy_listener_is_idle_with_a_session_witness :
  Chatbot.is_truthy (currentSessionId Sample.persistent) = true
  /\ created (Legacy.deliver Sample.hosted Sample.persistent
                             Sample.two_empty_snapshots) = 0.
Proof.
  split; [reflexivity|].
  apply (legacy_listener_is_idle_with_a_session
           Sample.hosted Sample.two_empty_snapshots Sample.persistent).
  reflexivity.
Defined.

(** X13. Creation in the first design.  Without a store handle or a
    user it returns at once, the loading flag untouched.  Signed in, it
    reads the [__app_id] global without a default: when the host page
    does not define it, the read throws inside the [try], the error is
    logged, no request reaches the store, and only the loading flag,
    cleared by the [finally], has been written. *)
Theorem legacy_creation_needs_the_app_id
  (g : Globals) (s : AppState) (ce : Chatbot.CreateEnv) :
  (Chatbot.db_and_userId s = None ->
   Legacy.createNewChatSession g s ce = ([], Some tt))
  /\ (forall uid,
        Chatbot.db_and_userId s = Some uid ->
        __app_id g = None ->
        Legacy.createNewChatSession g s ce
        = ([ SetLoading true;
             ConsoleError (lit "Error creating new chat session:");
             SetLoading false ], Some tt))
  /\ (forall uid app,
        Chatbot.db_and_userId s = Some uid ->
        __app_id g = Some app ->
        filter is_store_write (trace_of (Legacy.createNewChatSession g s ce))
        = [AddDoc {| col_appId := app; col_userId := uid |}
                  (lit "New Chat " ++ Chatbot.localeDate ce)
                  (Chatbot.date_created ce) (Chatbot.date_updated ce)]
        /\ loading (run s (trace_of (Legacy.createNewChatSession g s ce)))
           = false).
Proof.
  unfold Legacy.createNewChatSession. split; [|split].
  - intros ->. reflexivity.
  - intros uid -> ->. reflexivity.
  - intros uid app -> ->. destruct (Chatbot.addDoc ce); now step.
Qed.

Lemma legacy_creation_needs_the_app_id_witness :
  Chatbot.db_and_userId Sample.signed_in = Some (lit "u1")
  /\ __app_id Sample.globals = None
  /\ Legacy.createNewChatSession Sample.globals Sample.signed_in
                                 (Sample.creation (lit "s1") 600%N)
     = ([ SetLoading true;
          ConsoleError (lit "Error creating new chat session:");
          SetLoading false ], Some tt).
Proof.
  split; [reflexivity|]. split; [reflexivity|].
  exact (proj1 (proj2 (legacy_creation_needs_the_app_id
                         Sample.globals Sample.signed_in
                         (Sample.creation (lit "s1") 600%N)))
               (lit "u1") eq_refl eq_refl).
Defined.

(* ================================================================== *)
(** ** Demo mode: the first session *)
(* ================================================================== *)

(** X14. In Demo mode the session effect creates a session exactly when
    it runs with an empty list after readiness: the list then holds that
    one session, empty and current, the log is empty and the loading
    flag is cleared; run again on the resulting state, or on any state
    with a session, or before readiness, the effect does nothing.  It
    never subscribes to the store. *)
Theorem demo_effect_creates_the_first_session_once
  (g : Globals) (s : AppState) (ce ce' : Chatbot.CreateEnv) :
  isDemoMode s = true ->
  (isReady s = false -> trace_of (Chatbot.sessionsEffect g s ce) = [])
  /\ (chatSessions s <> [] -> trace_of (Chatbot.sessionsEffect g s ce) = [])
  /\ (isReady s = true -> chatSessions s = [] ->
      let s1 := run s (trace_of (Chatbot.sessionsEffect g s ce)) in
      chatSessions s1
      = [Session.mk (Chatbot.randomUUID ce) (lit "New Chat (Demo)") []
                    (Chatbot.date_created ce) (Chatbot.date_updated ce)]
      /\ currentSessionId s1 = Some (Chatbot.randomUUID ce)
      /\ messages s1 = [] /\ loading s1 = false
      /\ trace_of (Chatbot.sessionsEffect g s1 ce') = []).
Proof.
  intros Hm. unfold Chatbot.sessionsEffect, Chatbot.createNewChatSession.
  rewrite Hm. split; [|split].
  - intros ->. reflexivity.
  - intros Hne. destruct (isReady s); [|reflexivity].
    destruct (chatSessions s); [contradiction | reflexivity].
  - intros Hr Hc. rewrite Hr, Hc. step. rewrite Hr, Hm. repeat split.
Qed.

Lemma demo_effect_creates_the_first_session_once_witness :
  isDemoMode Sample.demo_start = true
  /\ isReady Sample.demo_start = true
  /\ chatSessions Sample.demo_start = []
  /\ currentSessionId
       (run Sample.demo_start
            (trace_of (Chatbot.sessionsEffect
                         Sample.globals Sample.demo_start
                         (Sample.creation (lit "s1") 600%N))))
     = Some (lit "s1").
Proof.
  split; [reflexivity|]. split; [reflexivity|]. split; [reflexivity|].
  destruct (demo_effect_creates_the_first_session_once
              Sample.globals Sample.demo_start
              (Sample.creation (lit "s1") 600%N)
              (Sample.creation (lit "s2") 700%N) eq_refl)
    as (_ & _ & H).
  exact (proj1 (proj2 (H eq_refl eq_refl))).
Defined.

(* ================================================================== *)
(** ** What a code block shows *)
(* ================================================================== *)

Lemma strip_from_skipn (s : jsstring) :
  forall k, Render.strip_from s k = Render.strip_from (skipn k s) 0.
Proof.
  induction s as [|c s IH]; intros [|k]; try reflexivity.
  cbn [Render.strip_from skipn]. apply IH.
Qed.

Lemma strip_keep (c : N) (r : jsstring) :
  Render.startsWith (c :: r) Render.fence = false ->
  Render.strip_from (c :: r) 0 = c :: Render.strip_from r 0.
Proof.
  intros H. cbn [Render.strip_from]. unfold Render.open_fence.
  now rewrite H.
Qed.

(** At a fence the scan drops characters and goes on further in the
    text. *)
Lemma strip_drop (s : jsstring) :
  Render.startsWith s Render.fence = true ->
  exists rest,
    List.length rest < List.length s
    /\ Render.strip_from s 0 = Render.strip_from rest 0.
Proof.
  intros H. destruct s as [|c r]; [discriminate|].
  cbn [Render.strip_from].
  destruct (Render.open_fence (c :: r)) as [[opening rest]|] eqn:Ho.
  - apply open_fence_spec in Ho as [Hs (lang & _ & Hform)].
    destruct opening as [|o opening']; [discriminate|].
    injection Hs as <- ->.
    exists rest. split.
    + cbn. rewrite length_app. lia.
    + cbn [List.length]. rewrite Nat.sub_succ, Nat.sub_0_r.
      apply strip_from_skip.
  - rewrite H. exists (skipn 2 r). split.
    + cbn [List.length]. pose proof (length_skipn 2 r). lia.
    + apply strip_from_skipn.
Qed.

(** A backtick that is kept is not followed, in the result, by two
    more. *)
Lemma kept_backtick_starts_no_fence (r : jsstring) :
  Render.startsWith (96%N :: r) Render.fence = false ->
  Render.startsWith (96%N :: Render.strip_from r 0) Render.fence = false.
Proof.
  intros H.
  destruct r as [|d r']; [reflexivity|].
  destruct (N.eqb d 96) eqn:Hd.
  - apply N.eqb_eq in Hd. subst d.
    destruct r' as [|x r'']; [reflexivity|].
    destruct (N.eqb x 96) eqn:Hx.
    + apply N.eqb_eq in Hx. subst x. discriminate H.
    + assert (H1 : Render.startsWith (96%N :: x :: r'') Render.fence = false).
      { cbn. now rewrite Hx. }
      rewrite (strip_keep _ _ H1).
      destruct (no_fence_at_head x r'' Hx) as (H2 & _).
      rewrite (strip_keep _ _ H2). cbn. now rewrite Hx.
  - destruct (no_fence_at_head d r' Hd) as (H1 & _).
    rewrite (strip_keep _ _ H1). cbn. now rewrite Hd.
Qed.

Lemma strip_has_no_fence (n : nat) :
  forall s, List.length s <= n ->
            Render.has_fence (Render.strip_from s 0) = false.
Proof.
  induction n as [|n IH]; intros s Hn.
  - destruct s; [reflexivity | cbn in Hn; lia].
  - destruct s as [|c r]; [reflexivity|].
    destruct (Render.startsWith (c :: r) Render.fence) eqn:Hf.
    + destruct (strip_drop _ Hf) as (rest & Hlen & ->).
      apply IH. cbn in Hn, Hlen. lia.
    + rewrite (strip_keep c r Hf). cbn [Render.has_fence].
      rewrite (IH r) by (cbn in Hn; lia). rewrite orb_false_r.
      destruct (N.eqb c 96) eqn:Hc.
      * apply N.eqb_eq in Hc. subst c.
        now apply kept_backtick_starts_no_fence.
      * cbn. now rewrite Hc.
Qed.

Lemma render_part_code (part : jsstring) :
  forall content,
    Render.render_part part = Render.CodeBlock content ->
    Render.startsWith part Render.fence = true
    /\ content = Render.strip_markers part.
Proof.
  intros content. unfold Render.render_part.
  destruct (Render.startsWith part Render.fence).
  - intros H. injection H as <-. now split.
  - destruct (Render.startsWith part (lit "## ")); discriminate.
Qed.

(** X19. No code block shows three backticks in a row, whatever the
    message text: the markers are removed wherever they stand in the
    part, and the removal brings no new ones together. *)
Theorem code_block_shows_no_fence (text content : jsstring) :
  In (Render.CodeBlock content) (Render.renderMessageContent text) ->
  Render.has_fence content = false.
Proof.
  unfold Render.renderMessageContent. rewrite in_map_iff.
  intros (part & Hpart & _).
  apply render_part_code in Hpart as [_ ->].
  unfold Render.strip_markers.
  now apply (strip_has_no_fence (List.length part)).
Qed.

Lemma code_block_shows_no_fence_witness :
  In (Render.CodeBlock (lit "a `` b" ++ nl))
     (Render.renderMessageContent
        (Render.fence ++ lit "lua" ++ nl ++ lit "a `" ++ Render.fence
         ++ lit "` b" ++ nl ++ Render.fence))
  /\ Render.has_fence (lit "a `` b" ++ nl) = false.
Proof.
  assert (H : In (Render.CodeBlock (lit "a `` b" ++ nl))
                 (Render.renderMessageContent
                    (Render.fence ++ lit "lua" ++ nl ++ lit "a `" ++ Render.fence
                     ++ lit "` b" ++ nl ++ Render.fence))).
  { right. left. reflexivity. }
  split; [exact H|].
  exact (code_block_shows_no_fence _ _ H).
Defined.

(* ================================================================== *)
(** ** From start-up to the session subscription *)
(* ================================================================== *)

Lemma auth_event_untouched (g : Globals) (ev : Chatbot.AuthEvent) (s0 : AppState) :
  let s1 := run s0 (trace_of (Chatbot.onAuthStateChanged g ev)) in
  db s1 = db s0 /\ chatSessions s1 = chatSessions s0
  /\ currentSessionId s1 = currentSessionId s0 /\ messages s1 = messages s0
  /\ userId s1 = match Chatbot.ev_user ev with
                 | Some uid => Some uid
                 | None => userId s0
                 end.
Proof.
  unfold Chatbot.onAuthStateChanged.
  destruct (Chatbot.ev_user ev), (__initial_auth_token g), (Chatbot.signIn ev);
    now step.
Qed.

Lemma auth_events_untouched (g : Globals) (events : list Chatbot.AuthEvent) :
  forall s0,
    let s1 := run s0 (flat_map (fun ev => trace_of (Chatbot.onAuthStateChanged g ev))
                               events) in
    db s1 = db s0 /\ chatSessions s1 = chatSessions s0
    /\ currentSessionId s1 = currentSessionId s0 /\ messages s1 = messages s0.
Proof.
  induction events as [|ev events IH]; intros s0; [now cbn|].
  cbn [flat_map]. cbv zeta. rewrite run_app.
  destruct (IH (run s0 (trace_of (Chatbot.onAuthStateChanged g ev))))
    as (-> & -> & -> & ->).
  destruct (auth_event_untouched g ev s0) as (-> & -> & -> & -> & _).
  auto.
Qed.

(** X20. Start-up in Persistent mode.  When the configuration names a
    project, the store and the authentication provider are set up
    without an error, no sign-in throws and the authentication listener
    is last told of a user, the component ends in Persistent mode,
    ready, with the store handle and that user's identifier; the session
    effect then subscribes to that user's session collection, under the
    application identifier of the host page or ['default-app-id'], and
    the message effect, no session being current yet, subscribes to
    nothing. *)
Theorem persistent_startup_subscribes_to_the_sessions
  (g : Globals) (e : Chatbot.InitEnv) (earlier : list Chatbot.AuthEvent)
  (c : N) (uid : jsstring) (outcome : option unit) (ce : Chatbot.CreateEnv) :
  has_projectId g e ->
  ~ sdk_setup_throws e ->
  ~ sign_in_throws earlier ->
  let events :=
    earlier ++ [ {| Chatbot.ev_user := Some (c :: uid);
                    Chatbot.signIn := outcome |} ] in
  let final := run initialState (Chatbot.initialize g e events) in
  isDemoMode final = false
  /\ isReady final = true
  /\ db final = Chatbot.getFirestore e
  /\ userId final = Some (c :: uid)
  /\ chatSessions final = [] /\ currentSessionId final = None
  /\ trace_of (Chatbot.sessionsEffect g final ce)
     = [SubscribeSessions
          {| col_appId := match __app_id g with
                          | Some a => a
                          | None => lit "default-app-id"
                          end;
             col_userId := c :: uid |}]
  /\ trace_of (Chatbot.messagesEffect g final) = [].
Proof.
  intros Hid Hsdk Hearlier. cbv zeta.
  set (last := {| Chatbot.ev_user := Some (c :: uid); Chatbot.signIn := outcome |}).
  unfold Chatbot.initialize.
  destruct (initEffect_cases g e)
    as [(_ & _ & d & a & Hinit) | (Hfall & _)].
  2:{ exfalso. destruct Hfall as [H | [H | H]]; try tauto.
      destruct Hid as (cfg & _ & _ & Hc & _). unfold config_absent in H.
      congruence. }
  assert (Hd : Chatbot.getFirestore e = Some d).
  { unfold Chatbot.initEffect in Hinit.
    destruct Hid as (cfg & parsed & pid & Hc & Hp & Hg & Ht).
    rewrite Hc in Hinit. cbn -[lit get] in Hinit.
    rewrite Hp in Hinit. cbn -[lit get] in Hinit.
    rewrite Hg in Hinit. cbn -[lit get] in Hinit.
    rewrite Ht in Hinit. cbn -[lit get] in Hinit.
    destruct (Chatbot.initializeApp e) as [[]|]; [|discriminate].
    destruct (Chatbot.getFirestore e) as [d'|]; [|discriminate].
    destruct (Chatbot.getAuth e) as [a'|]; [|discriminate].
    destruct (Chatbot.onAuthStateChanged_registers e) as [[]|];
      [|discriminate].
    cbn in Hinit. now injection Hinit as -> _. }
  rewrite Hinit. cbn [trace_of fst snd].
  rewrite flat_map_app, !run_app. cbn [flat_map]. rewrite app_nil_r.
  set (s0 := run initialState [SetDb d; SetAuth a; SubscribeAuth]).
  set (s1 := run s0 (flat_map (fun ev => trace_of (Chatbot.onAuthStateChanged g ev))
                              earlier)).
  destruct (auth_events_state g earlier s0) as [Hm1 _]. fold s1 in Hm1.
  destruct (auth_events_untouched g earlier s0) as (Hdb & Hcs & Hcur & _).
  fold s1 in Hdb, Hcs, Hcur.
  assert (Hno : existsb sign_in_throwsb earlier = false).
  { destruct (existsb sign_in_throwsb earlier) eqn:E; [|reflexivity].
    apply sign_in_throwsb_spec in E. contradiction. }
  rewrite Hno in Hm1. cbn in Hm1.
  unfold Chatbot.onAuthStateChanged, last. cbn [Chatbot.ev_user].
  unfold Chatbot.sessionsEffect, Chatbot.messagesEffect, Chatbot.db_and_userId,
    Chatbot.chatSessionsRef, Chatbot.appId.
  cbn -[lit]. rewrite Hm1, Hdb, Hcs, Hcur, Hd. cbn -[lit].
  repeat split.
Qed.

Lemma persistent_startup_subscribes_to_the_sessions_witness :
  has_projectId Sample.hosted Sample.init_ok
  /\ ~ sdk_setup_throws Sample.init_ok
  /\ ~ sign_in_throws [ {| Chatbot.ev_user := None; Chatbot.signIn := Some tt |} ]
  /\ trace_of (Chatbot.sessionsEffect
                 Sample.hosted
                 (run initialState
                      (Chatbot.initialize Sample.hosted Sample.init_ok
                                          Sample.sign_in_succeeds))
                 (Sample.creation (lit "unused") 0%N))
     = [SubscribeSessions {| col_appId := lit "perception-chat";
                             col_userId := lit "u1" |}].
Proof.
  assert (H1 : has_projectId Sample.hosted Sample.init_ok).
  { unfold has_projectId. eexists _, _, _. repeat split; reflexivity. }
  assert (H2 : ~ sdk_setup_throws Sample.init_ok).
  { intros [H | [H | [H | H]]]; discriminate. }
  assert (H3 : ~ sign_in_throws
                 [ {| Chatbot.ev_user := None; Chatbot.signIn := Some tt |} ]).
  { intros (ev & [<- | []] & _ & H). discriminate. }
  split; [exact H1|]. split; [exact H2|]. split; [exact H3|].
  exact (proj1 (proj2 (proj2 (proj2 (proj2 (proj2 (proj2
           (persistent_startup_subscribes_to_the_sessions
              Sample.hosted Sample.init_ok
              [ {| Chatbot.ev_user := None; Chatbot.signIn := Some tt |} ]
              117%N (lit "1") (Some tt)
              (Sample.creation (lit "unused") 0%N) H1 H2 H3)))))))).
Defined.
